(** * converter_arquivos.py: the PDF to DOCX conversion pipeline

    A shallow embedding of [extract_tables], [extract_images],
    [convert_pdf_to_docx], [_convert_single] and [_convert_all_pdfs].

    The two external libraries (PyMuPDF and python-docx) and the file
    system appear through the observable behaviour the script relies on:
    a parsed PDF is a list of pages, the output document is a list of
    blocks, the file system is a finite map from paths to nodes, and
    Python exceptions are values of [exc] threaded through a state and
    exception monad whose state survives a raise, as it does in Python. *)

From stdpp Require Import gmap strings list fin_maps pretty sorting.
From Stdlib Require Import ZArith Lia Ascii.
From Stdlib.Init Require Import Byte.

Open Scope string_scope.
Open Scope nat_scope.
Open Scope list_scope.

(** ** Python text *)

(** A Python [str] is a sequence of Unicode code points. *)
Abbreviation text := (list N).

(** [text_of s] reads an ASCII literal as text, one code point per character. *)
Definition text_of (s : string) : text :=
  map Ascii.N_of_ascii (String.list_ascii_of_string s).

(** [str.isspace] on one code point: the characters [str.strip] removes. *)
Definition isspace (c : N) : bool :=
  ((9 <=? c) && (c <=? 13) || (28 <=? c) && (c <=? 32)
   || (c =? 133) || (c =? 160) || (c =? 5760)
   || (8192 <=? c) && (c <=? 8202)
   || (c =? 8232) || (c =? 8233) || (c =? 8239) || (c =? 8287)
   || (c =? 12288))%N.

Fixpoint lstrip (s : text) : text :=
  match s with
  | c :: s' => if isspace c then lstrip s' else s
  | [] => []
  end.

Definition rstrip (s : text) : text := rev (lstrip (rev s)).

(** [s.strip()] *)
Definition strip (s : text) : text := rstrip (lstrip s).

(** The code points lxml lets into an XML tree (the [Char] production of
    XML 1.0): tab, line feed, carriage return and everything from the
    space on, the surrogates and U+FFFE, U+FFFF apart.  For a string
    with any other code point lxml raises [ValueError] ("All strings
    must be XML compatible"). *)
Definition xml_char (c : N) : bool :=
  ((c =? 9) || (c =? 10) || (c =? 13)
   || (32 <=? c) && (c <=? 55295)
   || (57344 <=? c) && (c <=? 65533)
   || (65536 <=? c) && (c <=? 1114111))%N.

(** The characters at which python-docx's [_RunContentAppender] ends a
    stretch of text: a tab becomes [<w:tab/>], a line feed or a carriage
    return becomes [<w:br/>]. *)
Definition run_break (c : N) : bool := ((c =? 9) || (c =? 10) || (c =? 13))%N.

(** [run.text = t], as [_RunContentAppender.add_text] does it: the
    characters are buffered up to the next tab or line break, or the end
    of the text, and the buffer is then handed to lxml as one [<w:t>]
    element, which raises [ValueError] on a character that is not
    [xml_char].  [content] is what the run holds so far, [bfr] the
    buffer.  The result is what the run holds in the end, and whether
    the whole text went in. *)
Fixpoint append_to_run (content bfr t : text) : text * bool :=
  match t with
  | [] => if forallb xml_char bfr then (content ++ bfr, true) else (content, false)
  | c :: t' =>
      if run_break c then
        if forallb xml_char bfr then append_to_run (content ++ bfr ++ [c]) [] t'
        else (content, false)
      else append_to_run content (bfr ++ [c]) t'
  end.

Definition run_text (t : text) : text * bool := append_to_run [] [] t.

(** ** Exceptions *)

Inductive exc :=
  | AttributeError
  | IndexError
  | ValueError
  | FileNotFoundError
  | FileExistsError
  | IsADirectoryError
  | NotADirectoryError
  | DirectoryNotEmpty          (* OSError, errno ENOTEMPTY *)
  | InvalidArgument            (* OSError, errno EINVAL *)
  | FitzFileNotFoundError      (* fitz.FileNotFoundError, a RuntimeError *)
  | FitzFileDataError          (* fitz.FileDataError, a RuntimeError *)
  | UnrecognizedImageError.    (* docx.image.exceptions *)

Global Instance exc_eq_dec : EqDecision exc.
Proof. solve_decision. Defined.

(** [isinstance(e, OSError)] *)
Definition is_OSError (e : exc) : bool :=
  match e with
  | FileNotFoundError | FileExistsError | IsADirectoryError
  | NotADirectoryError | DirectoryNotEmpty | InvalidArgument => true
  | _ => false
  end.

Definition is_AttributeError (e : exc) : bool :=
  match e with AttributeError => true | _ => false end.

(** [isinstance(e, Exception)]: every exception modelled here. *)
Definition is_Exception (e : exc) : bool := true.

(** ** The source document (PyMuPDF) *)

(** What [table.extract()] returns: rows of cells, a cell being a string
    or [None]. *)
Abbreviation TableData := (list (list (option text))).

(** One entry of [page.get_images(full=True)]: [img[0]] is the xref, and
    [image] stands for [page.parent.extract_image(xref)["image"]]. *)
Record Image := { xref : Z; image : list byte }.

(** A page.  [find_tables = None] is a PyMuPDF without [Page.find_tables]
    (the attribute lookup raises [AttributeError]); [Some ts] is a
    [TableFinder] whose [.tables] extract to [ts]. *)
Record Page := {
  get_text : text;
  find_tables : option (list TableData);
  get_images : list Image
}.

Abbreviation PDF := (list Page).

(** ** The output document (python-docx) *)

(** A table keeps its cells in one row-major list, as python-docx's
    [Table._cells] does. *)
Record Table := { t_rows : nat; t_cols : nat; t_cells : list text }.

Inductive block :=
  | Paragraph (t : text)
  | TableB (tb : Table)
  | Picture (data : list byte) (width : Z).

Abbreviation Document := (list block).

(** [Inches(2.5)], in English Metric Units (914400 per inch). *)
Definition Inches_2_5 : Z := 2286000.

(** ** Paths and the file system *)

(** A path is its list of components; [[]] is the directory that relative
    paths start from. *)
Abbreviation path := (list string).

(** What a file holds: raw bytes, or a document python-docx has saved,
    kept as its blocks. *)
Inductive content :=
  | Bytes (b : list byte)
  | Docx (d : Document).

Inductive node := Dir | File (c : content).

(** ** User interface events of the batch driver *)

Inductive event :=
  | ShowWarning_NoPdf                          (* "Nenhum PDF encontrado na pasta selecionada." *)
  | ProgConfigure (maximum value : nat)        (* self.prog.configure(maximum=, value=) *)
  | StatusConverting (total : nat)             (* "Convertendo 0/%d…" *)
  | StatusFile (name : string) (idx total : nat) (* f"{pdf_path.name} ({idx}/{total})" *)
  | ProgValue (value : nat)                    (* self.prog.configure(value=val) *)
  | ShowError (name : string) (cause : exc)    (* f"Falha ao converter {pdf_path.name}: {exc}" *)
  | StatusDone (total : nat)                   (* f"Concluído! {total} arquivo(s) convertidos." *)
  | ShowInfo_Done                              (* "Conversão finalizada com êxito!" *)
  | ProgAfterReset.                            (* self.prog.after(2000, ...) *)

(** ** Program state and the monad *)

Record State := {
  fs : gmap path node;     (* the file system *)
  doc : Document;          (* the python-docx document under construction *)
  closed : nat;            (* how many times [pdf.close()] has run *)
  ui : list event          (* what the GUI has been told, oldest first *)
}.

Definition set_fs (f : gmap path node) (s : State) : State :=
  {| fs := f; doc := doc s; closed := closed s; ui := ui s |}.
Definition set_doc (d : Document) (s : State) : State :=
  {| fs := fs s; doc := d; closed := closed s; ui := ui s |}.
Definition set_closed (n : nat) (s : State) : State :=
  {| fs := fs s; doc := doc s; closed := n; ui := ui s |}.
Definition set_ui (l : list event) (s : State) : State :=
  {| fs := fs s; doc := doc s; closed := closed s; ui := l |}.

Inductive outcome (A : Type) :=
  | Ok (a : A)
  | Raise (e : exc).
Arguments Ok {A} a.
Arguments Raise {A} e.

(** A computation returns or raises, and in both cases leaves a state. *)
Definition M (A : Type) : Type := State → outcome A * State.

Global Instance M_ret : MRet M := λ A a s, (Ok a, s).
Global Instance M_bind : MBind M := λ A B f m s,
  match m s with
  | (Ok a, s') => f a s'
  | (Raise e, s') => (Raise e, s')
  end.

Definition raise {A} (e : exc) : M A := λ s, (Raise e, s).
Definition gets {B} (proj : State → B) : M B := λ s, (Ok (proj s), s).
Definition modify (f : State → State) : M unit := λ s, (Ok tt, f s).

(** [try: body  except E: handler], where [catches e] says that [e] is an
    instance of [E]. *)
Definition try_except {A} (catches : exc → bool) (body : M A)
    (handler : exc → M A) : M A := λ s,
  match body s with
  | (Ok a, s') => (Ok a, s')
  | (Raise e, s') => if catches e then handler e s' else (Raise e, s')
  end.

(** [try: body  finally: fin].  The outcome of [body] stands unless [fin]
    itself raises. *)
Definition try_finally {A} (body : M A) (fin : M unit) : M A := λ s,
  match body s with
  | (r, s') =>
      match fin s' with
      | (Ok _, s'') => (r, s'')
      | (Raise e, s'') => (Raise e, s'')
      end
  end.

(** [for x in l: f x] *)
Fixpoint for_each {A} (f : A → M unit) (l : list A) : M unit :=
  match l with
  | [] => mret tt
  | x :: l' => f x;; for_each f l'
  end.

(** [enumerate(l, start)] *)
Fixpoint enumerate_from {A} (start : nat) (l : list A) : list (nat * A) :=
  match l with
  | [] => []
  | x :: l' => (start, x) :: enumerate_from (S start) l'
  end.
Definition enumerate {A} (l : list A) : list (nat * A) := enumerate_from 0 l.

(** ** python-docx operations on the document *)

(** [doc.add_paragraph(text)]: python-docx appends the paragraph to the
    body and then sets the text of its run, so that a text lxml refuses
    leaves the paragraph behind, with the part of the text that went
    in. *)
Definition add_paragraph (t : text) : M unit := λ s,
  let '(content, ok) := run_text t in
  (if ok then Ok tt else Raise ValueError,
   set_doc (doc s ++ [Paragraph content]) s).

(** [doc.add_table(rows=, cols=)]: a new table of empty cells at the end
    of the document.  The returned handle is the block's position. *)
Definition add_table (rows cols : nat) : M nat := λ s,
  (Ok (length (doc s)),
   set_doc (doc s ++ [TableB {| t_rows := rows; t_cols := cols;
                                 t_cells := replicate (rows * cols) [] |}]) s).

(** [doc_table.cell(r, c).text = t].  python-docx locates the cell as
    [self._cells[c + r * self._column_count]]; an index past the end of
    the list raises [IndexError].  The setter then clears the cell and
    sets the text of a new run: a text lxml refuses raises [ValueError]
    and leaves in the cell the part that went in. *)
Definition set_cell_text (h r c : nat) (t : text) : M unit := λ s,
  match doc s !! h with
  | Some (TableB tb) =>
      let cell_idx := c + r * t_cols tb in
      if decide (cell_idx < length (t_cells tb)) then
        let '(content, ok) := run_text t in
        (if ok then Ok tt else Raise ValueError,
         set_doc (<[h := TableB {| t_rows := t_rows tb; t_cols := t_cols tb;
                                   t_cells := <[cell_idx := content]> (t_cells tb) |}]>
                    (doc s)) s)
      else (Raise IndexError, s)
  | _ => (Raise IndexError, s)
  end.

(** [cell or ''], the empty string standing in for [None] *)
Definition cell_or_empty (cell : option text) : text :=
  match cell with
  | Some t => t
  | None => []
  end.

(** ** extract_tables *)

(** [page.find_tables()] *)
Definition call_find_tables (page : Page) : M (option (list TableData)) :=
  match find_tables page with
  | Some ts => mret (Some ts)
  | None => raise AttributeError
  end.

Definition copy_table (data : TableData) : M unit :=
  match data with
  | [] => mret tt                                      (* if not data: continue *)
  | row0 :: _ =>
      let rows := length data in
      let cols := length row0 in
      doc_table ← add_table rows cols;
      for_each (λ '(r, row),
        for_each (λ '(c, cell),
          set_cell_text doc_table r c (strip (cell_or_empty cell)))
          (enumerate row))
        (enumerate data)
  end.

Definition extract_tables (page : Page) : M unit :=
  tables ← try_except is_AttributeError
              (call_find_tables page) (λ _, mret None);
  match tables with
  | None | Some [] => mret tt     (* if not tables or not tables.tables: return *)
  | Some ts => for_each copy_table ts
  end.


(** ** pathlib *)

(** [p.parent] *)
Definition parent (p : path) : path := removelast p.

(** [p.name] *)
Definition name (p : path) : string := default EmptyString (last p).

(** [p.with_name(n)]; a path without a name raises [ValueError]. *)
Definition with_name (p : path) (n : string) : M path :=
  match p with
  | [] => raise ValueError
  | _ => mret (parent p ++ [n])
  end.

(** [name.rfind(".")], scanning [l] from position [i] with the last hit
    so far in [hit]. *)
Fixpoint rfind_dot_from (i : nat) (hit : option nat) (l : list ascii) : option nat :=
  match l with
  | [] => hit
  | c :: l' =>
      rfind_dot_from (S i) (if Ascii.eqb c "." then Some i else hit) l'
  end.
Definition rfind_dot (n : string) : option nat :=
  rfind_dot_from 0 None (String.list_ascii_of_string n).

(** [PurePath.stem]: the name without its last suffix; a leading or a
    trailing dot does not start a suffix. *)
Definition stem (n : string) : string :=
  match rfind_dot n with
  | Some i =>
      if Nat.ltb 0 i && Nat.ltb i (String.length n - 1)
      then String.substring 0 i n else n
  | None => n
  end.

(** Matching a name against a glob pattern in which [*] stands for any
    run of characters and every other character for itself, compared
    case-sensitively as on a POSIX path flavour. *)
Fixpoint fnmatch (pat nm : list ascii) : bool :=
  match pat with
  | [] => match nm with [] => true | _ => false end
  | c :: pat' =>
      if Ascii.eqb c "*" then
        (fix star (nm : list ascii) : bool :=
           fnmatch pat' nm ||
           match nm with
           | [] => false
           | _ :: nm' => star nm'
           end) nm
      else
        match nm with
        | [] => false
        | d :: nm' => Ascii.eqb c d && fnmatch pat' nm'
        end
  end.

(** The order [sorted] puts paths in: component by component, strings by
    code point. *)
Fixpoint path_leb (p q : path) : bool :=
  match p, q with
  | [], _ => true
  | _ :: _, [] => false
  | x :: p', y :: q' =>
      match String.compare x y with
      | Lt => true
      | Gt => false
      | Eq => path_leb p' q'
      end
  end.
Definition path_le (p q : path) : Prop := path_leb p q = true.
Global Instance path_le_dec p q : Decision (path_le p q).
Proof. unfold path_le. apply _. Defined.

(** [sorted(paths)] *)
Definition sorted (l : list path) : list path := merge_sort path_le l.

(** ** datetime *)

Record datetime := {
  year : N; month : N; day : N;
  hour : N; minute : N; second : N; microsecond : N
}.

Definition digit (d : N) : ascii := Ascii.ascii_of_N (48 + d).

(** [now.strftime("%Y%m%d%H%M%S")]: four digits of year, two each of
    month, day, hour, minute and second. *)
Definition strftime_YmdHMS (t : datetime) : string :=
  String (digit (year t / 1000 mod 10)) (String (digit (year t / 100 mod 10))
  (String (digit (year t / 10 mod 10)) (String (digit (year t mod 10))
  (String (digit (month t / 10 mod 10)) (String (digit (month t mod 10))
  (String (digit (day t / 10 mod 10)) (String (digit (day t mod 10))
  (String (digit (hour t / 10 mod 10)) (String (digit (hour t mod 10))
  (String (digit (minute t / 10 mod 10)) (String (digit (minute t mod 10))
  (String (digit (second t / 10 mod 10)) (String (digit (second t mod 10))
  EmptyString))))))))))))).

(** The values [datetime.now()] can take. *)
Definition valid_datetime (t : datetime) : Prop :=
  (1000 ≤ year t ≤ 9999 ∧ 1 ≤ month t ≤ 12 ∧ 1 ≤ day t ≤ 31 ∧
   hour t < 24 ∧ minute t < 60 ∧ second t < 60 ∧ microsecond t < 1000000)%N.

(** ** The file system *)

Definition is_dir (f : gmap path node) (p : path) : bool :=
  match p with
  | [] => true
  | _ => match f !! p with Some Dir => true | _ => false end
  end.

(** Why the system cannot walk down [rest] from the directory [cur]: at
    the first component that is not a directory it stops, with [ENOTDIR]
    when a file sits there and with [ENOENT] when nothing does. *)
Fixpoint obstacle (f : gmap path node) (cur rest : path) : exc :=
  match rest with
  | [] => FileNotFoundError
  | x :: rest' =>
      match f !! (cur ++ [x]) with
      | Some Dir => obstacle f (cur ++ [x]) rest'
      | Some (File _) => NotADirectoryError
      | None => FileNotFoundError
      end
  end.

(** Why no entry can be made at [p]: its parent is not a directory, a
    file sitting at the parent or above it, or the path breaking off. *)
Definition parent_error (f : gmap path node) (p : path) : option exc :=
  if is_dir f (parent p) then None
  else Some (obstacle f [] (parent p)).

(** [os.mkdir(p)].  The empty path is the directory relative paths
    start from: it exists without an entry of its own in the map, here
    and in the operations below. *)
Definition os_mkdir (p : path) : M unit := λ s,
  match parent_error (fs s) p with
  | Some e => (Raise e, s)
  | None =>
      match fs s !! p with
      | Some _ => (Raise FileExistsError, s)
      | None =>
          if is_dir (fs s) p then (Raise FileExistsError, s)
          else (Ok tt, set_fs (<[p := Dir]> (fs s)) s)
      end
  end.

(** [p.mkdir(exist_ok=True)]: pathlib re-raises [FileNotFoundError], and
    lets any other [OSError] pass when [p] is a directory. *)
Definition mkdir_exist_ok (p : path) : M unit :=
  try_except is_OSError (os_mkdir p)
    (λ e, f ← gets fs;
          if decide (e = FileNotFoundError) then raise e
          else if is_dir f p then mret tt else raise e).

(** [open(p, "wb")] followed by writing [c] and closing. *)
Definition write_file (p : path) (c : content) : M unit := λ s,
  match parent_error (fs s) p with
  | Some e => (Raise e, s)
  | None =>
      if is_dir (fs s) p then (Raise IsADirectoryError, s)
      else (Ok tt, set_fs (<[p := File c]> (fs s)) s)
  end.

(** [os.unlink(p)] *)
Definition os_unlink (p : path) : M unit := λ s,
  match fs s !! p with
  | Some (File _) => (Ok tt, set_fs (delete p (fs s)) s)
  | Some Dir => (Raise IsADirectoryError, s)
  | None =>
      if is_dir (fs s) p then (Raise IsADirectoryError, s)
      else (Raise (obstacle (fs s) [] p), s)
  end.

(** [p.unlink(missing_ok=True)] *)
Definition unlink_missing_ok (p : path) : M unit :=
  try_except (λ e, bool_decide (e = FileNotFoundError)) (os_unlink p)
    (λ _, mret tt).

(** [p] is an entry directly inside [d]. *)
Definition is_child (d p : path) : bool :=
  match last p with
  | Some x => bool_decide (p = d ++ [x])
  | None => false
  end.

(** The entries directly inside [d]. *)
Definition listdir (f : gmap path node) (d : path) : list path :=
  if is_dir f d then filter (λ p, is_child d p = true) (map_to_list f).*1 else [].

(** [d.glob(pat)] for a pattern without a separator. *)
Definition glob (f : gmap path node) (d : path) (pat : string) : list path :=
  filter (λ p, fnmatch (String.list_ascii_of_string pat)
                       (String.list_ascii_of_string (name p)) = true)
         (listdir f d).

(** [os.rmdir(p)] *)
Definition rmdir (p : path) : M unit := λ s,
  match fs s !! p with
  | Some Dir =>
      match listdir (fs s) p with
      | [] => (Ok tt, set_fs (delete p (fs s)) s)
      | _ => (Raise DirectoryNotEmpty, s)
      end
  | Some (File _) => (Raise NotADirectoryError, s)
  | None =>
      if is_dir (fs s) p then (Raise InvalidArgument, s)
      else (Raise (obstacle (fs s) [] p), s)
  end.

(** ** The conversion engine and the batch driver *)

Section Engine.

(** What the two libraries make of file data: [fitz_parse c] is the
    document PyMuPDF reads from a file holding [c], if it can open it at
    all; [recognised b] says whether python-docx accepts [b] as a picture. *)
Variable fitz_parse : content → option PDF.
Variable recognised : list byte → bool.

(** [fitz.open(p)]: PyMuPDF raises its [FileNotFoundError] when
    [os.path.exists(p)] is false, its [FileDataError] when
    [os.path.isfile(p)] is false, as for a directory (the empty path
    [Path("")], which reads ["."], is one), and when it cannot read the
    file as a document. *)
Definition fitz_open (p : path) : M PDF := λ s,
  match fs s !! p with
  | Some (File c) =>
      match fitz_parse c with
      | Some d => (Ok d, s)
      | None => (Raise FitzFileDataError, s)
      end
  | Some Dir => (Raise FitzFileDataError, s)
  | None =>
      if is_dir (fs s) p then (Raise FitzFileDataError, s)
      else (Raise FitzFileNotFoundError, s)
  end.

(** [pdf.close()] *)
Definition pdf_close : M unit := modify (λ s, set_closed (S (closed s)) s).

(** [doc = Document()] *)
Definition new_document : M unit := modify (set_doc []).

(** [doc.add_picture(str(p), width=Inches(2.5))]: python-docx runs
    [self.add_paragraph().add_run()] and then [run.add_picture(...)],
    which reads the file.  The paragraph is in the document before the
    file is looked at, so that a picture that cannot be had leaves an
    empty paragraph behind; [Picture] is the paragraph with the picture
    in its run. *)
Definition add_picture (p : path) : M unit := λ s,
  let failed := set_doc (doc s ++ [Paragraph []]) s in
  match fs s !! p with
  | Some (File (Bytes b)) =>
      if recognised b then (Ok tt, set_doc (doc s ++ [Picture b Inches_2_5]) s)
      else (Raise UnrecognizedImageError, failed)
  | Some (File (Docx _)) => (Raise UnrecognizedImageError, failed)
  | Some Dir => (Raise IsADirectoryError, failed)
  | None =>
      if is_dir (fs s) p then (Raise IsADirectoryError, failed)
      else (Raise (obstacle (fs s) [] p), failed)
  end.

(** [doc.save(p)] *)
Definition save (p : path) : M unit :=
  d ← gets doc; write_file p (Docx d).

(** [f"img_{xref}.png"] *)
Definition img_name (x : Z) : string := "img_" +:+ pretty x +:+ ".png".

Definition extract_images (page : Page) (temp_dir : path) : M unit :=
  for_each (λ img,
    let base_name := img_name (xref img) in
    let img_bytes := image img in
    let tmp_path := temp_dir ++ [base_name] in
    write_file tmp_path (Bytes img_bytes);;
    try_except is_Exception (add_picture tmp_path) (λ _, mret tt))
    (get_images page).

(** The body of [for page in pdf]. *)
Definition convert_page (include_images : bool) (temp_dir : path)
    (page : Page) : M unit :=
  let text := strip (get_text page) in
  (match text with
   | [] => mret tt
   | _ => add_paragraph text
   end);;
  extract_tables page;;
  if include_images then extract_images page temp_dir else mret tt.

(** The [try] suite of [convert_pdf_to_docx]. *)
Definition convert_body (pdf : PDF) (docx_path : path) (include_images : bool)
    (temp_dir : path) : M unit :=
  for_each (convert_page include_images temp_dir) pdf;;
  save docx_path.

(** The [finally] suite of [convert_pdf_to_docx]. *)
Definition cleanup (temp_dir : path) : M unit :=
  img_files ← gets (λ s, glob (fs s) temp_dir "*");
  for_each (λ img_file,
    try_except is_Exception (unlink_missing_ok img_file) (λ _, mret tt))
    img_files;;
  try_except is_OSError (rmdir temp_dir) (λ _, mret tt);;
  pdf_close.

(** The directory the images of one conversion go through. *)
Definition temp_dir_of (now : datetime) (docx_path : path) : M path :=
  with_name docx_path ("_tmp_imgs_" +:+ strftime_YmdHMS now).

(** [convert_pdf_to_docx(pdf_path, docx_path, include_images=...)], with
    [now] the value [datetime.now()] returns during the call. *)
Definition convert_pdf_to_docx (now : datetime) (pdf_path docx_path : path)
    (include_images : bool) : M unit :=
  pdf ← fitz_open pdf_path;
  new_document;;
  temp_dir ← temp_dir_of now docx_path;
  mkdir_exist_ok temp_dir;;
  try_finally (convert_body pdf docx_path include_images temp_dir)
              (cleanup temp_dir).

(** The Tk variables the worker reads. *)
Record GUI := { src_dir : path; dst_dir : path; include_imgs : bool }.

Definition emit (e : event) : M unit := modify (λ s, set_ui (ui s ++ [e]) s).

Definition _convert_single (self : GUI) (now : datetime) (pdf_path : path) : M unit :=
  let dst_file := dst_dir self ++ [stem (name pdf_path) +:+ ".docx"] in
  try_except is_Exception
    (convert_pdf_to_docx now pdf_path dst_file (include_imgs self))
    (λ exc, emit (ShowError (name pdf_path) exc)).

(** [sorted(Path(src).glob("*.pdf"))] *)
Definition discover_pdfs (f : gmap path node) (src : path) : list path :=
  sorted (glob f src "*.pdf").

(** [_convert_all_pdfs], with [clock idx] the time at which the [idx]-th
    file is converted. *)
Definition _convert_all_pdfs (self : GUI) (clock : nat → datetime) : M unit :=
  pdf_paths ← gets (λ s, discover_pdfs (fs s) (src_dir self));
  let total := length pdf_paths in
  if decide (total = 0) then emit ShowWarning_NoPdf
  else
    emit (ProgConfigure total 0);;
    emit (StatusConverting total);;
    for_each (λ '(idx, pdf_path),
      emit (StatusFile (name pdf_path) idx total);;
      _convert_single self (clock idx) pdf_path;;
      emit (ProgValue idx))
      (enumerate_from 1 pdf_paths);;
    emit (StatusDone total);;
    emit ShowInfo_Done;;
    emit ProgAfterReset.

End Engine.

(** * The documents the specification describes *)

(** The longest row of a table. *)
Definition max_row_length (data : TableData) : nat := max_list (length <$> data).

(** A row as the grid shows it: every cell trimmed, [None] as the empty
    string, and empty strings up to [cols] columns. *)
Definition pad_row (cols : nat) (row : list (option text)) : list text :=
  ((λ cell, strip (cell_or_empty cell)) <$> row) ++ replicate (cols - length row) [].

(** The grid of a table: as many rows as the data, as many columns as
    the longest row. *)
Definition grid_of (data : TableData) : Table :=
  let cols := max_row_length data in
  {| t_rows := length data; t_cols := cols;
     t_cells := mjoin (pad_row cols <$> data) |}.

(** No row of the table is longer than its first row. *)
Definition first_row_longest (data : TableData) : Prop :=
  match data with
  | [] => True
  | row0 :: _ => Forall (λ row, length row ≤ length row0) data
  end.

(** The table blocks of a page: one grid for every detected table with
    at least one row. *)
Definition grids_of (ts : list TableData) : list block :=
  flat_map (λ data, match data with
                    | [] => []
                    | _ => [TableB (grid_of data)]
                    end) ts.

(** * Ways of relating runs *)

(** Every run of [m] takes a state to one related to it by [R], whether
    [m] returns or raises. *)
Definition steps (R : relation State) {A} (m : M A) : Prop :=
  ∀ s, R s (m s).2.

(** [m1] run in the transformed state [T s] does what [m2] does in [s],
    and leaves the transformed final state. *)
Definition sim (T : State → State) {A} (m1 m2 : M A) : Prop :=
  ∀ s, m1 (T s) = ((m2 s).1, T (m2 s).2).

(** The state [s] seen from a larger context: another file system,
    [closed] counter and GUI log, and a document that starts with [d0]. *)
Definition rebase (f : gmap path node) (d0 : Document) (c : nat)
    (u : list event) (s : State) : State :=
  {| fs := f; doc := d0 ++ doc s; closed := c; ui := u |}.

(** The [closed] counter and the GUI log are left alone. *)
Definition same_closed_ui : relation State :=
  λ s s', closed s' = closed s ∧ ui s' = ui s.

(** The file system is left alone. *)
Definition same_fs : relation State := λ s s', fs s' = fs s.

(** The document is left alone. *)
Definition same_doc : relation State := λ s s', doc s' = doc s.

(** Whatever differs in the file system is a file at a path in [P]. *)
Definition writes_files (P : path → Prop) : relation State :=
  λ s s', ∀ p, fs s' !! p = fs s !! p ∨ (P p ∧ ∃ c, fs s' !! p = Some (File c)).

(** The blocks are all tables. *)
Definition is_table (b : block) : Prop :=
  match b with TableB _ => True | _ => False end.

Definition is_picture (b : block) : bool :=
  match b with Picture _ _ => true | _ => false end.

(** The state a run starts from when nothing exists yet. *)
Definition s_empty : State := {| fs := ∅; doc := []; closed := 0; ui := [] |}.

(** What [extract_tables] does on its own: its outcome, and the blocks
    it leaves, when run on an empty document. *)
Definition tables_run (page : Page) : outcome unit * Document :=
  let '(r, s') := extract_tables page s_empty in (r, doc s').

(** A text lxml accepts. *)
Definition xml_text (t : text) : Prop := Forall (λ c, xml_char c = true) t.

(** The texts of the cells of a table, as they are written, are texts
    lxml accepts. *)
Definition cells_xml (data : TableData) : Prop :=
  Forall (Forall (λ cell, xml_text (strip (cell_or_empty cell)))) data.

(** The paragraph of a page: its trimmed text, unless that is empty. *)
Definition para_of (page : Page) : Document :=
  match strip (get_text page) with
  | [] => []
  | t => [Paragraph t]
  end.

(** What the paragraph step of a page does on its own: its outcome, and
    the block it leaves. *)
Definition para_run (page : Page) : outcome unit * Document :=
  match strip (get_text page) with
  | [] => (Ok tt, [])
  | t => let '(content, ok) := run_text t in
         (if ok then Ok tt else Raise ValueError, [Paragraph content])
  end.

(** The paragraph and the tables of a page go into the document without
    error: lxml accepts the text, and the tables copy. *)
Definition page_ok (page : Page) : Prop :=
  xml_text (strip (get_text page)) ∧ (tables_run page).1 = Ok tt.

(** The block an image leaves: the picture when python-docx accepts it,
    and otherwise the empty paragraph [add_picture] had made for it. *)
Definition image_block (recognised : list byte → bool) (img : Image) : block :=
  if recognised (image img) then Picture (image img) Inches_2_5 else Paragraph [].

(** The blocks the images of a page leave, in the order of [get_images]. *)
Definition image_blocks (recognised : list byte → bool) (page : Page) : Document :=
  image_block recognised <$> get_images page.

Definition is_empty_paragraph (b : block) : bool :=
  match b with Paragraph [] => true | _ => false end.

(** The blocks that can only come from an image: a picture, or a
    paragraph without text (the paragraph of a page has text). *)
Definition from_image (b : block) : bool := is_picture b || is_empty_paragraph b.

(** Every image of the page is one python-docx accepts. *)
Definition images_accepted (recognised : list byte → bool) (page : Page) : Prop :=
  Forall (λ img, recognised (image img) = true) (get_images page).

(** The blocks of one page, and of a whole document. *)
Definition page_blocks (recognised : list byte → bool) (include_images : bool)
    (page : Page) : Document :=
  para_of page ++ (tables_run page).2 ++
  (if include_images then image_blocks recognised page else []).

Definition pdf_blocks (recognised : list byte → bool) (include_images : bool)
    (pdf : PDF) : Document :=
  flat_map (page_blocks recognised include_images) pdf.

(** The entries directly inside [d]. *)
Definition inside (d : path) (p : path) : Prop := ∃ x, p = d ++ [x].

(** The file system once the file at [p], if it is one, is gone. *)
Definition remove_file (p : path) (f : gmap path node) : gmap path node :=
  match f !! p with
  | Some (File _) => delete p f
  | _ => f
  end.

Definition remove_files (l : list path) (f : gmap path node) : gmap path node :=
  foldl (λ f p, remove_file p f) f l.

(** The file system once the directory [d], if it is one and is empty,
    is gone. *)
Definition remove_empty_dir (d : path) (f : gmap path node) : gmap path node :=
  match f !! d with
  | Some Dir => match listdir f d with [] => delete d f | _ => f end
  | _ => f
  end.

(** The file system the [finally] suite leaves. *)
Definition cleaned (tmp : path) (f : gmap path node) : gmap path node :=
  remove_empty_dir tmp (remove_files (glob f tmp "*") f).

(** Every entry sits in a directory. *)
Definition fs_wf (f : gmap path node) : bool :=
  forallb (λ p, is_dir f (parent p)) (map_to_list f).*1.

(** Tables stay tables: if the document held tables only, it still does. *)
Definition keeps_tables : relation State :=
  λ s s', Forall is_table (doc s) → Forall is_table (doc s').

(** Two readings of the clock agree down to the second. *)
Definition same_second (t1 t2 : datetime) : Prop :=
  year t1 = year t2 ∧ month t1 = month t2 ∧ day t1 = day t2 ∧
  hour t1 = hour t2 ∧ minute t1 = minute t2 ∧ second t1 = second t2.

(** The temporary directory of a conversion into [docx_path] at [now]. *)
Definition tmp_path (now : datetime) (docx_path : path) : path :=
  parent docx_path ++ ["_tmp_imgs_" +:+ strftime_YmdHMS now].

(** The destination [_convert_single] computes for a source file. *)
Definition dst_file_of (self : GUI) (pdf_path : path) : path :=
  dst_dir self ++ [stem (name pdf_path) +:+ ".docx"].

(** The outcomes of the conversions of a batch, each started in the
    state the one before left, the first one at index [idx]. *)
Fixpoint batch_outcomes (fitz_parse : content → option PDF)
    (recognised : list byte → bool) (self : GUI) (clock : nat → datetime)
    (idx : nat) (pdf_paths : list path) (s : State) : list (outcome unit) :=
  match pdf_paths with
  | [] => []
  | pdf_path :: rest =>
      let '(r, s') := convert_pdf_to_docx fitz_parse recognised (clock idx)
                        pdf_path (dst_file_of self pdf_path) (include_imgs self) s in
      r :: batch_outcomes fitz_parse recognised self clock (S idx) rest s'
  end.

(** What the GUI is told about one file: its name and position, the
    error if its conversion raised, and the progress made. *)
Definition file_events (total idx : nat) (pdf_path : path) (r : outcome unit) : list event :=
  [StatusFile (name pdf_path) idx total] ++
  match r with
  | Ok _ => []
  | Raise e => [ShowError (name pdf_path) e]
  end ++
  [ProgValue idx].

Fixpoint batch_events (total idx : nat) (pdf_paths : list path)
    (rs : list (outcome unit)) : list event :=
  match pdf_paths, rs with
  | pdf_path :: rest, r :: rs' =>
      file_events total idx pdf_path r ++ batch_events total (S idx) rest rs'
  | _, _ => []
  end.

(** * More ways of describing runs *)

(** Whenever [m] raises, the exception is one of [P]. *)
Definition raises_only (P : exc → Prop) {A} (m : M A) : Prop :=
  ∀ s e s', m s = (Raise e, s') → P e.

(** The document only grows at its end, by blocks that are [P]. *)
Definition doc_grows_by (P : block → Prop) : relation State :=
  λ s s', ∃ added, doc s' = doc s ++ added ∧ Forall P added.

(** Directories stay where they are. *)
Definition dirs_kept : relation State :=
  λ s s', ∀ q, fs s !! q = Some Dir → fs s' !! q = Some Dir.

(** The errors of writing a file. *)
Definition write_error (e : exc) : Prop :=
  e = FileNotFoundError ∨ e = NotADirectoryError ∨ e = IsADirectoryError.

(** Images with the same xref hold the same bytes, as
    [extract_image(xref)] is a function of the xref. *)
Definition xref_functional (imgs : list Image) : Prop :=
  ∀ i j, i ∈ imgs → j ∈ imgs → xref i = xref j → image i = image j.

(** The file names the GUI has been told, in the order of the telling. *)
Definition announced (l : list event) : list string :=
  omap (λ ev, match ev with StatusFile n _ _ => Some n | _ => None end) l.

(** The state the conversions of a batch leave, the GUI log apart. *)
Fixpoint batch_state (fitz_parse : content → option PDF)
    (recognised : list byte → bool) (self : GUI) (clock : nat → datetime)
    (idx : nat) (pdf_paths : list path) (s : State) : State :=
  match pdf_paths with
  | [] => s
  | pdf_path :: rest =>
      batch_state fitz_parse recognised self clock (S idx) rest
        (convert_pdf_to_docx fitz_parse recognised (clock idx)
           pdf_path (dst_file_of self pdf_path) (include_imgs self) s).2
  end.

(** The file system once the bytes of [imgs] have been written into
    [tmp], one file per image, in order. *)
Definition written (tmp : path) (imgs : list Image) (f : gmap path node)
    : gmap path node :=
  foldl (λ f img, <[tmp ++ [img_name (xref img)] := File (Bytes (image img))]> f)
        f imgs.

(** The values the progress bar has been set to, in order. *)
Definition progress (l : list event) : list nat :=
  omap (λ ev, match ev with ProgValue n => Some n | _ => None end) l.

(** The conversion of [p] in a batch, at whatever time, has no reason to
    touch [q]: [q] is neither its destination, nor its temporary
    directory, nor an entry of that directory. *)
Definition clear_of (self : GUI) (q p : path) : Prop :=
  ∀ now : datetime,
    q ≠ dst_file_of self p ∧
    q ≠ tmp_path now (dst_file_of self p) ∧
    ¬ inside (tmp_path now (dst_file_of self p)) q.

(** The block at position [h] is a table of [rows] by [cols] cells. *)
Definition table_at (h rows cols : nat) (s : State) : Prop :=
  ∃ tb, doc s !! h = Some (TableB tb) ∧ t_cols tb = cols ∧
        length (t_cells tb) = rows * cols.

(** * Sample inputs *)

(** A page with text, a 2 x 2 table and two images, the second of which
    python-docx does not accept. *)
Definition hello_table : TableData :=
  [[Some (text_of "a"); Some (text_of " b ")]; [Some (text_of "c"); None]].
Definition hello_page : Page :=
  {| get_text := text_of " Hello ";
     find_tables := Some [hello_table];
     get_images := [{| xref := 7; image := [x01] |};
                    {| xref := 8; image := [x00] |}] |}.

(** A page whose only table has rows of lengths 3, 2 and 3. *)
Definition table_3_2_3 : TableData :=
  [[Some (text_of "a"); Some (text_of " b"); None];
   [Some (text_of "c "); Some (text_of "d")];
   [None; Some (text_of EmptyString); Some (text_of "e")]].
Definition page_3_2_3 : Page :=
  {| get_text := []; find_tables := Some [table_3_2_3]; get_images := [] |}.

(** A page whose only table has a second row longer than its first. *)
Definition jagged_table : TableData :=
  [[Some (text_of "a")]; [Some (text_of "b"); Some (text_of "c")]].
Definition jagged_page : Page :=
  {| get_text := []; find_tables := Some [jagged_table]; get_images := [] |}.

(** A page whose only table is one cell with a control character, and
    whose text has one after a line break. *)
Definition ctrl_table : TableData := [[Some [97; 1; 98]%N]].
Definition ctrl_page : Page :=
  {| get_text := [97; 10; 98; 1; 99]%N;
     find_tables := Some [ctrl_table];
     get_images := [] |}.

Definition sample_parse (c : content) : option PDF :=
  match c with
  | Bytes [x41] => Some [hello_page]
  | Bytes [x42] => Some []
  | _ => None
  end.

Definition sample_recognised (b : list byte) : bool :=
  match b with
  | [x01] => true
  | _ => false
  end.

(** A source folder with [a.pdf], [b.pdf], an unreadable [c.pdf] and
    [REPORT.PDF], and an empty destination folder. *)
Definition sample_fs : gmap path node :=
  <[ ["pdfs"; "REPORT.PDF"] := File (Bytes [x41]) ]>
  (<[ ["pdfs"; "c.pdf"] := File (Bytes [x00]) ]>
  (<[ ["pdfs"; "b.pdf"] := File (Bytes [x42]) ]>
  (<[ ["pdfs"; "a.pdf"] := File (Bytes [x41]) ]>
  (<[ ["pdfs"] := Dir ]> (<[ ["docs_word"] := Dir ]> ∅))))).

Definition sample_state : State := set_fs sample_fs s_empty.

Definition sample_now : datetime :=
  {| year := 2025; month := 6; day := 30; hour := 23; minute := 59; second := 7;
     microsecond := 0 |}.

(** The same second, half a second later. *)
Definition sample_later : datetime :=
  {| year := 2025; month := 6; day := 30; hour := 23; minute := 59; second := 7;
     microsecond := 500000 |}.

Definition sample_gui : GUI :=
  {| src_dir := ["pdfs"]; dst_dir := ["docs_word"]; include_imgs := true |}.

(** * Properties *)

(** ** Names of temporary directories *)

Lemma div_mod_10 (a : N) : (a = 10 * (a / 10) + a mod 10 ∧ a mod 10 < 10)%N.
Proof. split; [apply N.Div0.div_mod | apply N.mod_lt; lia]. Qed.

Lemma digit_inj (a b : N) : (a < 10)%N → (b < 10)%N → digit a = digit b → a = b.
Proof.
  intros Ha Hb H. unfold digit in H.
  apply (f_equal N_of_ascii) in H.
  rewrite !N_ascii_embedding in H by lia. lia.
Qed.

Lemma digit_mod_inj (a b : N) : digit (a mod 10) = digit (b mod 10) → (a mod 10 = b mod 10)%N.
Proof. apply digit_inj; apply N.mod_lt; lia. Qed.

Lemma two_digits_inj (a b : N) :
  (a < 100)%N → (b < 100)%N →
  digit (a / 10 mod 10) = digit (b / 10 mod 10) →
  digit (a mod 10) = digit (b mod 10) → a = b.
Proof.
  intros Ha Hb H1%digit_mod_inj H0%digit_mod_inj.
  pose proof (div_mod_10 a). pose proof (div_mod_10 (a / 10)).
  pose proof (div_mod_10 b). pose proof (div_mod_10 (b / 10)). lia.
Qed.

Lemma four_digits_inj (a b : N) :
  (a < 10000)%N → (b < 10000)%N →
  digit (a / 1000 mod 10) = digit (b / 1000 mod 10) →
  digit (a / 100 mod 10) = digit (b / 100 mod 10) →
  digit (a / 10 mod 10) = digit (b / 10 mod 10) →
  digit (a mod 10) = digit (b mod 10) → a = b.
Proof.
  intros Ha Hb.
  replace (a / 1000)%N with (a / 10 / 10 / 10)%N by (by rewrite !N.Div0.div_div).
  replace (b / 1000)%N with (b / 10 / 10 / 10)%N by (by rewrite !N.Div0.div_div).
  replace (a / 100)%N with (a / 10 / 10)%N by (by rewrite !N.Div0.div_div).
  replace (b / 100)%N with (b / 10 / 10)%N by (by rewrite !N.Div0.div_div).
  intros H3%digit_mod_inj H2%digit_mod_inj H1%digit_mod_inj H0%digit_mod_inj.
  pose proof (div_mod_10 a). pose proof (div_mod_10 (a / 10)).
  pose proof (div_mod_10 (a / 10 / 10)). pose proof (div_mod_10 (a / 10 / 10 / 10)).
  pose proof (div_mod_10 b). pose proof (div_mod_10 (b / 10)).
  pose proof (div_mod_10 (b / 10 / 10)). pose proof (div_mod_10 (b / 10 / 10 / 10)).
  lia.
Qed.

Lemma strftime_same_second t1 t2 :
  same_second t1 t2 → strftime_YmdHMS t1 = strftime_YmdHMS t2.
Proof.
  intros (Hy & Hmo & Hd & Hh & Hmi & Hs). unfold strftime_YmdHMS.
  by rewrite Hy, Hmo, Hd, Hh, Hmi, Hs.
Qed.

Lemma strftime_inj t1 t2 :
  valid_datetime t1 → valid_datetime t2 →
  strftime_YmdHMS t1 = strftime_YmdHMS t2 → same_second t1 t2.
Proof.
  intros V1 V2 H. unfold valid_datetime in *. unfold strftime_YmdHMS in H.
  injection H as Hy3 Hy2 Hy1 Hy0 Hmo1 Hmo0 Hd1 Hd0 Hh1 Hh0 Hmi1 Hmi0 Hs1 Hs0.
  unfold same_second. repeat split.
  - apply four_digits_inj; (lia || done).
  - apply two_digits_inj; (lia || done).
  - apply two_digits_inj; (lia || done).
  - apply two_digits_inj; (lia || done).
  - apply two_digits_inj; (lia || done).
  - apply two_digits_inj; (lia || done).
Qed.

Lemma string_app_inj_l (a b c : string) : a +:+ b = a +:+ c → b = c.
Proof. induction a as [|x a IH]; simpl; [done|]. intros [= H]. auto. Qed.

Lemma parent_snoc (d : path) (x : string) : parent (d ++ [x]) = d.
Proof. unfold parent. apply removelast_last. Qed.

Lemma path_split (p : path) : p ≠ [] → p = parent p ++ [name p].
Proof.
  intros Hp. destruct (last p) as [x|] eqn:E.
  - apply last_Some in E as [d ->]. rewrite parent_snoc.
    unfold name. by rewrite last_snoc.
  - by apply last_None in E.
Qed.

Lemma temp_dir_of_spec now (p : path) s :
  p ≠ [] →
  temp_dir_of now p s = (Ok (parent p ++ ["_tmp_imgs_" +:+ strftime_YmdHMS now]), s).
Proof. intros Hp. unfold temp_dir_of, with_name. by destruct p. Qed.

Lemma mkdir_exist_ok_existing (d : path) s :
  is_dir (fs s) (parent d) = true → fs s !! d = Some Dir →
  mkdir_exist_ok d s = (Ok tt, s).
Proof.
  intros Hpar Hd. unfold mkdir_exist_ok, try_except, os_mkdir, parent_error.
  rewrite Hpar, Hd. simpl. unfold mbind, M_bind, gets. simpl.
  unfold is_dir. rewrite Hd. by destruct d.
Qed.

(** ** Discovery of the input files *)

Lemma list_ascii_of_string_app (a b : string) :
  String.list_ascii_of_string (a +:+ b) =
  String.list_ascii_of_string a ++ String.list_ascii_of_string b.
Proof. induction a as [|x a IH]; simpl; [done|]. by rewrite IH. Qed.

(** A pattern made of ordinary characters matches itself only. *)
Lemma fnmatch_literal (lit nm : list ascii) :
  Forall (λ c, c ≠ "*"%char) lit →
  fnmatch lit nm = true ↔ nm = lit.
Proof.
  intros Hlit. revert nm. induction Hlit as [|c lit Hc _ IH]; intros nm; simpl.
  - destruct nm; [done|]. by split.
  - destruct (Ascii.eqb_spec c "*") as [->|_]; [done|].
    destruct nm as [|d nm]; [by split|].
    rewrite andb_true_iff, IH.
    destruct (Ascii.eqb_spec c d) as [->|Hne].
    + split; [by intros [_ ->]|by intros [= ->]].
    + split; [by intros [? _]|]. intros [= ? _]. by destruct Hne.
Qed.

(** A leading [*] matches any prefix of the name. *)
Lemma fnmatch_star (pat nm : list ascii) :
  fnmatch ("*"%char :: pat) nm = true ↔
  ∃ pre rest, nm = pre ++ rest ∧ fnmatch pat rest = true.
Proof.
  simpl. induction nm as [|d nm IH].
  - rewrite orb_false_r. split.
    + intros H. by exists [], [].
    + intros (pre & rest & E & H). symmetry in E.
      apply app_eq_nil in E as [-> ->]. done.
  - rewrite orb_true_iff, IH. split.
    + intros [H|(pre & rest & -> & H)].
      * by exists [], (d :: nm).
      * by exists (d :: pre), rest.
    + intros (pre & rest & E & H). destruct pre as [|x pre]; simpl in E.
      * left. by subst rest.
      * right. injection E as -> ->. by exists pre, rest.
Qed.

Lemma fnmatch_any (nm : list ascii) : fnmatch ["*"%char] nm = true.
Proof. apply fnmatch_star. exists nm, []. by rewrite app_nil_r. Qed.

(** [*.pdf] matches the names that end in [.pdf], letter case included. *)
Lemma fnmatch_pdf (x : string) :
  fnmatch (String.list_ascii_of_string "*.pdf") (String.list_ascii_of_string x) = true
  ↔ ∃ pre : string, x = pre +:+ ".pdf".
Proof.
  change (String.list_ascii_of_string "*.pdf")
    with ("*"%char :: String.list_ascii_of_string ".pdf").
  rewrite fnmatch_star. split.
  - intros (pre & rest & E & H).
    apply fnmatch_literal in H; [|repeat constructor; done]. subst rest.
    exists (String.string_of_list_ascii pre).
    rewrite <- (String.string_of_list_ascii_of_string x), E.
    rewrite <- (String.string_of_list_ascii_of_string (_ +:+ _)).
    by rewrite list_ascii_of_string_app, String.list_ascii_of_string_of_list_ascii.
  - intros [pre ->]. exists (String.list_ascii_of_string pre), (String.list_ascii_of_string ".pdf").
    split; [apply list_ascii_of_string_app|done].
Qed.

Lemma is_child_spec (d p : path) : is_child d p = true ↔ ∃ x, p = d ++ [x].
Proof.
  unfold is_child. split.
  - destruct (last p) as [x|]; [|done]. intros H%bool_decide_eq_true. eauto.
  - intros [x ->]. rewrite last_snoc. by apply bool_decide_eq_true.
Qed.

Lemma elem_of_listdir (f : gmap path node) (d p : path) :
  p ∈ listdir f d ↔ is_dir f d = true ∧ is_Some (f !! p) ∧ ∃ x, p = d ++ [x].
Proof.
  unfold listdir. destruct (is_dir f d).
  - rewrite list_elem_of_filter, is_child_spec, list_elem_of_fmap. split.
    + intros (Hc & [q n] & -> & Hq%elem_of_map_to_list). simpl in *. eauto.
    + intros (_ & [n Hn] & Hc). split; [done|].
      exists (p, n). split; [done|]. by apply elem_of_map_to_list.
  - rewrite elem_of_nil. split; [done|by intros [? _]].
Qed.

Lemma NoDup_listdir (f : gmap path node) (d : path) : NoDup (listdir f d).
Proof.
  unfold listdir. destruct (is_dir f d); [|constructor].
  apply NoDup_filter, NoDup_fst_map_to_list.
Qed.

Lemma elem_of_discover_pdfs (f : gmap path node) (d p : path) :
  p ∈ discover_pdfs f d ↔
  is_dir f d = true ∧ is_Some (f !! p) ∧ ∃ pre : string, p = d ++ [pre +:+ ".pdf"].
Proof.
  unfold discover_pdfs, sorted, glob.
  rewrite merge_sort_Permutation, list_elem_of_filter, elem_of_listdir, fnmatch_pdf.
  split.
  - intros ([pre Hpre] & Hd & Hp & x & ->). unfold name in Hpre.
    rewrite last_snoc in Hpre. simpl in Hpre. subst x.
    split; [done|]. split; [done|]. by exists pre.
  - intros (Hd & Hp & pre & ->). unfold name. rewrite last_snoc. simpl.
    split; [by exists pre|]. split; [done|]. split; [done|]. by eexists.
Qed.

Lemma NoDup_discover_pdfs (f : gmap path node) (d : path) : NoDup (discover_pdfs f d).
Proof.
  unfold discover_pdfs, sorted, glob. rewrite merge_sort_Permutation.
  apply NoDup_filter, NoDup_listdir.
Qed.

(** ** Trimming *)

Lemma lstrip_spec (s : text) :
  ∃ l, s = l ++ lstrip s ∧ Forall (λ c, isspace c = true) l ∧
       ∀ c, head (lstrip s) = Some c → isspace c = false.
Proof.
  induction s as [|c s (l & Hs & Hl & Hhead)]; simpl.
  - exists []. by split_and!.
  - destruct (isspace c) eqn:E.
    + exists (c :: l). split_and!; [by rewrite Hs at 1|by constructor|done].
    + exists []. split_and!; [done|done|]. by intros c' [= <-].
Qed.

Lemma rstrip_spec (s : text) :
  ∃ r, s = rstrip s ++ r ∧ Forall (λ c, isspace c = true) r ∧
       ∀ c, last (rstrip s) = Some c → isspace c = false.
Proof.
  unfold rstrip. destruct (lstrip_spec (rev s)) as (l & Hs & Hl & Hhead).
  exists (rev l). split_and!.
  - rewrite <- rev_app_distr, <- Hs. by rewrite rev_involutive.
  - by apply Forall_rev.
  - intros c Hc. apply Hhead. rewrite <- Hc.
    rewrite (rev_alt (lstrip (rev s))).
    symmetry. apply (last_reverse (lstrip (rev s))).
Qed.

(** [strip s] is [s] without the whitespace at its two ends: what was
    cut off is whitespace, and what is left neither starts nor ends
    with whitespace. *)
Lemma strip_spec (s : text) :
  ∃ l r, s = l ++ strip s ++ r ∧
    Forall (λ c, isspace c = true) l ∧ Forall (λ c, isspace c = true) r ∧
    (∀ c, head (strip s) = Some c → isspace c = false) ∧
    (∀ c, last (strip s) = Some c → isspace c = false).
Proof.
  unfold strip. destruct (lstrip_spec s) as (l & Hs & Hl & Hhead).
  destruct (rstrip_spec (lstrip s)) as (r & Hs' & Hr & Hlast).
  exists l, r. split_and!; [by rewrite <- Hs'|done|done| |done].
  intros c Hc. apply Hhead. rewrite Hs'.
  destruct (rstrip (lstrip s)); [done|]. done.
Qed.

(** ** Text that goes into a run *)

Lemma xml_text_forallb (t : text) : forallb xml_char t = true ↔ xml_text t.
Proof.
  unfold xml_text. rewrite forallb_forall, Forall_forall.
  split; intros H c Hc; apply H; by apply list_elem_of_In.
Qed.

Lemma run_break_xml_char (c : N) : run_break c = true → xml_char c = true.
Proof. unfold run_break, xml_char. intros H. by rewrite H. Qed.

(** A text lxml accepts goes into the run as it is. *)
Lemma append_to_run_ok (t : text) : ∀ content bfr,
  xml_text bfr → xml_text t →
  append_to_run content bfr t = (content ++ bfr ++ t, true).
Proof.
  induction t as [|c t IH]; intros content bfr Hbfr Ht; simpl.
  - rewrite (proj2 (xml_text_forallb bfr) Hbfr). by rewrite app_nil_r.
  - apply Forall_cons in Ht as [Hc Ht]. destruct (run_break c).
    + rewrite (proj2 (xml_text_forallb bfr) Hbfr).
      rewrite IH by (done || constructor). by rewrite <- !app_assoc.
    + rewrite IH; [by rewrite <- !app_assoc| |done].
      apply Forall_app. split; [done|]. by constructor.
Qed.

(** A text that went in whole is a text lxml accepts. *)
Lemma append_to_run_accepted (t : text) : ∀ content bfr,
  (append_to_run content bfr t).2 = true → xml_text bfr ∧ xml_text t.
Proof.
  induction t as [|c t IH]; intros content bfr; simpl.
  - destruct (forallb xml_char bfr) eqn:E; [|done].
    intros _. split; [by apply xml_text_forallb|constructor].
  - destruct (run_break c) eqn:Hc.
    + destruct (forallb xml_char bfr) eqn:E; [|done].
      intros [_ Ht]%IH. split; [by apply xml_text_forallb|].
      constructor; [by apply run_break_xml_char|done].
    + intros [Hbfr Ht]%IH. apply Forall_app in Hbfr as [Hbfr Hc'].
      split; [done|]. constructor; [|done]. unfold xml_text in Hc'. by inversion Hc'.
Qed.

(** What is left of a text that did not go in is a part of it, from
    its start. *)
Lemma append_to_run_prefix (t : text) : ∀ content bfr,
  ∃ rest, content ++ bfr ++ t = (append_to_run content bfr t).1 ++ rest.
Proof.
  induction t as [|c t IH]; intros content bfr; simpl.
  - destruct (forallb xml_char bfr).
    + exists []. by rewrite !app_nil_r.
    + exists bfr. by rewrite app_nil_r.
  - destruct (run_break c).
    + destruct (forallb xml_char bfr).
      * destruct (IH (content ++ bfr ++ [c]) []) as [rest Hrest].
        exists rest. rewrite <- Hrest. by rewrite <- !app_assoc.
      * by exists (bfr ++ c :: t).
    + destruct (IH content (bfr ++ [c])) as [rest Hrest].
      exists rest. rewrite <- Hrest. by rewrite <- !app_assoc.
Qed.

Lemma run_text_ok (t : text) : xml_text t → run_text t = (t, true).
Proof. intros Ht. unfold run_text. by rewrite append_to_run_ok by (done || constructor). Qed.

Lemma run_text_accepted (t : text) : (run_text t).2 = true ↔ xml_text t.
Proof.
  split.
  - by intros [_ Ht]%append_to_run_accepted.
  - intros Ht. by rewrite run_text_ok.
Qed.

Lemma run_text_prefix (t : text) : (run_text t).1 `prefix_of` t.
Proof. destruct (append_to_run_prefix t [] []) as [rest Hrest]. by exists rest. Qed.

(** ** Tables *)

Lemma set_doc_set_doc d d' s : set_doc d (set_doc d' s) = set_doc d s.
Proof. done. Qed.

Lemma set_cell_text_last (d0 : Document) (rows cols r c : nat)
    (A B : list text) (old t : text) s :
  xml_text t →
  length A = c + r * cols →
  set_cell_text (length d0) r c t
    (set_doc (d0 ++ [TableB {| t_rows := rows; t_cols := cols;
                               t_cells := A ++ old :: B |}]) s)
  = (Ok tt, set_doc (d0 ++ [TableB {| t_rows := rows; t_cols := cols;
                                      t_cells := A ++ t :: B |}]) s).
Proof.
  intros Ht HA. unfold set_cell_text. cbn [doc set_doc].
  rewrite lookup_app_r, Nat.sub_diag by lia. simpl.
  rewrite <- HA. rewrite decide_True by (rewrite length_app; simpl; lia).
  rewrite run_text_ok by done.
  f_equal. unfold set_doc. simpl. f_equal.
  replace (length d0) with (length d0 + 0) at 1 by lia.
  rewrite insert_app_r. simpl. do 3 f_equal.
  replace (length A) with (length A + 0) by lia.
  by rewrite insert_app_r.
Qed.

(** One row of the table: the cells of [row] land in columns [c], [c+1],
    ... of row [r]. *)
Lemma copy_row_cells (d0 : Document) (rows cols r : nat) (row : list (option text)) :
  ∀ (c k : nat) (A done B : list text) s,
  Forall (λ cell, xml_text (strip (cell_or_empty cell))) row →
  length A = r * cols → length done = c →
  for_each (λ '(c, cell),
      set_cell_text (length d0) r c (strip (cell_or_empty cell)))
    (enumerate_from c row)
    (set_doc (d0 ++ [TableB {| t_rows := rows; t_cols := cols;
        t_cells := A ++ done ++ replicate (length row + k) [] ++ B |}]) s)
  = (Ok tt,
     set_doc (d0 ++ [TableB {| t_rows := rows; t_cols := cols;
        t_cells := A ++ (done ++ ((λ cell, strip (cell_or_empty cell)) <$> row))
                     ++ replicate k [] ++ B |}]) s).
Proof.
  induction row as [|cell row IH]; intros c k A done B s Hrow HA Hdone; simpl.
  - by rewrite app_nil_r.
  - apply Forall_cons in Hrow as [Hcell Hrow].
    unfold mbind, M_bind.
    rewrite (app_assoc A done).
    rewrite set_cell_text_last by (done || rewrite length_app; lia).
    rewrite <- (app_assoc A done).
    replace (done ++ strip (cell_or_empty cell) :: replicate (length row + k) [] ++ B)
      with ((done ++ [strip (cell_or_empty cell)]) ++ replicate (length row + k) [] ++ B)
      by (by rewrite <- app_assoc).
    rewrite IH by (done || rewrite ?length_app; simpl; lia).
    by rewrite <- (app_assoc done).
Qed.

(** All rows: row after row of the flat cell list is filled in. *)
Lemma copy_rows_cells (d0 : Document) (rows cols : nat) (data : TableData) :
  ∀ (r : nat) (A : list text) s,
  Forall (λ row, length row ≤ cols) data →
  cells_xml data →
  length A = r * cols →
  for_each (λ '(r, row),
      for_each (λ '(c, cell),
          set_cell_text (length d0) r c (strip (cell_or_empty cell)))
        (enumerate row))
    (enumerate_from r data)
    (set_doc (d0 ++ [TableB {| t_rows := rows; t_cols := cols;
        t_cells := A ++ replicate (length data * cols) [] |}]) s)
  = (Ok tt,
     set_doc (d0 ++ [TableB {| t_rows := rows; t_cols := cols;
        t_cells := A ++ mjoin (pad_row cols <$> data) |}]) s).
Proof.
  induction data as [|row data IH]; intros r A s Hlen Hxml HA; simpl.
  - done.
  - apply Forall_cons in Hlen as [Hrow Hlen].
    apply Forall_cons in Hxml as [Hxrow Hxml].
    unfold mbind, M_bind, enumerate.
    assert (A ++ replicate (cols + length data * cols) [] =
            A ++ [] ++ replicate (length row + (cols - length row)) []
              ++ replicate (length data * cols) ([] : text)) as ->.
    { rewrite app_nil_l, <- replicate_add. do 2 f_equal. lia. }
    rewrite copy_row_cells by done.
    assert (∀ B : list text,
      A ++ ([] ++ ((λ cell, strip (cell_or_empty cell)) <$> row))
        ++ replicate (cols - length row) [] ++ B
      = (A ++ pad_row cols row) ++ B) as ->.
    { intros B. unfold pad_row. by rewrite app_nil_l, <- !app_assoc. }
    rewrite IH; [by rewrite <- app_assoc|done|done|].
    rewrite length_app. unfold pad_row.
    rewrite length_app, length_fmap, length_replicate. lia.
Qed.

Lemma set_doc_id s : set_doc (doc s) s = s.
Proof. by destruct s. Qed.

Lemma max_list_le (l : list nat) (n : nat) : Forall (λ x, x ≤ n) l → max_list l ≤ n.
Proof. induction 1; simpl; lia. Qed.

Lemma first_row_is_longest (row0 : list (option text)) (data : TableData) :
  first_row_longest (row0 :: data) → max_row_length (row0 :: data) = length row0.
Proof.
  unfold first_row_longest, max_row_length. intros H.
  apply Nat.le_antisymm.
  - apply max_list_le. by apply Forall_fmap.
  - simpl. lia.
Qed.

Lemma copy_table_grid (data : TableData) s :
  first_row_longest data → cells_xml data →
  copy_table data s =
  (Ok tt, set_doc (doc s ++ grids_of [data]) s).
Proof.
  intros Hfirst Hxml. destruct data as [|row0 data].
  { simpl. by rewrite app_nil_r, set_doc_id. }
  unfold grids_of, flat_map, grid_of. rewrite app_nil_r.
  rewrite (first_row_is_longest _ _ Hfirst).
  unfold copy_table, mbind, M_bind, add_table. cbn [doc set_doc].
  pose proof (copy_rows_cells (doc s) (length (row0 :: data)) (length row0)
                (row0 :: data) 0 [] s Hfirst Hxml eq_refl) as H.
  unfold enumerate. by rewrite !app_nil_l in H.
Qed.

Lemma for_each_copy_table (ts : list TableData) : ∀ s,
  Forall first_row_longest ts → Forall cells_xml ts →
  for_each copy_table ts s = (Ok tt, set_doc (doc s ++ grids_of ts) s).
Proof.
  induction ts as [|data ts IH]; intros s Hts Hxs; simpl.
  - unfold grids_of. simpl. by rewrite app_nil_r, set_doc_id.
  - apply Forall_cons in Hts as [Hdata Hts].
    apply Forall_cons in Hxs as [Hxml Hxs].
    unfold mbind, M_bind. rewrite copy_table_grid by done.
    rewrite IH by done. cbn [doc set_doc]. f_equal. unfold set_doc. simpl.
    f_equal. unfold grids_of. simpl. by rewrite app_nil_r, <- app_assoc.
Qed.

(** A page of a PyMuPDF without [find_tables], or with no table, adds
    nothing. *)
Lemma extract_tables_none (page : Page) s :
  find_tables page = None ∨ find_tables page = Some [] →
  extract_tables page s = (Ok tt, s).
Proof.
  intros [H|H]; unfold extract_tables, try_except, call_find_tables, mbind, M_bind;
    by rewrite H.
Qed.

Lemma extract_tables_grids (page : Page) (ts : list TableData) s :
  find_tables page = Some ts → Forall first_row_longest ts → Forall cells_xml ts →
  extract_tables page s = (Ok tt, set_doc (doc s ++ grids_of ts) s).
Proof.
  intros Hfind Hts Hxs.
  unfold extract_tables, try_except, call_find_tables, mbind, M_bind.
  rewrite Hfind. simpl. destruct ts as [|data ts].
  - unfold grids_of. simpl. by rewrite app_nil_r, set_doc_id.
  - by apply for_each_copy_table.
Qed.

Lemma length_pad_row (cols : nat) (row : list (option text)) :
  length row ≤ cols → length (pad_row cols row) = cols.
Proof.
  intros H. unfold pad_row. rewrite length_app, length_fmap, length_replicate. lia.
Qed.

Lemma pad_row_lookup (cols c : nat) (row : list (option text)) :
  length row ≤ cols → c < cols →
  pad_row cols row !! c =
  Some (match row !! c with
        | Some cell => strip (cell_or_empty cell)
        | None => []
        end).
Proof.
  intros Hrow Hc. unfold pad_row. destruct (row !! c) as [cell|] eqn:E.
  - rewrite lookup_app_l by (rewrite length_fmap; by eapply lookup_lt_Some).
    by rewrite list_lookup_fmap, E.
  - apply lookup_ge_None in E.
    rewrite lookup_app_r by (by rewrite length_fmap).
    rewrite length_fmap. apply lookup_replicate_2. lia.
Qed.

Lemma row_le_max_row_length (data : TableData) (row : list (option text)) :
  row ∈ data → length row ≤ max_row_length data.
Proof.
  intros H. unfold max_row_length. apply max_list_elem_of_le.
  by apply list_elem_of_fmap_2.
Qed.

(** The cell at row [r], column [c] of the grid. *)
Lemma grid_of_cell (data : TableData) (r c : nat) (row : list (option text)) :
  data !! r = Some row → c < t_cols (grid_of data) →
  t_cells (grid_of data) !! (c + r * t_cols (grid_of data)) =
  Some (match row !! c with
        | Some cell => strip (cell_or_empty cell)
        | None => []
        end).
Proof.
  intros Hr Hc. simpl in *. rewrite Nat.add_comm.
  assert (length row ≤ max_row_length data) as Hrow.
  { apply row_le_max_row_length. by eapply list_elem_of_lookup_2. }
  apply join_lookup_Some_same_length'; [|done|].
  - apply Forall_fmap, Forall_forall. intros row' Hrow'. simpl.
    by apply length_pad_row, row_le_max_row_length.
  - exists (pad_row (max_row_length data) row). split.
    + by rewrite list_lookup_fmap, Hr.
    + by apply pad_row_lookup.
Qed.

(** ** Composing facts about runs *)

Section steps.
Context (R : relation State) `{!PreOrder R}.

Lemma steps_ret {A} (a : A) : steps R (mret a : M A).
Proof. intros s. simpl. reflexivity. Qed.

Lemma steps_raise {A} (e : exc) : steps R (raise e : M A).
Proof. intros s. simpl. reflexivity. Qed.

Lemma steps_gets {B} (proj : State → B) : steps R (gets proj).
Proof. intros s. simpl. reflexivity. Qed.

Lemma steps_bind {A B} (m : M A) (k : A → M B) :
  steps R m → (∀ a, steps R (k a)) → steps R (m ≫= k).
Proof.
  intros Hm Hk s. unfold mbind, M_bind. specialize (Hm s).
  destruct (m s) as [[a|e] s1]; simpl in *; [|done].
  etrans; [done|]. apply Hk.
Qed.

Lemma steps_try_except {A} (catches : exc → bool) (m : M A) (h : exc → M A) :
  steps R m → (∀ e, steps R (h e)) → steps R (try_except catches m h).
Proof.
  intros Hm Hh s. unfold try_except. specialize (Hm s).
  destruct (m s) as [[a|e] s1]; simpl in *; [done|].
  destruct (catches e); [|done]. etrans; [done|]. apply Hh.
Qed.

Lemma steps_try_finally {A} (m : M A) (fin : M unit) :
  steps R m → steps R fin → steps R (try_finally m fin).
Proof.
  intros Hm Hf s. unfold try_finally. specialize (Hm s).
  destruct (m s) as [r s1]. specialize (Hf s1).
  destruct (fin s1) as [[[]|e] s2]; simpl in *; by etrans.
Qed.

Lemma steps_for_each {A} (f : A → M unit) (l : list A) :
  (∀ x, steps R (f x)) → steps R (for_each f l).
Proof.
  intros Hf. induction l as [|x l IH]; simpl.
  - apply steps_ret.
  - apply steps_bind; [apply Hf|done].
Qed.
End steps.

Lemma steps_mono (R R' : relation State) {A} (m : M A) :
  (∀ s s', R s s' → R' s s') → steps R m → steps R' m.
Proof. intros HR Hm s. apply HR, Hm. Qed.

Global Instance same_closed_ui_preorder : PreOrder same_closed_ui.
Proof.
  split.
  - by intros s.
  - intros s1 s2 s3 [H1 H2] [H3 H4]. split; congruence.
Qed.

Global Instance same_fs_preorder : PreOrder same_fs.
Proof. split; [by intros s|]. intros s1 s2 s3 H1 H2. unfold same_fs in *. congruence. Qed.

Global Instance same_doc_preorder : PreOrder same_doc.
Proof. split; [by intros s|]. intros s1 s2 s3 H1 H2. unfold same_doc in *. congruence. Qed.

Global Instance writes_files_preorder (P : path → Prop) : PreOrder (writes_files P).
Proof.
  split.
  - intros s p. by left.
  - intros s1 s2 s3 H12 H23 p.
    destruct (H23 p) as [E|[HP [c Hc]]].
    + rewrite E. apply H12.
    + right. eauto.
Qed.

Lemma writes_files_mono (P Q : path → Prop) s s' :
  (∀ p, P p → Q p) → writes_files P s s' → writes_files Q s s'.
Proof. intros HPQ H p. destruct (H p) as [E|[HP Hc]]; [by left|right; auto]. Qed.

Section sim.
Context (T : State → State).

Lemma sim_ret {A} (a : A) : sim T (mret a : M A) (mret a).
Proof. by intros s. Qed.

Lemma sim_raise {A} (e : exc) : sim T (raise e : M A) (raise e).
Proof. by intros s. Qed.

Lemma sim_bind {A B} (m1 m2 : M A) (k1 k2 : A → M B) :
  sim T m1 m2 → (∀ a, sim T (k1 a) (k2 a)) → sim T (m1 ≫= k1) (m2 ≫= k2).
Proof.
  intros Hm Hk s. unfold mbind, M_bind. rewrite Hm.
  destruct (m2 s) as [[a|e] s1]; simpl; [apply Hk|done].
Qed.

Lemma sim_try_except {A} (catches : exc → bool) (m1 m2 : M A) (h1 h2 : exc → M A) :
  sim T m1 m2 → (∀ e, sim T (h1 e) (h2 e)) →
  sim T (try_except catches m1 h1) (try_except catches m2 h2).
Proof.
  intros Hm Hh s. unfold try_except. rewrite Hm.
  destruct (m2 s) as [[a|e] s1]; simpl; [done|].
  destruct (catches e); [apply Hh|done].
Qed.

Lemma sim_try_finally {A} (m1 m2 : M A) (f1 f2 : M unit) :
  sim T m1 m2 → sim T f1 f2 → sim T (try_finally m1 f1) (try_finally m2 f2).
Proof.
  intros Hm Hf s. unfold try_finally. rewrite Hm.
  destruct (m2 s) as [r s1]; simpl. rewrite Hf.
  by destruct (f2 s1) as [[[]|e] s2].
Qed.

Lemma sim_for_each {A} (f1 f2 : A → M unit) (l : list A) :
  (∀ x, sim T (f1 x) (f2 x)) → sim T (for_each f1 l) (for_each f2 l).
Proof.
  intros Hf. induction l as [|x l IH]; simpl.
  - apply sim_ret.
  - apply sim_bind; [apply Hf|done].
Qed.
End sim.

(** ** The table extractor works on the end of the document only *)

Lemma sim_set_cell_text f d0 c u (h r col : nat) (t : text) :
  sim (rebase f d0 c u) (set_cell_text (length d0 + h) r col t)
                        (set_cell_text h r col t).
Proof.
  intros s. unfold set_cell_text. cbn [doc rebase].
  rewrite lookup_app_r by lia.
  replace (length d0 + h - length d0) with h by lia.
  destruct (doc s !! h) as [[?|tb|??]|]; try done.
  destruct (decide _); [|done]. destruct (run_text t) as [content ok].
  cbn [fst snd]. f_equal. unfold rebase, set_doc. cbn [fs doc closed ui].
  f_equal. apply insert_app_r.
Qed.

Lemma rebase_add_block f d0 c u (b : block) s :
  set_doc (doc (rebase f d0 c u s) ++ [b]) (rebase f d0 c u s) =
  rebase f d0 c u (set_doc (doc s ++ [b]) s).
Proof. unfold rebase, set_doc. cbn [fs doc closed ui]. by rewrite app_assoc. Qed.

Lemma sim_copy_table f d0 c u (data : TableData) :
  sim (rebase f d0 c u) (copy_table data) (copy_table data).
Proof.
  destruct data as [|row0 data]; [apply sim_ret|].
  intros s. unfold copy_table, mbind, M_bind, add_table.
  rewrite rebase_add_block. cbn [doc rebase]. rewrite length_app.
  apply sim_for_each. intros [r row]. apply sim_for_each. intros [col cell].
  apply sim_set_cell_text.
Qed.

Lemma sim_extract_tables f d0 c u (page : Page) :
  sim (rebase f d0 c u) (extract_tables page) (extract_tables page).
Proof.
  unfold extract_tables. apply sim_bind.
  - apply sim_try_except; [|intros; apply sim_ret].
    unfold call_find_tables. destruct (find_tables page); [apply sim_ret|apply sim_raise].
  - intros [[|data ts]|]; try apply sim_ret.
    apply sim_for_each. intros. apply sim_copy_table.
Qed.

Lemma rebase_empty s : rebase (fs s) (doc s) (closed s) (ui s) s_empty = s.
Proof. unfold rebase. simpl. rewrite app_nil_r. by destruct s. Qed.

(** Wherever it runs, [extract_tables] has the outcome of [tables_run]
    and appends the blocks of [tables_run]. *)
Lemma extract_tables_frame (page : Page) s :
  extract_tables page s =
  ((tables_run page).1, set_doc (doc s ++ (tables_run page).2) s).
Proof.
  rewrite <- (rebase_empty s) at 1. rewrite sim_extract_tables.
  unfold tables_run. by destruct (extract_tables page s_empty).
Qed.

Lemma tables_run_grids (page : Page) (ts : list TableData) :
  find_tables page = Some ts → Forall first_row_longest ts → Forall cells_xml ts →
  tables_run page = (Ok tt, grids_of ts).
Proof.
  intros Hfind Hts Hxs. unfold tables_run.
  by rewrite (extract_tables_grids _ ts) by done.
Qed.

(** ** What each operation may touch *)

Lemma steps_modify (R : relation State) (f : State → State) :
  (∀ s, R s (f s)) → steps R (modify f).
Proof. intros H s. apply H. Qed.

Lemma steps_write_file (R : relation State) `{!Reflexive R} (p : path) (c : content) :
  (∀ s, R s (set_fs (<[p := File c]> (fs s)) s)) → steps R (write_file p c).
Proof.
  intros H s. unfold write_file.
  destruct (parent_error (fs s) p); [done|].
  destruct (is_dir (fs s) p); [done|apply H].
Qed.

Lemma steps_add_picture (R : relation State) `{!Reflexive R}
    (recognised : list byte → bool) (p : path) :
  (∀ s b, R s (set_doc (doc s ++ [b]) s)) → steps R (add_picture recognised p).
Proof.
  intros H s. unfold add_picture.
  destruct (fs s !! p) as [[|[b|d]]|]; try apply H.
  - destruct (recognised b); apply H.
  - destruct (is_dir (fs s) p); apply H.
Qed.

Lemma steps_add_paragraph (R : relation State) (t : text) :
  (∀ s b, R s (set_doc (doc s ++ [b]) s)) → steps R (add_paragraph t).
Proof.
  intros H s. unfold add_paragraph. destruct (run_text t) as [content ok]. apply H.
Qed.

Lemma steps_set_cell_text (R : relation State) `{!Reflexive R} (h r c : nat) (t : text) :
  (∀ s i tb, R s (set_doc (<[i := TableB tb]> (doc s)) s)) →
  steps R (set_cell_text h r c t).
Proof.
  intros H s. unfold set_cell_text.
  destruct (doc s !! h) as [[?|tb|??]|]; try done.
  destruct (decide _); [|done]. destruct (run_text t) as [content ok]. apply H.
Qed.

(** The table extractor changes the document only, by appending a table
    or by replacing a block with a table. *)
Lemma steps_extract_tables_blocks (R : relation State) `{!PreOrder R} (page : Page) :
  (∀ s tb, R s (set_doc (doc s ++ [TableB tb]) s)) →
  (∀ s i tb, R s (set_doc (<[i := TableB tb]> (doc s)) s)) →
  steps R (extract_tables page).
Proof.
  intros Happ Hins. unfold extract_tables. apply steps_bind; [done|..].
  - apply steps_try_except; [done|..].
    + unfold call_find_tables.
      destruct (find_tables page); [by apply steps_ret|by apply steps_raise].
    + intros. by apply steps_ret.
  - intros [[|data ts]|]; try by apply steps_ret.
    apply steps_for_each; [done|]. intros [|row0 rest]; [by apply steps_ret|].
    unfold copy_table. apply steps_bind; [done|..].
    + intros s. apply Happ.
    + intros h. apply steps_for_each; [done|]. intros [r row].
      apply steps_for_each; [done|]. intros [c cell].
      apply steps_set_cell_text; [apply _|apply Hins].
Qed.

Lemma steps_extract_tables (R : relation State) `{!PreOrder R} (page : Page) :
  (∀ s d, R s (set_doc d s)) → steps R (extract_tables page).
Proof. intros H. apply steps_extract_tables_blocks; [done|..]; intros; apply H. Qed.

Lemma steps_extract_images (R : relation State) `{!PreOrder R}
    (recognised : list byte → bool) (page : Page) (tmp : path) :
  (∀ s d, R s (set_doc d s)) →
  (∀ s x c, R s (set_fs (<[tmp ++ [x] := File c]> (fs s)) s)) →
  steps R (extract_images recognised page tmp).
Proof.
  intros Hdoc Hfs. unfold extract_images. apply steps_for_each; [done|].
  intros img. apply steps_bind; [done|..].
  - apply steps_write_file; [apply _|]. intros s. apply Hfs.
  - intros _. apply steps_try_except; [done|..].
    + apply steps_add_picture; [apply _|]. intros. apply Hdoc.
    + intros. by apply steps_ret.
Qed.

Lemma steps_convert_page (R : relation State) `{!PreOrder R}
    (recognised : list byte → bool) (inc : bool) (tmp : path) (page : Page) :
  (∀ s d, R s (set_doc d s)) →
  (∀ s x c, R s (set_fs (<[tmp ++ [x] := File c]> (fs s)) s)) →
  steps R (convert_page recognised inc tmp page).
Proof.
  intros Hdoc Hfs. unfold convert_page. apply steps_bind; [done|..].
  - destruct (strip (get_text page)); [by apply steps_ret|].
    apply steps_add_paragraph. intros s b. apply Hdoc.
  - intros _. apply steps_bind; [done|by apply steps_extract_tables|].
    intros _. destruct inc; [by apply steps_extract_images|by apply steps_ret].
Qed.

Lemma writes_files_insert (P : path → Prop) (p : path) (c : content) s :
  P p → writes_files P s (set_fs (<[p := File c]> (fs s)) s).
Proof.
  intros HP q. simpl. destruct (decide (p = q)) as [<-|Hne].
  - right. split; [done|]. exists c. apply lookup_insert_eq.
  - left. by apply lookup_insert_ne.
Qed.

(** Processing the pages leaves the counter and the GUI alone, and
    writes nothing but files directly inside the temporary directory. *)
Lemma convert_pages_keeps recognised inc tmp (pdf : PDF) :
  steps same_closed_ui (for_each (convert_page recognised inc tmp) pdf).
Proof.
  apply steps_for_each; [apply _|]. intros page.
  apply steps_convert_page; [apply _|..]; by intros.
Qed.

Lemma convert_pages_writes recognised inc tmp (pdf : PDF) :
  steps (writes_files (inside tmp)) (for_each (convert_page recognised inc tmp) pdf).
Proof.
  apply steps_for_each; [apply _|]. intros page.
  apply steps_convert_page; [apply _|..].
  - intros s d p. by left.
  - intros s x c. apply writes_files_insert. by exists x.
Qed.

Lemma convert_pages_no_images_fs recognised tmp (pdf : PDF) :
  steps same_fs (for_each (convert_page recognised false tmp) pdf).
Proof.
  apply steps_for_each; [apply _|]. intros page.
  unfold convert_page. apply steps_bind; [apply _|..].
  - destruct (strip (get_text page)); [apply steps_ret; apply _|].
    apply steps_add_paragraph. by intros.
  - intros _. apply steps_bind; [apply _|..].
    + apply steps_extract_tables; [apply _|]. by intros.
    + intros. apply steps_ret; apply _.
Qed.

(** ** The image extractor *)

Section images.
Context (recognised : list byte → bool).

(** One image: the bytes go to a file of the temporary directory, and
    the document gains a picture block when python-docx accepts them,
    and the empty paragraph it had made for the picture when not. *)
Lemma image_step (p : path) (b : list byte) s :
  (write_file p (Bytes b);;
   try_except is_Exception (add_picture recognised p) (λ _, mret tt)) s =
  match parent_error (fs s) p with
  | Some e => (Raise e, s)
  | None =>
      if is_dir (fs s) p then (Raise IsADirectoryError, s)
      else (Ok tt,
            set_doc (doc s ++ [if recognised b then Picture b Inches_2_5
                               else Paragraph []])
              (set_fs (<[p := File (Bytes b)]> (fs s)) s))
  end.
Proof.
  unfold mbind, M_bind, write_file.
  destruct (parent_error (fs s) p); [done|].
  destruct (is_dir (fs s) p) eqn:Hd; [done|].
  unfold try_except, add_picture. cbn [fs set_fs].
  rewrite lookup_insert_eq. by destruct (recognised b).
Qed.

Lemma parent_error_inside (f : gmap path node) (tmp : path) (x : string) :
  is_dir f tmp = true → parent_error f (tmp ++ [x]) = None.
Proof. intros H. unfold parent_error. by rewrite parent_snoc, H. Qed.

Lemma is_dir_insert_file (f : gmap path node) (p q : path) (c : content) :
  is_dir f q = true → is_dir (<[p := File c]> f) q = true ∨ p = q.
Proof.
  intros H. destruct (decide (p = q)) as [|Hne]; [by right|left].
  unfold is_dir in *. destruct q; [done|]. by rewrite lookup_insert_ne.
Qed.

Lemma is_dir_insert_file_false (f : gmap path node) (p q : path) (c : content) :
  q ≠ [] → is_dir f q = false → is_dir (<[p := File c]> f) q = false.
Proof.
  intros Hq H. unfold is_dir in *. destruct q; [done|].
  destruct (decide (p = s :: q)) as [->|Hne].
  - by rewrite lookup_insert_eq.
  - by rewrite lookup_insert_ne.
Qed.

Lemma snoc_ne_self (tmp : path) (x : string) : tmp ++ [x] ≠ tmp.
Proof. intros H. apply (f_equal length) in H. rewrite length_app in H. simpl in H. lia. Qed.

Lemma snoc_ne_nil (tmp : path) (x : string) : tmp ++ [x] ≠ [].
Proof. by destruct tmp. Qed.

(** A run of the image loop that returns has added the blocks of the
    images, in order: the picture of an accepted image, the empty
    paragraph of a rejected one. *)
Lemma images_loop_doc (tmp : path) (imgs : list Image) : ∀ s s',
  for_each (λ img,
    write_file (tmp ++ [img_name (xref img)]) (Bytes (image img));;
    try_except is_Exception
      (add_picture recognised (tmp ++ [img_name (xref img)])) (λ _, mret tt))
    imgs s = (Ok tt, s') →
  doc s' = doc s ++ (image_block recognised <$> imgs).
Proof.
  induction imgs as [|img imgs IH]; intros s s' Hrun; simpl in Hrun.
  - injection Hrun as <-. by rewrite app_nil_r.
  - unfold mbind at 1, M_bind at 1 in Hrun. rewrite image_step in Hrun.
    destruct (parent_error _ _); [done|]. destruct (is_dir _ _); [done|].
    apply IH in Hrun. rewrite Hrun. cbn [doc set_doc set_fs].
    by rewrite fmap_cons, <- app_assoc.
Qed.

(** The loop returns when the temporary directory exists and no
    directory sits where an image file has to go. *)
Lemma images_loop_ok (tmp : path) (imgs : list Image) : ∀ s,
  is_dir (fs s) tmp = true →
  Forall (λ img, is_dir (fs s) (tmp ++ [img_name (xref img)]) = false) imgs →
  ∃ s', for_each (λ img,
    write_file (tmp ++ [img_name (xref img)]) (Bytes (image img));;
    try_except is_Exception
      (add_picture recognised (tmp ++ [img_name (xref img)])) (λ _, mret tt))
    imgs s = (Ok tt, s').
Proof.
  induction imgs as [|img imgs IH]; intros s Htmp Hfree; simpl.
  - by eexists.
  - apply Forall_cons in Hfree as [Himg Hfree].
    unfold mbind at 1, M_bind at 1. rewrite image_step.
    rewrite parent_error_inside, Himg by done.
    apply IH.
    + cbn [fs set_doc set_fs].
      destruct (is_dir_insert_file (fs s) (tmp ++ [img_name (xref img)]) tmp
                  (Bytes (image img)) Htmp) as [H|H];
        [done|by apply snoc_ne_self in H].
    + eapply Forall_impl; [done|]. intros img' H. simpl in H.
      cbn [fs set_doc set_fs].
      by apply is_dir_insert_file_false; [apply snoc_ne_nil|].
Qed.

Lemma extract_images_doc (page : Page) (tmp : path) s s' :
  extract_images recognised page tmp s = (Ok tt, s') →
  doc s' = doc s ++ image_blocks recognised page.
Proof. apply images_loop_doc. Qed.

Lemma extract_images_ok (page : Page) (tmp : path) s :
  is_dir (fs s) tmp = true →
  Forall (λ img, is_dir (fs s) (tmp ++ [img_name (xref img)]) = false)
         (get_images page) →
  ∃ s', extract_images recognised page tmp s = (Ok tt, s').
Proof. apply images_loop_ok. Qed.
End images.

(** ** One page, all pages *)

Section pages.
Context (recognised : list byte → bool).

(** The paragraph step goes through exactly for a text lxml accepts,
    and then leaves the paragraph of the page. *)
Lemma para_run_ok (page : Page) :
  xml_text (strip (get_text page)) → para_run page = (Ok tt, para_of page).
Proof.
  intros H. unfold para_run, para_of.
  destruct (strip (get_text page)) as [|c t] eqn:E; [done|].
  by rewrite run_text_ok.
Qed.

Lemma para_run_cases (page : Page) :
  xml_text (strip (get_text page)) ∧ para_run page = (Ok tt, para_of page) ∨
  ¬ xml_text (strip (get_text page)) ∧ (para_run page).1 = Raise ValueError ∧
    ∃ t, (para_run page).2 = [Paragraph t] ∧ t `prefix_of` strip (get_text page).
Proof.
  destruct (run_text (strip (get_text page))) as [content ok] eqn:E.
  destruct ok.
  - left. assert (xml_text (strip (get_text page))) as H.
    { apply run_text_accepted. by rewrite E. }
    split; [done|]. by apply para_run_ok.
  - right. assert (¬ xml_text (strip (get_text page))) as H.
    { intros H%run_text_accepted. by rewrite E in H. }
    unfold para_run. destruct (strip (get_text page)) as [|c t] eqn:Et.
    { destruct H. constructor. }
    rewrite E. split_and!; [done|done|]. exists content. split; [done|].
    pose proof (run_text_prefix (c :: t)) as Hpre. by rewrite E in Hpre.
Qed.

Lemma para_run_accepted (page : Page) :
  (para_run page).1 = Ok tt ↔ xml_text (strip (get_text page)).
Proof.
  destruct (para_run_cases page) as [[H E]|(H & E & _)]; rewrite E; [done|].
  split; [done|]. by intros ?.
Qed.

Lemma add_para_spec (page : Page) s :
  (match strip (get_text page) with
   | [] => mret tt
   | _ => add_paragraph (strip (get_text page))
   end) s = ((para_run page).1, set_doc (doc s ++ (para_run page).2) s).
Proof.
  unfold para_run. destruct (strip (get_text page)) eqn:E.
  - simpl. by rewrite app_nil_r, set_doc_id.
  - unfold add_paragraph. by destruct (run_text _) as [content ok].
Qed.

(** The page step up to the images: a text lxml refuses ends it at the
    paragraph; otherwise its outcome is that of the table extractor, and
    the paragraph and the tables are appended. *)
Lemma convert_page_unfold (inc : bool) (tmp : path) (page : Page) s :
  convert_page recognised inc tmp page s =
  match (para_run page).1 with
  | Raise e => (Raise e, set_doc (doc s ++ (para_run page).2) s)
  | Ok _ =>
      let s2 := set_doc (doc s ++ para_of page ++ (tables_run page).2) s in
      match (tables_run page).1 with
      | Ok _ => if inc then extract_images recognised page tmp s2 else (Ok tt, s2)
      | Raise e => (Raise e, s2)
      end
  end.
Proof.
  unfold convert_page, mbind, M_bind. rewrite add_para_spec.
  destruct (para_run_cases page) as [[_ E]|(_ & E & _)]; rewrite E; [|done].
  cbn [fst snd]. rewrite extract_tables_frame. cbn [doc set_doc].
  rewrite <- app_assoc. unfold set_doc at 1. cbn [fs doc closed ui].
  fold (set_doc (doc s ++ para_of page ++ (tables_run page).2) s).
  destruct (tables_run page).1 as [[]|e]; [|done]. by destruct inc.
Qed.

(** The page step of a page whose text lxml accepts. *)
Lemma convert_page_unfold_ok (inc : bool) (tmp : path) (page : Page) s :
  xml_text (strip (get_text page)) →
  convert_page recognised inc tmp page s =
  let s2 := set_doc (doc s ++ para_of page ++ (tables_run page).2) s in
  match (tables_run page).1 with
  | Ok _ => if inc then extract_images recognised page tmp s2 else (Ok tt, s2)
  | Raise e => (Raise e, s2)
  end.
Proof. intros H. by rewrite convert_page_unfold, para_run_ok. Qed.

Lemma convert_page_doc (inc : bool) (tmp : path) (page : Page) s s' :
  convert_page recognised inc tmp page s = (Ok tt, s') →
  page_ok page ∧ doc s' = doc s ++ page_blocks recognised inc page.
Proof.
  rewrite convert_page_unfold. unfold page_blocks, page_ok.
  destruct (para_run_cases page) as [[Ht E]|(_ & E & _)]; rewrite E; [|done].
  cbn [fst]. cbn zeta.
  destruct (tables_run page).1 as [[]|e]; [|done]. destruct inc.
  - intros H%extract_images_doc. split; [done|].
    rewrite H. cbn [doc set_doc]. by rewrite <- !app_assoc.
  - intros [= <-]. split; [done|]. cbn [doc set_doc]. by rewrite app_nil_r.
Qed.

Lemma convert_pages_doc (inc : bool) (tmp : path) (pdf : PDF) : ∀ s s',
  for_each (convert_page recognised inc tmp) pdf s = (Ok tt, s') →
  Forall page_ok pdf ∧
  doc s' = doc s ++ pdf_blocks recognised inc pdf.
Proof.
  induction pdf as [|page pdf IH]; intros s s' Hrun; simpl in Hrun.
  - injection Hrun as <-. split; [done|]. unfold pdf_blocks. simpl. by rewrite app_nil_r.
  - unfold mbind, M_bind in Hrun.
    destruct (convert_page recognised inc tmp page s) as [[[]|e] s1] eqn:Hpage; [|done].
    apply convert_page_doc in Hpage as [Htab Hdoc1].
    apply IH in Hrun as [Htabs Hdoc]. split; [by constructor|].
    rewrite Hdoc, Hdoc1. unfold pdf_blocks. simpl. by rewrite <- app_assoc.
Qed.

(** Without images the page loop depends on the text and the tables
    alone. *)
Lemma convert_pages_no_images (tmp : path) (pdf : PDF) : ∀ s,
  Forall page_ok pdf →
  for_each (convert_page recognised false tmp) pdf s =
  (Ok tt, set_doc (doc s ++ pdf_blocks recognised false pdf) s).
Proof.
  induction pdf as [|page pdf IH]; intros s Htabs; simpl.
  - unfold pdf_blocks. simpl. by rewrite app_nil_r, set_doc_id.
  - apply Forall_cons in Htabs as [[Htext Htab] Htabs].
    unfold mbind, M_bind. rewrite convert_page_unfold_ok by done.
    cbn zeta. rewrite Htab.
    rewrite IH by done. cbn [doc set_doc]. f_equal.
    unfold set_doc. cbn [fs doc closed ui]. f_equal.
    unfold pdf_blocks, page_blocks. simpl. by rewrite app_nil_r, <- !app_assoc.
Qed.
End pages.

(** ** The [finally] suite *)

Lemma obstacle_cases (f : gmap path node) (rest : path) : ∀ cur,
  obstacle f cur rest = FileNotFoundError ∨ obstacle f cur rest = NotADirectoryError.
Proof.
  induction rest as [|x rest IH]; intros cur; simpl; [by left|].
  destruct (f !! (cur ++ [x])) as [[|c]|]; auto.
Qed.

Lemma set_fs_id s : set_fs (fs s) s = s.
Proof. by destruct s. Qed.

Lemma try_unlink_spec (p : path) s :
  try_except is_Exception (unlink_missing_ok p) (λ _, mret tt) s =
  (Ok tt, set_fs (remove_file p (fs s)) s).
Proof.
  unfold unlink_missing_ok, os_unlink, remove_file, try_except.
  destruct (fs s !! p) as [[|c]|]; cbn.
  - by rewrite set_fs_id.
  - done.
  - rewrite set_fs_id. destruct (is_dir (fs s) p); [done|].
    by destruct (bool_decide _).
Qed.

Lemma unlink_loop_spec (l : list path) : ∀ s,
  for_each (λ img_file,
    try_except is_Exception (unlink_missing_ok img_file) (λ _, mret tt)) l s =
  (Ok tt, set_fs (remove_files l (fs s)) s).
Proof.
  induction l as [|p l IH]; intros s; simpl.
  - by rewrite set_fs_id.
  - unfold mbind, M_bind. rewrite try_unlink_spec, IH. done.
Qed.

Lemma try_rmdir_spec (d : path) s :
  try_except is_OSError (rmdir d) (λ _, mret tt) s =
  (Ok tt, set_fs (remove_empty_dir d (fs s)) s).
Proof.
  unfold try_except, rmdir, remove_empty_dir.
  destruct (fs s !! d) as [[|c]|].
  - destruct (listdir (fs s) d); simpl; [done|]. by rewrite set_fs_id.
  - simpl. by rewrite set_fs_id.
  - destruct (is_dir (fs s) d); [simpl; by rewrite set_fs_id|].
    destruct (obstacle_cases (fs s) d []) as [-> | ->]; simpl;
      by rewrite set_fs_id.
Qed.

(** The [finally] suite never raises: every failed removal is dropped. *)
Lemma cleanup_spec (tmp : path) s :
  cleanup tmp s =
  (Ok tt, set_closed (S (closed s)) (set_fs (cleaned tmp (fs s)) s)).
Proof.
  unfold cleanup, mbind, M_bind, gets.
  rewrite unlink_loop_spec, try_rmdir_spec. done.
Qed.

Lemma remove_file_lookup (p q : path) (f : gmap path node) :
  remove_file p f !! q =
  match f !! q with
  | Some (File c) => if decide (p = q) then None else Some (File c)
  | o => o
  end.
Proof.
  unfold remove_file. destruct (decide (p = q)) as [<-|Hne].
  - destruct (f !! p) as [[|c]|] eqn:E; rewrite ?E; try done.
    apply lookup_delete_eq.
  - destruct (f !! p) as [[|c]|] eqn:E.
    + by destruct (f !! q) as [[|c']|].
    + rewrite lookup_delete_ne by done. by destruct (f !! q) as [[|c']|].
    + by destruct (f !! q) as [[|c']|].
Qed.

Lemma remove_files_lookup (l : list path) (q : path) : ∀ f : gmap path node,
  remove_files l f !! q =
  match f !! q with
  | Some (File c) => if decide (q ∈ l) then None else Some (File c)
  | o => o
  end.
Proof.
  induction l as [|p l IH]; intros f; simpl.
  - by destruct (f !! q) as [[|c]|].
  - unfold remove_files in *. simpl. rewrite IH, remove_file_lookup.
    destruct (f !! q) as [[|c]|]; try done.
    destruct (decide (p = q)) as [<-|Hne].
    + rewrite decide_True by left. done.
    + destruct (decide (q ∈ l)).
      * rewrite decide_True by (by right). done.
      * rewrite decide_False; [done|]. intros [?|?]%elem_of_cons; congruence.
Qed.

Lemma elem_of_glob_star (f : gmap path node) (d p : path) :
  p ∈ glob f d "*" ↔ p ∈ listdir f d.
Proof.
  unfold glob. rewrite list_elem_of_filter.
  change (String.list_ascii_of_string "*") with ["*"%char].
  rewrite fnmatch_any. split; [by intros [_ ?]|by split].
Qed.

Lemma remove_empty_dir_lookup_ne (d q : path) (f : gmap path node) :
  q ≠ d → remove_empty_dir d f !! q = f !! q.
Proof.
  intros Hne. unfold remove_empty_dir.
  destruct (f !! d) as [[|c]|]; try done.
  destruct (listdir f d); [|done]. by rewrite lookup_delete_ne.
Qed.

Lemma listdir_nil (f : gmap path node) (d : path) :
  (∀ x, f !! (d ++ [x]) = None) → listdir f d = [].
Proof.
  intros H. destruct (listdir f d) as [|p l] eqn:E; [done|].
  assert (p ∈ listdir f d) as Hp by (rewrite E; left).
  apply elem_of_listdir in Hp as (_ & [n Hn] & x & ->).
  by rewrite H in Hn.
Qed.

(** Outside the temporary directory nothing changes. *)
Lemma cleaned_lookup_outside (tmp q : path) (f : gmap path node) :
  q ≠ tmp → ¬ inside tmp q → cleaned tmp f !! q = f !! q.
Proof.
  intros Hne Hout. unfold cleaned.
  rewrite remove_empty_dir_lookup_ne, remove_files_lookup by done.
  destruct (f !! q) as [[|c]|]; try done.
  rewrite decide_False; [done|].
  intros (_ & _ & x & ->)%elem_of_glob_star%elem_of_listdir. apply Hout. by exists x.
Qed.

(** Nothing is ever added. *)
Lemma cleaned_lookup_Some (tmp q : path) (f : gmap path node) (n : node) :
  cleaned tmp f !! q = Some n → f !! q = Some n.
Proof.
  unfold cleaned, remove_empty_dir. intros H.
  assert (remove_files (glob f tmp "*") f !! q = Some n) as H'.
  { destruct (remove_files _ f !! tmp) as [[|c]|]; try done.
    destruct (listdir _ tmp); [|done].
    destruct (decide (tmp = q)) as [<-|Hne].
    - by rewrite lookup_delete_eq in H.
    - by rewrite lookup_delete_ne in H. }
  rewrite remove_files_lookup in H'.
  destruct (f !! q) as [[|c]|]; try done. by destruct (decide _).
Qed.

(** No file is left directly inside the directory. *)
Lemma cleaned_no_file_inside (tmp : path) (x : string) (f : gmap path node) (c : content) :
  is_dir f tmp = true → cleaned tmp f !! (tmp ++ [x]) ≠ Some (File c).
Proof.
  intros Hdir H. unfold cleaned in H.
  rewrite remove_empty_dir_lookup_ne in H by apply snoc_ne_self.
  rewrite remove_files_lookup in H.
  destruct (f !! (tmp ++ [x])) as [[|c']|] eqn:E; try done.
  rewrite decide_True in H; [done|].
  apply elem_of_glob_star, elem_of_listdir. split; [done|]. split; [by eexists|by exists x].
Qed.

(** A directory that holds files only is removed with them. *)
Lemma cleaned_files_only (tmp : path) (f : gmap path node) :
  f !! tmp = Some Dir → (∀ x, f !! (tmp ++ [x]) ≠ Some Dir) →
  cleaned tmp f !! tmp = None ∧ ∀ x, cleaned tmp f !! (tmp ++ [x]) = None.
Proof.
  intros Htmp Hfiles.
  assert (is_dir f tmp = true) as Hdir.
  { unfold is_dir. rewrite Htmp. by destruct tmp. }
  assert (∀ x, remove_files (glob f tmp "*") f !! (tmp ++ [x]) = None) as Hgone.
  { intros x. rewrite remove_files_lookup.
    destruct (f !! (tmp ++ [x])) as [[|c]|] eqn:E; try done.
    - by apply Hfiles in E.
    - rewrite decide_True; [done|].
      apply elem_of_glob_star, elem_of_listdir.
      split; [done|]. split; [by eexists|by exists x]. }
  assert (remove_files (glob f tmp "*") f !! tmp = Some Dir) as Htmp'.
  { rewrite remove_files_lookup. by rewrite Htmp. }
  unfold cleaned, remove_empty_dir. rewrite Htmp', listdir_nil by done. split.
  - apply lookup_delete_eq.
  - intros x. rewrite lookup_delete_ne by (symmetry; apply snoc_ne_self). apply Hgone.
Qed.

(** ** Only tables come out of the table extractor *)

Global Instance keeps_tables_preorder : PreOrder keeps_tables.
Proof.
  split.
  - intros s H. exact H.
  - intros s1 s2 s3 H12 H23 H. by apply H23, H12.
Qed.

Lemma tables_run_tables (page : Page) : Forall is_table (tables_run page).2.
Proof.
  unfold tables_run.
  pose proof (steps_extract_tables_blocks keeps_tables page) as H.
  specialize (H ltac:(intros s tb Hs; simpl; apply Forall_app; split; [done|by repeat constructor])).
  specialize (H ltac:(intros s i tb Hs; simpl; by apply Forall_insert)).
  specialize (H s_empty). destruct (extract_tables page s_empty) as [r s'].
  simpl in *. by apply H.
Qed.

Lemma filter_keep_all {A} (P : A → Prop) `{∀ x, Decision (P x)} (l : list A) :
  Forall P l → filter P l = l.
Proof.
  induction 1 as [|x l Hx _ IH]; [done|].
  by rewrite filter_cons, decide_True, IH.
Qed.

Lemma filter_drop_all {A} (P : A → Prop) `{∀ x, Decision (P x)} (l : list A) :
  Forall (λ x, ¬ P x) l → filter P l = [].
Proof.
  induction 1 as [|x l Hx _ IH]; [done|].
  by rewrite filter_cons, decide_False, IH.
Qed.

Lemma is_table_not_picture (b : block) : is_table b → is_picture b = false.
Proof. by destruct b. Qed.

Lemma is_table_not_from_image (b : block) : is_table b → from_image b = false.
Proof. by destruct b. Qed.

Lemma from_image_not_picture (b : block) : from_image b = false → is_picture b = false.
Proof. unfold from_image. by destruct (is_picture b). Qed.

Lemma para_of_not_from_image (page : Page) :
  Forall (λ b, from_image b = false) (para_of page).
Proof. unfold para_of. destruct (strip (get_text page)); by repeat constructor. Qed.

Lemma image_blocks_from_image recognised (page : Page) :
  Forall (λ b, from_image b = true) (image_blocks recognised page).
Proof.
  unfold image_blocks. apply Forall_fmap, Forall_forall. intros img _.
  unfold image_block. simpl. by destruct (recognised (image img)).
Qed.

(** The pictures among the blocks of the images are the pictures of the
    accepted images. *)
Lemma image_blocks_pictures recognised (page : Page) :
  filter (λ b, is_picture b = true) (image_blocks recognised page) =
  (λ img, Picture (image img) Inches_2_5) <$>
    filter (λ img, recognised (image img) = true) (get_images page).
Proof.
  unfold image_blocks. induction (get_images page) as [|img imgs IH]; [done|].
  rewrite fmap_cons. unfold image_block at 1.
  destruct (recognised (image img)) eqn:E.
  - rewrite filter_cons_True by done. rewrite (filter_cons_True _ img) by done.
    by rewrite fmap_cons, IH.
  - rewrite filter_cons_False by done.
    rewrite (filter_cons_False _ img) by (by rewrite E). done.
Qed.

(** Dropping the blocks of the images from a page converted with images
    gives the page converted without. *)
Lemma page_blocks_drop_images recognised (page : Page) :
  filter (λ b, from_image b = false) (page_blocks recognised true page) =
  page_blocks recognised false page.
Proof.
  unfold page_blocks. rewrite !filter_app, app_nil_r.
  rewrite (filter_keep_all _ (para_of page)) by apply para_of_not_from_image.
  rewrite (filter_keep_all _ (tables_run page).2)
    by (eapply Forall_impl; [apply tables_run_tables|apply is_table_not_from_image]).
  rewrite (filter_drop_all _ (image_blocks recognised page)); [by rewrite app_nil_r|].
  eapply Forall_impl; [apply image_blocks_from_image|]. intros b ->. done.
Qed.

Lemma pdf_blocks_drop_images recognised (pdf : PDF) :
  filter (λ b, from_image b = false) (pdf_blocks recognised true pdf) =
  pdf_blocks recognised false pdf.
Proof.
  unfold pdf_blocks. induction pdf as [|page pdf IH]; simpl; [done|].
  by rewrite filter_app, page_blocks_drop_images, IH.
Qed.

(** When every image is accepted, dropping the pictures is enough. *)
Lemma page_blocks_drop_pictures recognised (page : Page) :
  images_accepted recognised page →
  filter (λ b, is_picture b = false) (page_blocks recognised true page) =
  page_blocks recognised false page.
Proof.
  intros Hacc. unfold page_blocks. rewrite !filter_app, app_nil_r.
  rewrite (filter_keep_all _ (para_of page))
    by (eapply Forall_impl; [apply para_of_not_from_image|apply from_image_not_picture]).
  rewrite (filter_keep_all _ (tables_run page).2)
    by (eapply Forall_impl; [apply tables_run_tables|apply is_table_not_picture]).
  rewrite (filter_drop_all _ (image_blocks recognised page)); [by rewrite app_nil_r|].
  unfold image_blocks. apply Forall_fmap. eapply Forall_impl; [exact Hacc|].
  intros img Himg. unfold image_block. simpl. by rewrite Himg.
Qed.

Lemma pdf_blocks_drop_pictures recognised (pdf : PDF) :
  Forall (images_accepted recognised) pdf →
  filter (λ b, is_picture b = false) (pdf_blocks recognised true pdf) =
  pdf_blocks recognised false pdf.
Proof.
  unfold pdf_blocks. induction 1 as [|page pdf Hpage _ IH]; simpl; [done|].
  by rewrite filter_app, page_blocks_drop_pictures, IH.
Qed.

Lemma pdf_blocks_no_images recognised (pdf : PDF) :
  Forall (λ b, from_image b = false) (pdf_blocks recognised false pdf).
Proof.
  unfold pdf_blocks. induction pdf as [|page pdf IH]; simpl; [done|].
  apply Forall_app. split; [|done]. unfold page_blocks. rewrite app_nil_r.
  apply Forall_app. split; [apply para_of_not_from_image|].
  eapply Forall_impl; [apply tables_run_tables|apply is_table_not_from_image].
Qed.

Lemma pdf_blocks_no_pictures recognised (pdf : PDF) :
  Forall (λ b, is_picture b = false) (pdf_blocks recognised false pdf).
Proof.
  eapply Forall_impl; [apply pdf_blocks_no_images|apply from_image_not_picture].
Qed.

(** ** The conversion engine, step by step *)

Lemma is_dir_Some_Dir (f : gmap path node) (p : path) :
  p ≠ [] → is_dir f p = true ↔ f !! p = Some Dir.
Proof.
  intros Hp. unfold is_dir. destruct p; [done|].
  destruct (f !! _) as [[|c]|]; naive_solver.
Qed.

(** How [mkdir(exist_ok=True)] can end: it raises and changes nothing,
    it finds the directory, or it makes it. *)
Lemma mkdir_exist_ok_cases (p : path) s :
  p ≠ [] →
  (∃ e, mkdir_exist_ok p s = (Raise e, s)) ∨
  (mkdir_exist_ok p s = (Ok tt, s) ∧ fs s !! p = Some Dir) ∨
  (mkdir_exist_ok p s = (Ok tt, set_fs (<[p := Dir]> (fs s)) s) ∧
   fs s !! p = None ∧ is_dir (fs s) (parent p) = true).
Proof.
  intros Hp. unfold mkdir_exist_ok, try_except, os_mkdir, parent_error.
  destruct (is_dir (fs s) (parent p)) eqn:Hpar.
  - destruct (fs s !! p) as [[|c]|] eqn:E.
    + right; left. cbn. unfold mbind, M_bind, gets. cbn.
      apply (is_dir_Some_Dir _ _ Hp) in E as ->. done.
    + left. exists FileExistsError. cbn. unfold mbind, M_bind, gets. cbn.
      destruct (is_dir (fs s) p) eqn:E'; [|done].
      apply (is_dir_Some_Dir _ _ Hp) in E'. congruence.
    + right; right. destruct (is_dir (fs s) p) eqn:E'; [|done].
      apply (is_dir_Some_Dir _ _ Hp) in E'. congruence.
  - destruct (obstacle_cases (fs s) (parent p) []) as [-> | ->]; cbn.
    + left. by exists FileNotFoundError.
    + unfold mbind, M_bind, gets. cbn.
      destruct (is_dir (fs s) p) eqn:E'.
      * right; left. by apply (is_dir_Some_Dir _ _ Hp) in E'.
      * left. by exists NotADirectoryError.
Qed.

Lemma save_spec (p : path) s :
  save p s =
  match parent_error (fs s) p with
  | Some e => (Raise e, s)
  | None =>
      if is_dir (fs s) p then (Raise IsADirectoryError, s)
      else (Ok tt, set_fs (<[p := File (Docx (doc s))]> (fs s)) s)
  end.
Proof. done. Qed.

Section convert.
Context (fitz_parse : content → option PDF) (recognised : list byte → bool).

Lemma fitz_open_cases (p : path) s :
  (∃ e, fitz_open fitz_parse p s = (Raise e, s)) ∨
  (∃ c pdf, fs s !! p = Some (File c) ∧ fitz_parse c = Some pdf ∧
            fitz_open fitz_parse p s = (Ok pdf, s)).
Proof.
  unfold fitz_open.
  destruct (fs s !! p) as [[|c]|];
    [left; by eexists| |left; destruct (is_dir _ _); by eexists].
  destruct (fitz_parse c) as [pdf|] eqn:E; [right|left; by eexists].
  by exists c, pdf.
Qed.

(** How the [try] suite can end: a page raises, [save] raises, or the
    document is saved. *)
Lemma convert_body_cases (pdf : PDF) (docx tmp : path) (inc : bool) s :
  (∃ e s2, for_each (convert_page recognised inc tmp) pdf s = (Raise e, s2) ∧
           convert_body recognised pdf docx inc tmp s = (Raise e, s2)) ∨
  (∃ e s2, for_each (convert_page recognised inc tmp) pdf s = (Ok tt, s2) ∧
           save docx s2 = (Raise e, s2) ∧
           convert_body recognised pdf docx inc tmp s = (Raise e, s2)) ∨
  (∃ s2, for_each (convert_page recognised inc tmp) pdf s = (Ok tt, s2) ∧
         parent_error (fs s2) docx = None ∧ is_dir (fs s2) docx = false ∧
         convert_body recognised pdf docx inc tmp s =
           (Ok tt, set_fs (<[docx := File (Docx (doc s2))]> (fs s2)) s2)).
Proof.
  unfold convert_body, mbind, M_bind.
  destruct (for_each _ pdf s) as [[[]|e] s2].
  - right. rewrite save_spec.
    destruct (parent_error (fs s2) docx) as [e|] eqn:Epar.
    { left. exists e, s2. by rewrite save_spec, Epar. }
    destruct (is_dir (fs s2) docx) eqn:Edir.
    { left. exists IsADirectoryError, s2. by rewrite save_spec, Epar, Edir. }
    right. by exists s2.
  - left. by exists e, s2.
Qed.

Lemma convert_unfold (now : datetime) (pdf_path docx : path) (inc : bool) s :
  convert_pdf_to_docx fitz_parse recognised now pdf_path docx inc s =
  match fitz_open fitz_parse pdf_path s with
  | (Raise e, s') => (Raise e, s')
  | (Ok pdf, s') =>
      match docx with
      | [] => (Raise ValueError, set_doc [] s')
      | _ =>
          match mkdir_exist_ok (tmp_path now docx) (set_doc [] s') with
          | (Raise e, s1) => (Raise e, s1)
          | (Ok _, s1) =>
              let '(r, s3) := convert_body recognised pdf docx inc (tmp_path now docx) s1 in
              (r, set_closed (S (closed s3))
                    (set_fs (cleaned (tmp_path now docx) (fs s3)) s3))
          end
      end
  end.
Proof.
  unfold convert_pdf_to_docx, mbind, M_bind.
  destruct (fitz_open fitz_parse pdf_path s) as [[pdf|e] s']; [|done].
  unfold new_document, modify. destruct docx as [|x docx']; [done|].
  rewrite temp_dir_of_spec by done. fold (tmp_path now (x :: docx')).
  destruct (mkdir_exist_ok _ _) as [[[]|e] s1]; [|done].
  unfold try_finally.
  destruct (convert_body _ _ _ _ _ s1) as [r s3].
  by rewrite cleanup_spec.
Qed.

(** How a conversion can end: the source does not open, there is no
    temporary directory to be had, or the [try] suite runs and is
    followed by the [finally] suite. *)
Lemma convert_cases (now : datetime) (pdf_path docx : path) (inc : bool) s :
  (∃ e, fitz_open fitz_parse pdf_path s = (Raise e, s) ∧
        convert_pdf_to_docx fitz_parse recognised now pdf_path docx inc s = (Raise e, s)) ∨
  (∃ c pdf e, fs s !! pdf_path = Some (File c) ∧ fitz_parse c = Some pdf ∧
        (docx = [] ∨
         mkdir_exist_ok (tmp_path now docx) (set_doc [] s) = (Raise e, set_doc [] s)) ∧
        convert_pdf_to_docx fitz_parse recognised now pdf_path docx inc s
          = (Raise e, set_doc [] s)) ∨
  (∃ c pdf s1 r s3, fs s !! pdf_path = Some (File c) ∧ fitz_parse c = Some pdf ∧
        docx ≠ [] ∧
        mkdir_exist_ok (tmp_path now docx) (set_doc [] s) = (Ok tt, s1) ∧
        convert_body recognised pdf docx inc (tmp_path now docx) s1 = (r, s3) ∧
        convert_pdf_to_docx fitz_parse recognised now pdf_path docx inc s
          = (r, set_closed (S (closed s3))
                  (set_fs (cleaned (tmp_path now docx) (fs s3)) s3))).
Proof.
  rewrite convert_unfold.
  destruct (fitz_open_cases pdf_path s) as [[e He]|(c & pdf & Hc & Hparse & Hopen)].
  { left. exists e. by rewrite He. }
  right. rewrite Hopen.
  destruct (decide (docx = [])) as [->|Hdocx].
  { left. exists c, pdf, ValueError. split_and!; try done. by left. }
  destruct docx as [|x docx'] eqn:Edocx; [done|]. rewrite <- Edocx in *.
  destruct (mkdir_exist_ok_cases (tmp_path now docx) (set_doc [] s))
    as [[e He]|Hmk]; [apply snoc_ne_nil| |].
  { left. exists c, pdf, e. rewrite He. split_and!; try done. by right. }
  right.
  assert (∃ s1, mkdir_exist_ok (tmp_path now docx) (set_doc [] s) = (Ok tt, s1))
    as [s1 Hs1] by (destruct Hmk as [[? _]|[? _]]; by eexists).
  rewrite Hs1.
  destruct (convert_body recognised pdf docx inc (tmp_path now docx) s1)
    as [r s3] eqn:Hbody.
  by exists c, pdf, s1, r, s3.
Qed.
End convert.

(** ** Where the engine writes *)

Lemma mkdir_ok_facts (p : path) s s1 :
  p ≠ [] → mkdir_exist_ok p s = (Ok tt, s1) →
  fs s1 !! p = Some Dir ∧ (∀ q, q ≠ p → fs s1 !! q = fs s !! q) ∧
  (fs s !! p = Some Dir ∨ fs s !! p = None ∧ is_dir (fs s) (parent p) = true) ∧
  doc s1 = doc s ∧ closed s1 = closed s ∧ ui s1 = ui s.
Proof.
  intros Hp Hmk.
  destruct (mkdir_exist_ok_cases p s Hp) as [[e He]|[[H1 H2]|(H1 & H2 & H3)]].
  - congruence.
  - rewrite H1 in Hmk. injection Hmk as <-. split_and!; auto.
  - rewrite H1 in Hmk. injection Hmk as <-. cbn [fs doc closed ui set_fs].
    split_and!; auto.
    + apply lookup_insert_eq.
    + intros q Hq. by apply lookup_insert_ne.
Qed.

Lemma inside_length (d p : path) : inside d p → length p = S (length d).
Proof. intros [x ->]. rewrite length_app. simpl. lia. Qed.

Lemma tmp_path_length (now : datetime) (docx : path) :
  docx ≠ [] → length (tmp_path now docx) = length docx.
Proof.
  intros H. rewrite (path_split docx H) at 2. unfold tmp_path.
  by rewrite !length_app.
Qed.

Lemma docx_not_inside_tmp (now : datetime) (docx : path) :
  docx ≠ [] → ¬ inside (tmp_path now docx) docx.
Proof.
  intros H Hin%inside_length. rewrite tmp_path_length in Hin by done. lia.
Qed.

Lemma parent_tmp_path (now : datetime) (docx : path) :
  parent (tmp_path now docx) = parent docx.
Proof. apply parent_snoc. Qed.

Lemma is_dir_ext (f g : gmap path node) (p : path) :
  f !! p = g !! p → is_dir f p = is_dir g p.
Proof. intros H. unfold is_dir. by rewrite H. Qed.

Lemma parent_error_None (f : gmap path node) (p : path) :
  parent_error f p = None ↔ is_dir f (parent p) = true.
Proof. unfold parent_error. by destruct (is_dir f (parent p)). Qed.

Section engine_facts.
Context (fitz_parse : content → option PDF) (recognised : list byte → bool).

(** What the page loop leaves in the state. *)
Lemma convert_pages_facts (inc : bool) (tmp : path) (pdf : PDF) s r s2 :
  for_each (convert_page recognised inc tmp) pdf s = (r, s2) →
  closed s2 = closed s ∧ ui s2 = ui s ∧
  (∀ q, ¬ inside tmp q → fs s2 !! q = fs s !! q) ∧
  (∀ q n, fs s2 !! q = Some n → fs s !! q = Some n ∨ ∃ c, n = File c ∧ inside tmp q).
Proof.
  intros Hrun.
  pose proof (convert_pages_keeps recognised inc tmp pdf s) as [Hc Hu].
  pose proof (convert_pages_writes recognised inc tmp pdf s) as Hw.
  rewrite Hrun in Hc, Hu, Hw. simpl in *. split_and!; [done|done|..].
  - intros q Hq. destruct (Hw q) as [E|[Hin _]]; [done|by destruct Hq].
  - intros q n Hn. destruct (Hw q) as [E|[Hin [c Hc']]].
    + left. congruence.
    + right. exists c. split; [congruence|done].
Qed.

(** What the [try] suite leaves in the state. *)
Lemma convert_body_facts (pdf : PDF) (docx tmp : path) (inc : bool) s r s3 :
  ¬ inside tmp docx → ¬ inside tmp (parent docx) →
  convert_body recognised pdf docx inc tmp s = (r, s3) →
  closed s3 = closed s ∧ ui s3 = ui s ∧
  (∀ q, ¬ inside tmp q → q ≠ docx → fs s3 !! q = fs s !! q) ∧
  (∀ q n, fs s3 !! q = Some n → inside tmp q → fs s !! q = Some n ∨ ∃ c, n = File c) ∧
  match r with
  | Ok _ =>
      Forall page_ok pdf ∧
      parent_error (fs s) docx = None ∧ is_dir (fs s) docx = false ∧
      fs s3 !! docx = Some (File (Docx (doc s ++ pdf_blocks recognised inc pdf)))
  | Raise _ => fs s3 !! docx = fs s !! docx
  end.
Proof.
  intros Hdocx Hparent Hbody.
  destruct (convert_body_cases recognised pdf docx tmp inc s)
    as [(e & s2 & Hpages & Hb)|[(e & s2 & Hpages & Hsave & Hb)|(s2 & Hpages & Hpar & Hdir & Hb)]];
    rewrite Hb in Hbody; injection Hbody as <- <-;
    destruct (convert_pages_facts _ _ _ _ _ _ Hpages) as (Hc & Hu & Hout & Hin).
  - split_and!; auto. intros q n Hn Hq. destruct (Hin q n Hn) as [|[c [-> _]]]; eauto.
  - split_and!; auto. intros q n Hn Hq. destruct (Hin q n Hn) as [|[c [-> _]]]; eauto.
  - cbn [fs closed ui set_fs]. split_and!; auto.
    + intros q Hq Hne. rewrite lookup_insert_ne by done. auto.
    + intros q n Hn Hq. rewrite lookup_insert_ne in Hn by (by intros ->).
      destruct (Hin q n Hn) as [|[c [-> _]]]; eauto.
    + by apply convert_pages_doc in Hpages as [Htabs _].
    + apply parent_error_None. apply parent_error_None in Hpar.
      rewrite <- Hpar. apply is_dir_ext. symmetry. by apply Hout.
    + rewrite <- Hdir. apply is_dir_ext. symmetry. by apply Hout.
    + rewrite lookup_insert_eq.
      apply convert_pages_doc in Hpages as [_ ->]. done.
Qed.
End engine_facts.

Lemma parent_not_inside_tmp (now : datetime) (docx : path) :
  docx ≠ [] → ¬ inside (tmp_path now docx) (parent docx).
Proof.
  intros H Hin%inside_length. rewrite tmp_path_length in Hin by done.
  rewrite (path_split docx H) in Hin at 2. rewrite length_app in Hin. simpl in Hin. lia.
Qed.

Lemma tmp_not_inside_tmp (tmp : path) : ¬ inside tmp tmp.
Proof. intros Hin%inside_length. lia. Qed.

Lemma fs_wf_spec (f : gmap path node) :
  fs_wf f = true ↔ ∀ p n, f !! p = Some n → is_dir f (parent p) = true.
Proof.
  unfold fs_wf. rewrite forallb_forall. split.
  - intros H p n Hp. apply H, list_elem_of_In, list_elem_of_fmap.
    exists (p, n). split; [done|]. by apply elem_of_map_to_list.
  - intros H p [[q n] [-> Hq]]%list_elem_of_In%list_elem_of_fmap.
    apply elem_of_map_to_list in Hq. by apply (H q n).
Qed.

(** In a well-formed file system nothing lies below a missing directory. *)
Lemma fs_wf_nothing_below (f : gmap path node) (d : path) (l : list string) :
  fs_wf f = true → d ≠ [] → f !! d = None → f !! (d ++ l) = None.
Proof.
  intros Hwf Hd Hnone. induction l as [|x l IH] using rev_ind.
  - by rewrite app_nil_r.
  - destruct (f !! (d ++ l ++ [x])) as [n|] eqn:E; [|done].
    apply (proj1 (fs_wf_spec f) Hwf) in E.
    rewrite app_assoc, parent_snoc in E.
    apply is_dir_Some_Dir in E; [congruence|]. by destruct d.
Qed.

Section engine_runs.
Context (fitz_parse : content → option PDF) (recognised : list byte → bool).

(** A conversion whose [try] suite ran: the facts about every state
    it went through. *)
Lemma convert_ran_facts (now : datetime) (pdf : PDF) (docx : path) (inc : bool)
    s s1 r s3 :
  docx ≠ [] →
  mkdir_exist_ok (tmp_path now docx) (set_doc [] s) = (Ok tt, s1) →
  convert_body recognised pdf docx inc (tmp_path now docx) s1 = (r, s3) →
  fs s3 !! tmp_path now docx = Some Dir ∧
  closed s3 = closed s ∧ ui s3 = ui s ∧
  (fs s !! tmp_path now docx = Some Dir ∨
   fs s !! tmp_path now docx = None ∧ is_dir (fs s) (parent docx) = true) ∧
  (∀ q, ¬ inside (tmp_path now docx) q → q ≠ tmp_path now docx → q ≠ docx →
        fs s3 !! q = fs s !! q) ∧
  (∀ q n, fs s3 !! q = Some n → inside (tmp_path now docx) q →
          fs s !! q = Some n ∨ ∃ c, n = File c) ∧
  match r with
  | Ok _ =>
      Forall page_ok pdf ∧
      parent_error (fs s1) docx = None ∧ is_dir (fs s1) docx = false ∧
      docx ≠ tmp_path now docx ∧
      fs s3 !! docx = Some (File (Docx (pdf_blocks recognised inc pdf)))
  | Raise _ =>
      docx ≠ tmp_path now docx → fs s3 !! docx = fs s !! docx
  end.
Proof.
  intros Hdocx Hmk Hbody. set (tmp := tmp_path now docx) in *.
  assert (tmp ≠ []) as Htmp by apply snoc_ne_nil.
  destruct (mkdir_ok_facts tmp _ _ Htmp Hmk) as (Hdir1 & Hother & Hbefore & Hdoc1 & Hc1 & Hu1).
  cbn [fs doc closed ui set_doc] in *.
  destruct (convert_body_facts recognised pdf docx tmp inc s1 r s3
              (docx_not_inside_tmp now docx Hdocx)
              (parent_not_inside_tmp now docx Hdocx) Hbody)
    as (Hc3 & Hu3 & Hframe & Hin & Hres).
  assert (fs s3 !! tmp = Some Dir) as Hdir3.
  { destruct (decide (tmp = docx)) as [E|Hne].
    - destruct r as [[]|e].
      + destruct Hres as (_ & _ & Hnd & _). rewrite <- E in Hnd.
        apply (is_dir_Some_Dir _ _ Htmp) in Hdir1. congruence.
      + rewrite E at 1. rewrite Hres, <- E. done.
    - rewrite Hframe; [done|apply tmp_not_inside_tmp|done]. }
  split_and!; try congruence.
  - unfold tmp in Hbefore. by rewrite parent_tmp_path in Hbefore.
  - intros q Hq1 Hq2 Hq3. rewrite Hframe by done. by apply Hother.
  - intros q n Hn Hq. destruct (Hin q n Hn Hq) as [H|H]; [left|by right].
    rewrite <- Hother; [done|]. intros ->. by apply tmp_not_inside_tmp in Hq.
  - destruct r as [[]|e].
    + destruct Hres as (Htabs & Hpar & Hnd & Hsaved). split_and!; try done.
      * intros E. rewrite E in Hnd.
        apply (is_dir_Some_Dir _ _ Htmp) in Hdir1. congruence.
      * by rewrite Hsaved, Hdoc1.
    + intros Hne. rewrite Hres. by apply Hother.
Qed.
End engine_runs.

(** ** The engine does not see the GUI *)

Section ui_blind.
Context (l : list event).

Lemma sim_gets_ui {B} (proj : State → B) :
  (∀ s, proj (set_ui l s) = proj s) → sim (set_ui l) (gets proj) (gets proj).
Proof. intros H s. unfold gets. by rewrite H. Qed.

Lemma sim_ui_write_file (p : path) (c : content) :
  sim (set_ui l) (write_file p c) (write_file p c).
Proof.
  intros s. unfold write_file. cbn [fs set_ui].
  destruct (parent_error (fs s) p); [done|]. by destruct (is_dir (fs s) p).
Qed.

Lemma sim_ui_set_cell_text (h r c : nat) (t : text) :
  sim (set_ui l) (set_cell_text h r c t) (set_cell_text h r c t).
Proof.
  intros s. unfold set_cell_text. cbn [doc set_ui].
  destruct (doc s !! h) as [[?|tb|??]|]; try done.
  destruct (decide _); [|done]. by destruct (run_text t) as [content ok].
Qed.

Lemma sim_ui_add_paragraph (t : text) :
  sim (set_ui l) (add_paragraph t) (add_paragraph t).
Proof.
  intros s. unfold add_paragraph. by destruct (run_text t) as [content ok].
Qed.

Lemma sim_ui_extract_tables (page : Page) :
  sim (set_ui l) (extract_tables page) (extract_tables page).
Proof.
  unfold extract_tables. apply sim_bind.
  - apply sim_try_except; [|intros; apply sim_ret].
    unfold call_find_tables. destruct (find_tables page); [apply sim_ret|apply sim_raise].
  - intros [[|data ts]|]; try apply sim_ret.
    apply sim_for_each. intros [|row0 rest]; [apply sim_ret|].
    unfold copy_table. apply sim_bind; [by intros s|].
    intros h. apply sim_for_each. intros [r row]. apply sim_for_each. intros [c cell].
    apply sim_ui_set_cell_text.
Qed.

Lemma sim_ui_add_picture recognised (p : path) :
  sim (set_ui l) (add_picture recognised p) (add_picture recognised p).
Proof.
  intros s. unfold add_picture. cbn [fs set_ui].
  destruct (fs s !! p) as [[|[b|d]]|]; try done.
  - by destruct (recognised b).
  - by destruct (is_dir (fs s) p).
Qed.

Lemma sim_ui_convert_page recognised (inc : bool) (tmp : path) (page : Page) :
  sim (set_ui l) (convert_page recognised inc tmp page)
                 (convert_page recognised inc tmp page).
Proof.
  unfold convert_page. apply sim_bind.
  - destruct (strip (get_text page)); [apply sim_ret|apply sim_ui_add_paragraph].
  - intros _. apply sim_bind; [apply sim_ui_extract_tables|].
    intros _. destruct inc; [|apply sim_ret].
    unfold extract_images. apply sim_for_each. intros img.
    apply sim_bind; [apply sim_ui_write_file|]. intros _.
    apply sim_try_except; [apply sim_ui_add_picture|intros; apply sim_ret].
Qed.

Lemma sim_ui_mkdir (p : path) :
  sim (set_ui l) (mkdir_exist_ok p) (mkdir_exist_ok p).
Proof.
  unfold mkdir_exist_ok. apply sim_try_except.
  - intros s. unfold os_mkdir. cbn [fs set_ui].
    destruct (parent_error (fs s) p); [done|].
    destruct (fs s !! p); [done|]. by destruct (is_dir (fs s) p).
  - intros e. apply sim_bind; [by apply sim_gets_ui|].
    intros f. destruct (decide _); [apply sim_raise|].
    destruct (is_dir f p); [apply sim_ret|apply sim_raise].
Qed.

Lemma sim_ui_cleanup (tmp : path) : sim (set_ui l) (cleanup tmp) (cleanup tmp).
Proof.
  unfold cleanup. apply sim_bind; [by apply sim_gets_ui|].
  intros img_files. apply sim_bind.
  - apply sim_for_each. intros p. apply sim_try_except; [|intros; apply sim_ret].
    unfold unlink_missing_ok. apply sim_try_except; [|intros; apply sim_ret].
    intros s. unfold os_unlink. cbn [fs set_ui].
    destruct (fs s !! p) as [[|c]|]; try done. by destruct (is_dir (fs s) p).
  - intros _. apply sim_bind.
    + apply sim_try_except; [|intros; apply sim_ret].
      intros s. unfold rmdir. cbn [fs set_ui].
      destruct (fs s !! tmp) as [[|c]|]; try done.
      * by destruct (listdir (fs s) tmp).
      * by destruct (is_dir (fs s) tmp).
    + intros _. by intros s.
Qed.

(** A conversion behaves the same whatever the GUI log holds, and
    leaves the log as it was. *)
Lemma sim_ui_convert fitz_parse recognised (now : datetime)
    (pdf_path docx : path) (inc : bool) :
  sim (set_ui l) (convert_pdf_to_docx fitz_parse recognised now pdf_path docx inc)
                 (convert_pdf_to_docx fitz_parse recognised now pdf_path docx inc).
Proof.
  unfold convert_pdf_to_docx. apply sim_bind.
  - intros s. unfold fitz_open. cbn [fs set_ui].
    destruct (fs s !! pdf_path) as [[|c]|]; try done.
    + by destruct (fitz_parse c).
    + by destruct (is_dir (fs s) pdf_path).
  - intros pdf. apply sim_bind; [by intros s|]. intros _. apply sim_bind.
    + unfold temp_dir_of, with_name. destruct docx; [apply sim_raise|apply sim_ret].
    + intros tmp. apply sim_bind; [apply sim_ui_mkdir|]. intros _.
      apply sim_try_finally; [|apply sim_ui_cleanup].
      unfold convert_body. apply sim_bind.
      * apply sim_for_each. intros page. apply sim_ui_convert_page.
      * intros _. unfold save. apply sim_bind; [by apply sim_gets_ui|].
        intros d. apply sim_ui_write_file.
Qed.
End ui_blind.

Section engine_results.
Context (fitz_parse : content → option PDF) (recognised : list byte → bool).

(** What is found at the destination after a conversion. *)
Lemma convert_dest_facts
    (now : datetime) (pdf_path docx_path : path) (include_images : bool) s :
  match convert_pdf_to_docx fitz_parse recognised now pdf_path docx_path
          include_images s with
  | (Ok _, s') =>
      ∃ c pdf, fs s !! pdf_path = Some (File c) ∧ fitz_parse c = Some pdf ∧
        fs s' !! docx_path =
          Some (File (Docx (pdf_blocks recognised include_images pdf)))
  | (Raise _, s') =>
      (∀ c, fs s' !! docx_path = Some (File c) ↔ fs s !! docx_path = Some (File c)) ∧
      (docx_path ≠ tmp_path now docx_path → fs s' !! docx_path = fs s !! docx_path)
  end.
Proof.
  destruct (convert_cases fitz_parse recognised now pdf_path docx_path include_images s)
    as [(e & _ & ->)|[(c & pdf & e & _ & _ & _ & ->)
                     |(c & pdf & s1 & r & s3 & Hc & Hparse & Hdocx & Hmk & Hbody & ->)]].
  - done.
  - done.
  - destruct (convert_ran_facts recognised now pdf docx_path include_images
                s s1 r s3 Hdocx Hmk Hbody)
      as (Hdir3 & _ & _ & Hbefore & _ & _ & Hres).
    cbn [fs set_fs set_closed].
    pose proof (docx_not_inside_tmp now docx_path Hdocx) as Hnin.
    destruct r as [[]|e].
    + destruct Hres as (_ & _ & _ & Hne & Hsaved).
      exists c, pdf. split_and!; [done..|].
      by rewrite cleaned_lookup_outside.
    + split.
      * intros c'. destruct (decide (docx_path = tmp_path now docx_path)) as [E|Hne].
        -- split.
           ++ intros H%cleaned_lookup_Some. rewrite E in H. congruence.
           ++ intros H. rewrite E in H. destruct Hbefore as [?|[? _]]; congruence.
        -- rewrite cleaned_lookup_outside by done. by rewrite Hres.
      * intros Hne. rewrite cleaned_lookup_outside by done. by apply Hres.
Qed.

(** A file found after a conversion anywhere but at the destination
    was there before, with the same content. *)
Lemma convert_keeps_files
    (now : datetime) (pdf_path docx_path : path) (include_images : bool)
    (q : path) (c : content) s r s' :
  convert_pdf_to_docx fitz_parse recognised now pdf_path docx_path
    include_images s = (r, s') →
  q ≠ docx_path → fs s' !! q = Some (File c) → fs s !! q = Some (File c).
Proof.
  intros Hrun Hq Hfile.
  destruct (convert_cases fitz_parse recognised now pdf_path docx_path include_images s)
    as [(e & _ & E)|[(c0 & pdf & e & _ & _ & _ & E)
                     |(c0 & pdf & s1 & r0 & s3 & Hc & Hparse & Hdocx & Hmk & Hbody & E)]];
    rewrite E in Hrun; injection Hrun as <- <-; [done|done|].
  destruct (convert_ran_facts recognised now pdf docx_path include_images
              s s1 r0 s3 Hdocx Hmk Hbody)
    as (Hdir3 & _ & _ & _ & Hframe & _ & _).
  cbn [fs set_fs set_closed] in Hfile.
  destruct (is_child (tmp_path now docx_path) q) eqn:Hch.
  { apply is_child_spec in Hch as [x ->].
    apply cleaned_no_file_inside in Hfile; [done|].
    apply is_dir_Some_Dir; [apply snoc_ne_nil|done]. }
  assert (¬ inside (tmp_path now docx_path) q) as Hnin.
  { intros H%is_child_spec. congruence. }
  apply cleaned_lookup_Some in Hfile.
  rewrite <- Hframe; [done|done| |done]. intros ->. congruence.
Qed.

(** A conversion without images that follows the same steps as one
    with images that returned. *)
Lemma convert_without_images_ok
    (now : datetime) (pdf_path docx_path : path) s s_t :
  convert_pdf_to_docx fitz_parse recognised now pdf_path docx_path true s
    = (Ok tt, s_t) →
  ∃ c pdf s_f, fs s !! pdf_path = Some (File c) ∧ fitz_parse c = Some pdf ∧
    convert_pdf_to_docx fitz_parse recognised now pdf_path docx_path false s
      = (Ok tt, s_f) ∧
    fs s_t !! docx_path = Some (File (Docx (pdf_blocks recognised true pdf))) ∧
    fs s_f !! docx_path = Some (File (Docx (pdf_blocks recognised false pdf))).
Proof.
  intros Hrun.
  pose proof (convert_dest_facts now pdf_path docx_path true s) as Hdest.
  rewrite Hrun in Hdest. destruct Hdest as (c & pdf & Hc & Hparse & Hsaved).
  destruct (convert_cases fitz_parse recognised now pdf_path docx_path true s)
    as [(e & _ & E)|[(c0 & pdf0 & e & _ & _ & _ & E)
                     |(c0 & pdf0 & s1 & r0 & s3 & Hc0 & Hparse0 & Hdocx & Hmk & Hbody & E)]];
    rewrite E in Hrun; try done.
  injection Hrun as -> _.
  assert (c0 = c) as -> by congruence. assert (pdf0 = pdf) as -> by congruence.
  destruct (convert_ran_facts recognised now pdf docx_path true
              s s1 _ s3 Hdocx Hmk Hbody)
    as (_ & _ & _ & _ & _ & _ & Htabs & Hpar & Hnd & Hne & _).
  destruct (mkdir_ok_facts _ _ _ (snoc_ne_nil _ _) Hmk) as (_ & _ & _ & Hdoc1 & _).
  cbn [doc set_doc] in Hdoc1.
  pose proof (convert_dest_facts now pdf_path docx_path false s) as Hdest.
  assert (∃ s_f, convert_pdf_to_docx fitz_parse recognised now pdf_path docx_path
                   false s = (Ok tt, s_f)) as [s_f Hf].
  { rewrite convert_unfold. unfold fitz_open. rewrite Hc, Hparse.
    destruct docx_path as [|x0 docx'] eqn:Edocx; [done|]. rewrite <- Edocx in *.
    rewrite Hmk. unfold convert_body, mbind, M_bind.
    rewrite convert_pages_no_images by done. rewrite save_spec.
    cbn [fs doc set_doc]. rewrite Hpar, Hnd. by eexists. }
  rewrite Hf in Hdest. destruct Hdest as (c' & pdf' & Hc' & Hparse' & Hsaved').
  assert (c' = c) as -> by congruence. assert (pdf' = pdf) as -> by congruence.
  by exists c, pdf, s_f.
Qed.

(** [pdf.close()] runs exactly once when the [try] suite is reached. *)
Lemma convert_closes_once_after_mkdir
    (now : datetime) (pdf_path docx_path : path) (include_images : bool)
    (c : content) (pdf : PDF) s s1 :
  fs s !! pdf_path = Some (File c) → fitz_parse c = Some pdf →
  docx_path ≠ [] →
  mkdir_exist_ok (tmp_path now docx_path) (set_doc [] s) = (Ok tt, s1) →
  closed (convert_pdf_to_docx fitz_parse recognised now pdf_path docx_path
            include_images s).2 = S (closed s).
Proof.
  intros Hc Hparse Hdocx Hmk.
  rewrite convert_unfold. unfold fitz_open. rewrite Hc, Hparse.
  destruct docx_path as [|x0 docx'] eqn:Edocx; [done|]. rewrite <- Edocx in *.
  rewrite Hmk.
  destruct (convert_body recognised pdf docx_path include_images
              (tmp_path now docx_path) s1) as [r s3] eqn:Hbody.
  destruct (convert_ran_facts recognised now pdf docx_path include_images
              s s1 r s3 Hdocx Hmk Hbody) as (_ & Hclosed & _).
  cbn [snd closed set_closed]. by rewrite Hclosed.
Qed.

(** It does not run at all when the source opened but the temporary
    directory could not be made. *)
Lemma convert_never_closes_when_mkdir_fails
    (now : datetime) (pdf_path docx_path : path) (include_images : bool)
    (c : content) (pdf : PDF) (e : exc) s s1 :
  fs s !! pdf_path = Some (File c) → fitz_parse c = Some pdf →
  docx_path ≠ [] →
  mkdir_exist_ok (tmp_path now docx_path) (set_doc [] s) = (Raise e, s1) →
  convert_pdf_to_docx fitz_parse recognised now pdf_path docx_path
    include_images s = (Raise e, set_doc [] s).
Proof.
  intros Hc Hparse Hdocx Hmk.
  rewrite convert_unfold. unfold fitz_open. rewrite Hc, Hparse.
  destruct docx_path as [|x0 docx'] eqn:Edocx; [done|]. rewrite <- Edocx in *.
  destruct (mkdir_exist_ok_cases (tmp_path now docx_path) (set_doc [] s))
    as [[e' He]|[[He _]|[He _]]]; [apply snoc_ne_nil|..]; rewrite He in Hmk;
    try done.
  injection Hmk as <- <-. by rewrite He.
Qed.
End engine_results.

(** ** The batch driver *)

Section batch.
Context (fitz_parse : content → option PDF) (recognised : list byte → bool).

Lemma convert_ui (now : datetime) (pdf_path docx : path) (inc : bool)
    (l : list event) s :
  convert_pdf_to_docx fitz_parse recognised now pdf_path docx inc (set_ui l s) =
  let '(r, s1) := convert_pdf_to_docx fitz_parse recognised now pdf_path docx inc s in
  (r, set_ui l s1).
Proof.
  rewrite (sim_ui_convert l fitz_parse recognised now pdf_path docx inc s).
  by destruct (convert_pdf_to_docx _ _ _ _ _ _ s).
Qed.

Lemma batch_outcomes_ui (self : GUI) (clock : nat → datetime)
    (pdf_paths : list path) : ∀ (idx : nat) (l : list event) s,
  batch_outcomes fitz_parse recognised self clock idx pdf_paths (set_ui l s) =
  batch_outcomes fitz_parse recognised self clock idx pdf_paths s.
Proof.
  induction pdf_paths as [|p ps IH]; intros idx l s; simpl; [done|].
  rewrite convert_ui.
  destruct (convert_pdf_to_docx _ _ _ _ _ _ s) as [r s1]. by rewrite IH.
Qed.

Lemma length_batch_outcomes (self : GUI) (clock : nat → datetime)
    (pdf_paths : list path) : ∀ (idx : nat) s,
  length (batch_outcomes fitz_parse recognised self clock idx pdf_paths s)
  = length pdf_paths.
Proof.
  induction pdf_paths as [|p ps IH]; intros idx s; simpl; [done|].
  destruct (convert_pdf_to_docx _ _ _ _ _ _ s) as [r s1]. simpl. by rewrite IH.
Qed.

(** One turn of the loop: the file is announced, converted, its
    failure shown if it failed, and the progress bar moved; the turn
    itself never raises. *)
Lemma batch_turn (self : GUI) (now : datetime) (total idx : nat) (p : path) s :
  (emit (StatusFile (name p) idx total);;
   _convert_single fitz_parse recognised self now p;;
   emit (ProgValue idx)) s =
  let '(r, s1) := convert_pdf_to_docx fitz_parse recognised now p
                    (dst_file_of self p) (include_imgs self) s in
  (Ok tt, set_ui (ui s ++ file_events total idx p r) s1).
Proof.
  unfold mbind, M_bind, emit, modify, _convert_single, try_except.
  fold (dst_file_of self p). rewrite convert_ui.
  destruct (convert_pdf_to_docx _ _ _ _ _ _ s) as [[[]|e] s1];
    cbn [ui set_ui is_Exception]; unfold file_events, emit, modify, set_ui;
    cbn [fs doc closed ui app]; by rewrite <- ?app_assoc.
Qed.

Lemma batch_loop (self : GUI) (clock : nat → datetime) (total : nat)
    (pdf_paths : list path) : ∀ (idx : nat) s,
  ∃ s', for_each (λ '(idx, pdf_path),
            emit (StatusFile (name pdf_path) idx total);;
            _convert_single fitz_parse recognised self (clock idx) pdf_path;;
            emit (ProgValue idx))
          (enumerate_from idx pdf_paths) s = (Ok tt, s') ∧
    ui s' = ui s ++ batch_events total idx pdf_paths
                      (batch_outcomes fitz_parse recognised self clock idx pdf_paths s).
Proof.
  induction pdf_paths as [|p ps IH]; intros idx s; simpl.
  - exists s. by rewrite app_nil_r.
  - unfold mbind at 1, M_bind at 1. rewrite batch_turn.
    destruct (convert_pdf_to_docx _ _ _ _ _ _ s) as [r s1].
    destruct (IH (S idx) (set_ui (ui s ++ file_events total idx p r) s1))
      as (s' & Hrun & Hui).
    exists s'. split; [done|]. rewrite Hui, batch_outcomes_ui. cbn [ui set_ui].
    by rewrite <- app_assoc.
Qed.

Lemma batch_events_elem (total : nat) (ev : event) (pdf_paths : list path) :
  ∀ (idx i : nat) (rs : list (outcome unit)) (p : path) (r : outcome unit),
  pdf_paths !! i = Some p → rs !! i = Some r →
  ev ∈ file_events total (idx + i) p r →
  ev ∈ batch_events total idx pdf_paths rs.
Proof.
  induction pdf_paths as [|q ps IH]; intros idx i rs p r Hp Hr Hev; [done|].
  destruct rs as [|r0 rs]; [done|]. cbn [batch_events]. apply elem_of_app.
  destruct i as [|i]; simpl in Hp, Hr.
  - injection Hp as ->. injection Hr as ->. left. by rewrite Nat.add_0_r in Hev.
  - right. apply (IH (S idx) i rs p r); [done..|].
    by replace (S idx + i) with (idx + S i) by lia.
Qed.

(** A batch with at least one file: it returns, and the GUI log grows
    by the opening events, the events of every file in turn, and the
    closing events. *)
Lemma batch_run (self : GUI) (clock : nat → datetime) s :
  let pdf_paths := discover_pdfs (fs s) (src_dir self) in
  let total := length pdf_paths in
  let rs := batch_outcomes fitz_parse recognised self clock 1 pdf_paths s in
  1 ≤ total →
  ∃ s', _convert_all_pdfs fitz_parse recognised self clock s = (Ok tt, s') ∧
    ui s' = ui s ++ [ProgConfigure total 0; StatusConverting total]
                 ++ batch_events total 1 pdf_paths rs
                 ++ [StatusDone total; ShowInfo_Done; ProgAfterReset].
Proof.
  intros pdf_paths total rs Htotal.
  unfold _convert_all_pdfs, mbind at 1, M_bind at 1, gets.
  fold pdf_paths. fold total. rewrite decide_False by lia.
  unfold mbind at 1 2, M_bind at 1 2, emit at 1 2, modify.
  destruct (batch_loop self clock total pdf_paths 1
              (set_ui (ui (set_ui (ui s ++ [ProgConfigure total 0]) s)
                         ++ [StatusConverting total])
                 (set_ui (ui s ++ [ProgConfigure total 0]) s)))
    as (s1 & Hloop & Hui).
  unfold mbind at 1, M_bind at 1. rewrite Hloop.
  rewrite batch_outcomes_ui, batch_outcomes_ui in Hui. fold rs in Hui.
  cbn [ui set_ui] in Hui.
  eexists. split; [reflexivity|].
  cbn [ui set_ui]. rewrite Hui. by rewrite <- !app_assoc.
Qed.

(** A batch without a file: a warning, and nothing else. *)
Lemma batch_run_empty (self : GUI) (clock : nat → datetime) s :
  discover_pdfs (fs s) (src_dir self) = [] →
  _convert_all_pdfs fitz_parse recognised self clock s =
  (Ok tt, set_ui (ui s ++ [ShowWarning_NoPdf]) s).
Proof.
  intros Hnone. unfold _convert_all_pdfs, mbind, M_bind, gets.
  by rewrite Hnone.
Qed.

End batch.

(** * The claims *)

Section claims.
Context (fitz_parse : content → option PDF) (recognised : list byte → bool).

(** C3. [convert_pdf_to_docx] writes the destination only when the
    source opened, every page was processed and [save] went through:
    a call that returns has left at [docx_path] the document built
    from all the pages; a call that raises has written nothing there
    (the file found at [docx_path] afterwards, if any, is the file
    that was there before, and apart from the case in which
    [docx_path] is itself the temporary directory the entry is the
    very same). *)
Theorem convert_writes_dest_only_on_success
    (now : datetime) (pdf_path docx_path : path) (include_images : bool) s :
  match convert_pdf_to_docx fitz_parse recognised now pdf_path docx_path
          include_images s with
  | (Ok _, s') =>
      ∃ c pdf, fs s !! pdf_path = Some (File c) ∧ fitz_parse c = Some pdf ∧
        fs s' !! docx_path =
          Some (File (Docx (pdf_blocks recognised include_images pdf)))
  | (Raise _, s') =>
      (∀ c, fs s' !! docx_path = Some (File c) ↔ fs s !! docx_path = Some (File c)) ∧
      (docx_path ≠ tmp_path now docx_path → fs s' !! docx_path = fs s !! docx_path)
  end.
Proof. apply convert_dest_facts. Qed.

(** C2. Once the temporary directory is there, created by the call or
    found by it, the outcome of [convert_pdf_to_docx] is the outcome of
    its [try] suite, whatever went wrong while cleaning up; no file is
    left directly inside the temporary directory; and when the call
    created the directory (it was not there before, on a file system
    in which every entry sits in a directory), neither the directory
    nor anything below it exists when the call returns, whether it
    returns normally or raises. *)
Theorem convert_cleans_temp_dir
    (now : datetime) (pdf_path docx_path : path) (include_images : bool)
    (c : content) (pdf : PDF) s s1 :
  fs s !! pdf_path = Some (File c) → fitz_parse c = Some pdf →
  docx_path ≠ [] →
  mkdir_exist_ok (tmp_path now docx_path) (set_doc [] s) = (Ok tt, s1) →
  let tmp := tmp_path now docx_path in
  let '(r, s') := convert_pdf_to_docx fitz_parse recognised now pdf_path
                    docx_path include_images s in
  r = (convert_body recognised pdf docx_path include_images tmp s1).1 ∧
  (∀ x c', fs s' !! (tmp ++ [x]) ≠ Some (File c')) ∧
  (fs s !! tmp = None → fs_wf (fs s) = true →
   ∀ l, fs s' !! (tmp ++ l) = None).
Proof.
  intros Hc Hparse Hdocx Hmk tmp.
  assert (convert_pdf_to_docx fitz_parse recognised now pdf_path docx_path
            include_images s =
          let '(r, s3) := convert_body recognised pdf docx_path include_images tmp s1 in
          (r, set_closed (S (closed s3)) (set_fs (cleaned tmp (fs s3)) s3))) as ->.
  { rewrite convert_unfold. unfold fitz_open. rewrite Hc, Hparse.
    destruct docx_path; [done|]. by rewrite Hmk. }
  destruct (convert_body recognised pdf docx_path include_images tmp s1)
    as [r s3] eqn:Hbody.
  destruct (convert_ran_facts recognised now pdf docx_path include_images
              s s1 r s3 Hdocx Hmk Hbody)
    as (Hdir3 & _ & _ & _ & Hframe & Hin & Hres).
  fold tmp in Hdir3, Hframe, Hin, Hres.
  assert (tmp ≠ []) as Htmp by apply snoc_ne_nil.
  cbn [fst fs set_fs set_closed]. split_and!; [done|..].
  - intros x c'. apply cleaned_no_file_inside.
    by apply is_dir_Some_Dir.
  - intros Hfresh Hwf l.
    assert (∀ x, fs s3 !! (tmp ++ [x]) ≠ Some Dir) as Hfiles.
    { intros x Hx. destruct (Hin _ _ Hx) as [H|[c' H]]; [by exists x| |done].
      by rewrite (fs_wf_nothing_below (fs s) tmp [x]) in H. }
    destruct (cleaned_files_only tmp (fs s3) Hdir3 Hfiles) as [Hgone Hgone'].
    destruct l as [|x l]; [by rewrite app_nil_r|].
    destruct l as [|y l]; [apply Hgone'|].
    destruct (cleaned tmp (fs s3) !! (tmp ++ x :: y :: l)) as [n|] eqn:E; [|done].
    apply cleaned_lookup_Some in E.
    rewrite Hframe in E.
    + by rewrite (fs_wf_nothing_below (fs s) tmp) in E.
    + intros Hl%inside_length. rewrite length_app in Hl. simpl in Hl. lia.
    + intros Hl%(f_equal length). rewrite length_app in Hl. simpl in Hl. lia.
    + intros Hl%(f_equal length). rewrite length_app in Hl.
      unfold tmp in Hl. rewrite tmp_path_length in Hl by done. simpl in Hl. lia.
Qed.

(** C8 (as amended). A conversion with [include_images = False] that
    returns has saved the paragraphs and the tables of the pages of the
    source, page after page, and not a single picture block.  And when
    the conversion with [include_images = True] returns, so does the
    one without images from the same state; the document saved with
    images is the one saved without, with the blocks of the images
    after the tables of each page: one picture for every image
    python-docx accepts, and one empty paragraph for every image it
    rejects.  Taking the pictures and the empty paragraphs out of the
    document saved with images gives the document saved without: the
    paragraphs that hold text and the tables are the same, in the same
    order.  When every image is accepted, taking the pictures out is
    enough. *)
Theorem convert_without_images
    (now : datetime) (pdf_path docx_path : path) s :
  (∀ s_f,
     convert_pdf_to_docx fitz_parse recognised now pdf_path docx_path false s
       = (Ok tt, s_f) →
     ∃ c pdf, fs s !! pdf_path = Some (File c) ∧ fitz_parse c = Some pdf ∧
       fs s_f !! docx_path = Some (File (Docx (pdf_blocks recognised false pdf))) ∧
       pdf_blocks recognised false pdf =
         flat_map (λ page, para_of page ++ (tables_run page).2) pdf ∧
       Forall (λ b, is_picture b = false) (pdf_blocks recognised false pdf)) ∧
  (∀ s_t,
     convert_pdf_to_docx fitz_parse recognised now pdf_path docx_path true s
       = (Ok tt, s_t) →
     ∃ c pdf s_f, fs s !! pdf_path = Some (File c) ∧ fitz_parse c = Some pdf ∧
       convert_pdf_to_docx fitz_parse recognised now pdf_path docx_path false s
         = (Ok tt, s_f) ∧
       fs s_t !! docx_path = Some (File (Docx (pdf_blocks recognised true pdf))) ∧
       fs s_f !! docx_path = Some (File (Docx (pdf_blocks recognised false pdf))) ∧
       pdf_blocks recognised true pdf =
         flat_map (λ page, para_of page ++ (tables_run page).2 ++
                           image_blocks recognised page) pdf ∧
       pdf_blocks recognised false pdf =
         filter (λ b, from_image b = false) (pdf_blocks recognised true pdf) ∧
       (Forall (images_accepted recognised) pdf →
        pdf_blocks recognised false pdf =
          filter (λ b, is_picture b = false) (pdf_blocks recognised true pdf))).
Proof.
  split.
  - intros s_f Hrun.
    pose proof (convert_dest_facts fitz_parse recognised now pdf_path docx_path false s)
      as Hdest.
    rewrite Hrun in Hdest. destruct Hdest as (c & pdf & Hc & Hparse & Hsaved).
    exists c, pdf. split_and!; [done..| |apply pdf_blocks_no_pictures].
    unfold pdf_blocks, page_blocks. clear.
    induction pdf as [|page pdf IH]; simpl; [done|].
    by rewrite IH, app_nil_r.
  - intros s_t Hrun.
    destruct (convert_without_images_ok fitz_parse recognised now pdf_path docx_path
                s s_t Hrun) as (c & pdf & s_f & Hc & Hparse & Hf & Ht & Hf').
    exists c, pdf, s_f. split_and!; [done..| | |].
    + done.
    + symmetry. apply pdf_blocks_drop_images.
    + intros Hacc. symmetry. by apply pdf_blocks_drop_pictures.
Qed.

(** C9. Converting the same source to the same destination twice, the
    source not being the destination itself.  When the first call
    returns, the destination holds the blocks of the pages of the
    source; and after a second call with the same arguments, at whatever
    time, it holds the very same sequence of blocks: written anew when
    the second call returns, left in place when it raises. *)
Theorem convert_twice_same_document
    (now1 now2 : datetime) (pdf_path docx_path : path) (include_images : bool)
    s s1 (r2 : outcome unit) s2 :
  pdf_path ≠ docx_path →
  convert_pdf_to_docx fitz_parse recognised now1 pdf_path docx_path
    include_images s = (Ok tt, s1) →
  convert_pdf_to_docx fitz_parse recognised now2 pdf_path docx_path
    include_images s1 = (r2, s2) →
  ∃ c pdf, fs s !! pdf_path = Some (File c) ∧ fitz_parse c = Some pdf ∧
    fs s1 !! docx_path = Some (File (Docx (pdf_blocks recognised include_images pdf))) ∧
    fs s2 !! docx_path = Some (File (Docx (pdf_blocks recognised include_images pdf))).
Proof.
  intros Hne Hrun1 Hrun2.
  pose proof (convert_dest_facts fitz_parse recognised now1 pdf_path docx_path
                include_images s) as H1.
  rewrite Hrun1 in H1. destruct H1 as (c & pdf & Hc & Hparse & Hsaved1).
  exists c, pdf. split_and!; [done..|].
  pose proof (convert_dest_facts fitz_parse recognised now2 pdf_path docx_path
                include_images s1) as H2.
  rewrite Hrun2 in H2. destruct r2 as [[]|e].
  - destruct H2 as (c' & pdf' & Hc' & Hparse' & Hsaved2).
    apply (convert_keeps_files _ _ _ _ _ _ _ _ _ _ _ Hrun1 Hne) in Hc'.
    assert (c' = c) as -> by congruence. assert (pdf' = pdf) as -> by congruence.
    done.
  - destruct H2 as [Hiff _]. by apply Hiff.
Qed.

(** C4. A page with N images of which one is not accepted by
    python-docx: the failure of [add_picture] on that image is
    swallowed, the page is processed to the end without raising, and
    the document gains the page's paragraph, its tables and, in the
    order of the images, the pictures of the N-1 other images, with the
    empty paragraph [add_picture] had made for the rejected image in its
    place.  The pictures the page leaves are those of the N-1 other
    images.  The page's text and tables are taken to go in without
    error, and the temporary directory to be a directory in which no
    directory sits where an image file goes. *)
Theorem one_bad_image_is_skipped
    (page : Page) (temp_dir : path) (pre post : list Image) (bad : Image) s :
  get_images page = pre ++ bad :: post →
  recognised (image bad) = false →
  Forall (λ img, recognised (image img) = true) (pre ++ post) →
  xml_text (strip (get_text page)) →
  (tables_run page).1 = Ok tt →
  is_dir (fs s) temp_dir = true →
  Forall (λ img, is_dir (fs s) (temp_dir ++ [img_name (xref img)]) = false)
         (get_images page) →
  ∃ s', convert_page recognised true temp_dir page s = (Ok tt, s') ∧
    doc s' = doc s ++ para_of page ++ (tables_run page).2 ++
             ((λ img, Picture (image img) Inches_2_5) <$> pre) ++
             Paragraph [] ::
             ((λ img, Picture (image img) Inches_2_5) <$> post) ∧
    filter (λ b, is_picture b = true) (image_blocks recognised page) =
      (λ img, Picture (image img) Inches_2_5) <$> (pre ++ post).
Proof.
  intros Himgs Hbad Hgood Htext Htab Hdir Hfree.
  apply Forall_app in Hgood as [Hpre Hpost].
  rewrite convert_page_unfold_ok by done. cbn zeta. rewrite Htab.
  destruct (extract_images_ok recognised page temp_dir
              (set_doc (doc s ++ para_of page ++ (tables_run page).2) s) Hdir Hfree)
    as [s' Hrun].
  exists s'. split; [done|].
  assert (∀ imgs, Forall (λ img, recognised (image img) = true) imgs →
            image_block recognised <$> imgs =
            (λ img, Picture (image img) Inches_2_5) <$> imgs) as Hacc.
  { intros imgs Himgs'. apply Forall_fmap_ext_1.
    eapply Forall_impl; [exact Himgs'|]. intros img Himg.
    unfold image_block. by rewrite Himg. }
  split.
  - apply extract_images_doc in Hrun. rewrite Hrun. cbn [doc set_doc].
    rewrite <- !app_assoc. do 3 f_equal.
    unfold image_blocks. rewrite Himgs, fmap_app, fmap_cons.
    rewrite !Hacc by done. unfold image_block at 1. by rewrite Hbad.
  - rewrite image_blocks_pictures, Himgs, filter_app, filter_cons.
    rewrite decide_False by (rewrite Hbad; done).
    by rewrite !filter_keep_all by done.
Qed.

(** C6. A batch over a folder with at least one input file never
    raises.  Every discovered file is announced, converted and counted
    on the progress bar, in order, whatever happened to the files
    before it; a file whose conversion raised is reported with its
    name and the exception; and at the end the driver reports the
    total, the number of files discovered, the failed ones included. *)
Theorem batch_reports_failures_and_goes_on
    (self : GUI) (clock : nat → datetime) s :
  let pdf_paths := discover_pdfs (fs s) (src_dir self) in
  let total := length pdf_paths in
  let rs := batch_outcomes fitz_parse recognised self clock 1 pdf_paths s in
  1 ≤ total →
  ∃ s', _convert_all_pdfs fitz_parse recognised self clock s = (Ok tt, s') ∧
    length rs = total ∧
    ui s' = ui s ++ [ProgConfigure total 0; StatusConverting total]
                 ++ batch_events total 1 pdf_paths rs
                 ++ [StatusDone total; ShowInfo_Done; ProgAfterReset] ∧
    ∀ i pdf_path, pdf_paths !! i = Some pdf_path →
      ∃ r, rs !! i = Some r ∧
        StatusFile (name pdf_path) (S i) total ∈ ui s' ∧
        ProgValue (S i) ∈ ui s' ∧
        ∀ e, r = Raise e → ShowError (name pdf_path) e ∈ ui s'.
Proof.
  intros pdf_paths total rs Htotal.
  destruct (batch_run fitz_parse recognised self clock s Htotal)
    as (s' & Hrun & Hui).
  fold pdf_paths in Hui. fold total in Hui. fold rs in Hui.
  exists s'. split; [done|].
  assert (length rs = total) as Hlen by apply length_batch_outcomes.
  split; [done|]. split; [done|].
  intros i p Hp.
  destruct (rs !! i) as [r|] eqn:Hr.
  2: { apply lookup_ge_None in Hr. apply lookup_lt_Some in Hp.
       fold total in Hp. lia. }
  exists r. split; [done|].
  assert (∀ ev, ev ∈ file_events total (S i) p r →
                ev ∈ batch_events total 1 pdf_paths rs) as Hin.
  { intros ev Hev. by apply (batch_events_elem total ev pdf_paths 1 i rs p r). }
  rewrite Hui. split_and!.
  - assert (StatusFile (name p) (S i) total ∈ batch_events total 1 pdf_paths rs)
      by (apply Hin; unfold file_events; set_solver).
    set_solver.
  - assert (ProgValue (S i) ∈ batch_events total 1 pdf_paths rs)
      by (apply Hin; unfold file_events; set_solver).
    set_solver.
  - intros e ->.
    assert (ShowError (name p) e ∈ batch_events total 1 pdf_paths rs)
      by (apply Hin; unfold file_events; set_solver).
    set_solver.
Qed.

(** C1 (as amended). For every page whose detected tables have no row
    longer than their first row, and no cell whose trimmed text holds a
    character lxml refuses (a control character other than tab, line
    feed and carriage return, a surrogate, U+FFFE or U+FFFF), the table
    extractor appends, for each detected table with at least one row and
    in order, a grid whose row count is that of the extracted data and
    whose column count is the length of the first row, which is then
    the maximum row length; the cell at row [r] and column [c] holds
    the trimmed text of the data cell, and the empty string where the
    data cell is [None] or the row is too short to have one. *)
Theorem extract_tables_copies_grids (page : Page) (ts : list TableData) s :
  find_tables page = Some ts →
  Forall first_row_longest ts →
  Forall cells_xml ts →
  extract_tables page s = (Ok tt, set_doc (doc s ++ grids_of ts) s) ∧
  ∀ data row0, data ∈ ts → head data = Some row0 →
    TableB (grid_of data) ∈ grids_of ts ∧
    t_rows (grid_of data) = length data ∧
    t_cols (grid_of data) = length row0 ∧
    t_cols (grid_of data) = max_row_length data ∧
    ∀ r c row, data !! r = Some row → c < t_cols (grid_of data) →
      t_cells (grid_of data) !! (c + r * t_cols (grid_of data)) =
      Some (match row !! c with
            | Some cell => strip (cell_or_empty cell)
            | None => []
            end).
Proof.
  intros Hfind Hts Hxs. split; [by apply extract_tables_grids|].
  intros data row0 Hdata Hhead.
  destruct data as [|row0' data']; [done|]. injection Hhead as ->.
  split_and!.
  - unfold grids_of. apply list_elem_of_In, in_flat_map.
    exists (row0 :: data'). split; [by apply list_elem_of_In|by left].
  - done.
  - simpl. apply first_row_is_longest.
    by apply (proj1 (Forall_forall _ _) Hts).
  - done.
  - intros r c row Hr Hc. by apply grid_of_cell.
Qed.

(** C5 (as amended). The temporary directory of a conversion is the
    sibling of the destination named [_tmp_imgs_] followed by the time
    of the call as fourteen digits, year to second.  Two conversions
    have the same temporary directory exactly when they write to the
    same folder and start within the same second; and a conversion
    that finds the directory in place takes it over as it is. *)
Theorem temp_dir_same_folder_same_second
    (t1 t2 : datetime) (p1 p2 : path) (s1 s2 : State) :
  valid_datetime t1 → valid_datetime t2 → p1 ≠ [] → p2 ≠ [] →
  temp_dir_of t1 p1 s1 = (Ok (tmp_path t1 p1), s1) ∧
  temp_dir_of t2 p2 s2 = (Ok (tmp_path t2 p2), s2) ∧
  parent (tmp_path t1 p1) = parent p1 ∧
  name (tmp_path t1 p1) = "_tmp_imgs_" +:+ strftime_YmdHMS t1 ∧
  (tmp_path t1 p1 = tmp_path t2 p2 ↔ parent p1 = parent p2 ∧ same_second t1 t2) ∧
  ∀ s, is_dir (fs s) (parent p1) = true → fs s !! tmp_path t1 p1 = Some Dir →
       mkdir_exist_ok (tmp_path t1 p1) s = (Ok tt, s).
Proof.
  intros V1 V2 Hp1 Hp2. split_and!.
  - by apply temp_dir_of_spec.
  - by apply temp_dir_of_spec.
  - apply parent_snoc.
  - unfold name, tmp_path. by rewrite last_snoc.
  - unfold tmp_path. split.
    + intros H. apply app_inj_tail in H as [Hpar Hname].
      split; [done|]. apply strftime_inj; [done..|].
      by apply string_app_inj_l in Hname.
    + intros [-> Hsame]. by rewrite (strftime_same_second _ _ Hsame).
  - intros s Hpar Hdir. apply mkdir_exist_ok_existing; [|done].
    by rewrite parent_tmp_path.
Qed.

End claims.

(** * The claims on the sample inputs *)

(** C1 as the specification words it, with the column count the maximum
    row length, fails on a table whose first row is the shortest: the
    grid the specification describes has two columns, the table the code
    makes has one, and writing the third cell raises [IndexError]. *)
Lemma extract_tables_short_first_row :
  find_tables jagged_page = Some [jagged_table] ∧
  t_cols (grid_of jagged_table) = 2 ∧
  extract_tables jagged_page s_empty =
    (Raise IndexError,
     set_doc [TableB {| t_rows := 2; t_cols := 1;
                        t_cells := [text_of "a"; text_of "b"] |}] s_empty) ∧
  ¬ ∃ s', extract_tables jagged_page s_empty = (Ok tt, s') ∧
          TableB (grid_of jagged_table) ∈ doc s'.
Proof.
  split_and!; [done|done|by vm_compute|].
  intros (s' & Hrun & _). by vm_compute in Hrun.
Qed.

Lemma extract_tables_copies_grids_witness :
  find_tables page_3_2_3 = Some [table_3_2_3] ∧
  Forall first_row_longest [table_3_2_3] ∧
  Forall cells_xml [table_3_2_3] ∧
  extract_tables page_3_2_3 s_empty =
    (Ok tt,
     set_doc [TableB {| t_rows := 3; t_cols := 3;
                        t_cells := [text_of "a"; text_of "b"; [];
                                    text_of "c"; text_of "d"; [];
                                    []; []; text_of "e"] |}] s_empty).
Proof.
  assert (find_tables page_3_2_3 = Some [table_3_2_3]) as H1 by reflexivity.
  assert (Forall first_row_longest [table_3_2_3]) as H2.
  { repeat constructor; simpl; lia. }
  assert (Forall cells_xml [table_3_2_3]) as H3.
  { repeat constructor. }
  split; [exact H1|]. split; [exact H2|]. split; [exact H3|].
  exact (proj1 (extract_tables_copies_grids page_3_2_3 [table_3_2_3] s_empty
                  H1 H2 H3)).
Defined.

(** C5 as the specification words it fails: two different conversions,
    of two different files and half a second apart, go through the same
    temporary directory. *)
Lemma temp_dir_shared_within_a_second :
  valid_datetime sample_now ∧ valid_datetime sample_later ∧
  sample_now ≠ sample_later ∧
  temp_dir_of sample_now ["docs_word"; "a.docx"] s_empty =
    (Ok ["docs_word"; "_tmp_imgs_20250630235907"], s_empty) ∧
  temp_dir_of sample_later ["docs_word"; "b.docx"] s_empty =
    (Ok ["docs_word"; "_tmp_imgs_20250630235907"], s_empty).
Proof.
  split_and!; [unfold valid_datetime; simpl; lia..|done|by vm_compute|by vm_compute].
Qed.

Lemma temp_dir_same_folder_same_second_witness :
  valid_datetime sample_now ∧ valid_datetime sample_later ∧
  (tmp_path sample_now ["docs_word"; "a.docx"] =
   tmp_path sample_later ["docs_word"; "b.docx"] ↔
   parent ["docs_word"; "a.docx"] = parent ["docs_word"; "b.docx"] ∧
   same_second sample_now sample_later).
Proof.
  assert (valid_datetime sample_now) as V1 by (unfold valid_datetime; simpl; lia).
  assert (valid_datetime sample_later) as V2 by (unfold valid_datetime; simpl; lia).
  split; [exact V1|]. split; [exact V2|].
  apply (temp_dir_same_folder_same_second sample_now sample_later
           ["docs_word"; "a.docx"] ["docs_word"; "b.docx"] s_empty s_empty
           V1 V2); discriminate.
Defined.

(** C7 fails on the code: the source opens, the destination folder does
    not exist, [mkdir] raises before the [try] statement is entered, and
    the call returns without [pdf.close()] having run. *)
Theorem convert_leaves_pdf_open_when_mkdir_fails :
  fitz_open sample_parse ["pdfs"; "a.pdf"] sample_state = (Ok [hello_page], sample_state) ∧
  convert_pdf_to_docx sample_parse sample_recognised sample_now
    ["pdfs"; "a.pdf"] ["missing"; "a.docx"] true sample_state
  = (Raise FileNotFoundError, sample_state) ∧
  closed (convert_pdf_to_docx sample_parse sample_recognised sample_now
            ["pdfs"; "a.pdf"] ["missing"; "a.docx"] true sample_state).2
  = closed sample_state.
Proof. split_and!; by vm_compute. Qed.

Lemma convert_cleans_temp_dir_witness :
  fs sample_state !! ["pdfs"; "a.pdf"] = Some (File (Bytes [x41])) ∧
  fs sample_state !! tmp_path sample_now ["docs_word"; "a.docx"] = None ∧
  fs_wf (fs sample_state) = true ∧
  (convert_pdf_to_docx sample_parse sample_recognised sample_now
     ["pdfs"; "a.pdf"] ["docs_word"; "a.docx"] true sample_state).1 = Ok tt ∧
  ∀ l, fs (convert_pdf_to_docx sample_parse sample_recognised sample_now
             ["pdfs"; "a.pdf"] ["docs_word"; "a.docx"] true sample_state).2
         !! (tmp_path sample_now ["docs_word"; "a.docx"] ++ l) = None.
Proof.
  assert (fs sample_state !! ["pdfs"; "a.pdf"] = Some (File (Bytes [x41]))) as H1
    by (vm_compute; reflexivity).
  assert (sample_parse (Bytes [x41]) = Some [hello_page]) as H2 by reflexivity.
  assert (["docs_word"; "a.docx"] ≠ []) as H3 by discriminate.
  assert (mkdir_exist_ok (tmp_path sample_now ["docs_word"; "a.docx"])
            (set_doc [] sample_state)
          = (Ok tt, set_fs (<[tmp_path sample_now ["docs_word"; "a.docx"] := Dir]>
                              sample_fs) sample_state)) as H4
    by (vm_compute; reflexivity).
  assert (fs sample_state !! tmp_path sample_now ["docs_word"; "a.docx"] = None) as H5
    by (vm_compute; reflexivity).
  assert (fs_wf (fs sample_state) = true) as H6 by (vm_compute; reflexivity).
  pose proof (convert_cleans_temp_dir sample_parse sample_recognised sample_now
                ["pdfs"; "a.pdf"] ["docs_word"; "a.docx"] true
                (Bytes [x41]) [hello_page] sample_state _ H1 H2 H3 H4) as H.
  cbv zeta in H.
  destruct (convert_pdf_to_docx sample_parse sample_recognised sample_now
              ["pdfs"; "a.pdf"] ["docs_word"; "a.docx"] true sample_state)
    as [r s'].
  destruct H as (Hr & _ & Hgone).
  split; [exact H1|]. split; [exact H5|]. split; [exact H6|]. split.
  - cbn [fst]. rewrite Hr. vm_compute. reflexivity.
  - cbn [snd]. exact (Hgone H5 H6).
Defined.

Lemma convert_writes_dest_only_on_success_witness :
  fs (convert_pdf_to_docx sample_parse sample_recognised sample_now
        ["pdfs"; "a.pdf"] ["docs_word"; "a.docx"] true sample_state).2
    !! ["docs_word"; "a.docx"] =
    Some (File (Docx [Paragraph (text_of "Hello");
                      TableB (grid_of hello_table);
                      Picture [x01] Inches_2_5;
                      Paragraph []])) ∧
  fs (convert_pdf_to_docx sample_parse sample_recognised sample_now
        ["pdfs"; "c.pdf"] ["docs_word"; "c.docx"] true sample_state).2
    !! ["docs_word"; "c.docx"] = fs sample_state !! ["docs_word"; "c.docx"].
Proof.
  split.
  - pose proof (convert_writes_dest_only_on_success sample_parse sample_recognised
                  sample_now ["pdfs"; "a.pdf"] ["docs_word"; "a.docx"] true
                  sample_state) as H.
    assert ((convert_pdf_to_docx sample_parse sample_recognised sample_now
               ["pdfs"; "a.pdf"] ["docs_word"; "a.docx"] true sample_state).1 = Ok tt)
      as Hr by (vm_compute; reflexivity).
    destruct (convert_pdf_to_docx sample_parse sample_recognised sample_now
                ["pdfs"; "a.pdf"] ["docs_word"; "a.docx"] true sample_state)
      as [r s'].
    cbn [fst snd] in *. rewrite Hr in H.
    destruct H as (c & pdf & Hc & Hparse & Hsaved).
    assert (fs sample_state !! ["pdfs"; "a.pdf"] = Some (File (Bytes [x41]))) as Hc'
      by (vm_compute; reflexivity).
    rewrite Hc' in Hc. injection Hc as <-.
    simpl in Hparse. injection Hparse as <-.
    rewrite Hsaved. vm_compute. reflexivity.
  - pose proof (convert_writes_dest_only_on_success sample_parse sample_recognised
                  sample_now ["pdfs"; "c.pdf"] ["docs_word"; "c.docx"] true
                  sample_state) as H.
    assert ((convert_pdf_to_docx sample_parse sample_recognised sample_now
               ["pdfs"; "c.pdf"] ["docs_word"; "c.docx"] true sample_state).1
            = Raise FitzFileDataError)
      as Hr by (vm_compute; reflexivity).
    destruct (convert_pdf_to_docx sample_parse sample_recognised sample_now
                ["pdfs"; "c.pdf"] ["docs_word"; "c.docx"] true sample_state)
      as [r s'].
    cbn [fst snd] in *. rewrite Hr in H. apply H. vm_compute. discriminate.
Defined.

Lemma one_bad_image_is_skipped_witness :
  get_images hello_page =
    [{| xref := 7; image := [x01] |}] ++ {| xref := 8; image := [x00] |} :: [] ∧
  sample_recognised [x00] = false ∧
  xml_text (strip (get_text hello_page)) ∧
  (tables_run hello_page).1 = Ok tt ∧
  ∃ s', convert_page sample_recognised true ["docs_word"] hello_page sample_state
          = (Ok tt, s') ∧
        doc s' = [Paragraph (text_of "Hello");
                  TableB (grid_of hello_table);
                  Picture [x01] Inches_2_5;
                  Paragraph []].
Proof.
  assert (xml_text (strip (get_text hello_page))) as Htext.
  { repeat constructor. }
  assert ((tables_run hello_page).1 = Ok tt) as Htab by (vm_compute; reflexivity).
  split; [reflexivity|]. split; [reflexivity|].
  split; [exact Htext|]. split; [exact Htab|].
  destruct (one_bad_image_is_skipped sample_recognised hello_page ["docs_word"]
              [{| xref := 7; image := [x01] |}] []
              {| xref := 8; image := [x00] |} sample_state)
    as (s' & Hrun & Hdoc & _).
  - reflexivity.
  - reflexivity.
  - repeat constructor.
  - exact Htext.
  - exact Htab.
  - vm_compute. reflexivity.
  - repeat constructor; vm_compute; reflexivity.
  - exists s'. split; [exact Hrun|]. rewrite Hdoc. vm_compute. reflexivity.
Defined.

Lemma batch_reports_failures_and_goes_on_witness :
  1 ≤ length (discover_pdfs (fs sample_state) (src_dir sample_gui)) ∧
  ∃ s', _convert_all_pdfs sample_parse sample_recognised sample_gui
          (λ _, sample_now) sample_state = (Ok tt, s') ∧
        ui s' = [ProgConfigure 3 0; StatusConverting 3;
                 StatusFile "a.pdf" 1 3; ProgValue 1;
                 StatusFile "b.pdf" 2 3; ProgValue 2;
                 StatusFile "c.pdf" 3 3; ShowError "c.pdf" FitzFileDataError;
                 ProgValue 3;
                 StatusDone 3; ShowInfo_Done; ProgAfterReset].
Proof.
  assert (1 ≤ length (discover_pdfs (fs sample_state) (src_dir sample_gui))) as H1
    by (vm_compute; lia).
  split; [exact H1|].
  destruct (batch_reports_failures_and_goes_on sample_parse sample_recognised
              sample_gui (λ _, sample_now) sample_state H1)
    as (s' & Hrun & _ & Hui & _).
  exists s'. split; [exact Hrun|]. rewrite Hui. vm_compute. reflexivity.
Defined.

(** C8 as the specification words it fails on a source with an image
    python-docx rejects: the document saved with images holds a
    paragraph, the empty one [add_picture] had made for that image, that
    the document saved without images does not hold, so that the
    paragraph blocks of the two are not the same. *)
Lemma convert_with_images_leaves_empty_paragraph :
  fs (convert_pdf_to_docx sample_parse sample_recognised sample_now
        ["pdfs"; "a.pdf"] ["docs_word"; "a.docx"] true sample_state).2
    !! ["docs_word"; "a.docx"] =
    Some (File (Docx [Paragraph (text_of "Hello");
                      TableB (grid_of hello_table);
                      Picture [x01] Inches_2_5;
                      Paragraph []])) ∧
  fs (convert_pdf_to_docx sample_parse sample_recognised sample_now
        ["pdfs"; "a.pdf"] ["docs_word"; "a.docx"] false sample_state).2
    !! ["docs_word"; "a.docx"] =
    Some (File (Docx [Paragraph (text_of "Hello");
                      TableB (grid_of hello_table)])) ∧
  filter (λ b, is_picture b = false)
         [Paragraph (text_of "Hello"); TableB (grid_of hello_table);
          Picture [x01] Inches_2_5; Paragraph []] ≠
    [Paragraph (text_of "Hello"); TableB (grid_of hello_table)].
Proof.
  split_and!; [by vm_compute|by vm_compute|].
  intros E. vm_compute in E. discriminate E.
Qed.

Lemma convert_without_images_witness :
  ∃ s_t s_f,
    convert_pdf_to_docx sample_parse sample_recognised sample_now
      ["pdfs"; "a.pdf"] ["docs_word"; "a.docx"] true sample_state = (Ok tt, s_t) ∧
    convert_pdf_to_docx sample_parse sample_recognised sample_now
      ["pdfs"; "a.pdf"] ["docs_word"; "a.docx"] false sample_state = (Ok tt, s_f) ∧
    fs s_t !! ["docs_word"; "a.docx"] =
      Some (File (Docx [Paragraph (text_of "Hello");
                        TableB (grid_of hello_table);
                        Picture [x01] Inches_2_5;
                        Paragraph []])) ∧
    fs s_f !! ["docs_word"; "a.docx"] =
      Some (File (Docx [Paragraph (text_of "Hello");
                        TableB (grid_of hello_table)])).
Proof.
  assert (convert_pdf_to_docx sample_parse sample_recognised sample_now
            ["pdfs"; "a.pdf"] ["docs_word"; "a.docx"] true sample_state
          = (Ok tt, (convert_pdf_to_docx sample_parse sample_recognised sample_now
                       ["pdfs"; "a.pdf"] ["docs_word"; "a.docx"] true sample_state).2))
    as Ht by (vm_compute; reflexivity).
  destruct (proj2 (convert_without_images sample_parse sample_recognised sample_now
                     ["pdfs"; "a.pdf"] ["docs_word"; "a.docx"] sample_state) _ Ht)
    as (c & pdf & s_f & Hc & Hparse & Hf & Hdt & Hdf & _).
  assert (fs sample_state !! ["pdfs"; "a.pdf"] = Some (File (Bytes [x41]))) as Hc'
    by (vm_compute; reflexivity).
  rewrite Hc' in Hc. injection Hc as <-.
  simpl in Hparse. injection Hparse as <-.
  eexists _, s_f. split; [exact Ht|]. split; [exact Hf|]. split.
  - rewrite Hdt. vm_compute. reflexivity.
  - rewrite Hdf. vm_compute. reflexivity.
Defined.

Lemma convert_twice_same_document_witness :
  ∃ s1 s2,
    convert_pdf_to_docx sample_parse sample_recognised sample_now
      ["pdfs"; "a.pdf"] ["docs_word"; "a.docx"] true sample_state = (Ok tt, s1) ∧
    convert_pdf_to_docx sample_parse sample_recognised sample_later
      ["pdfs"; "a.pdf"] ["docs_word"; "a.docx"] true s1 = (Ok tt, s2) ∧
    fs s1 !! ["docs_word"; "a.docx"] =
      Some (File (Docx [Paragraph (text_of "Hello"); TableB (grid_of hello_table);
                        Picture [x01] Inches_2_5; Paragraph []])) ∧
    fs s2 !! ["docs_word"; "a.docx"] =
      Some (File (Docx [Paragraph (text_of "Hello"); TableB (grid_of hello_table);
                        Picture [x01] Inches_2_5; Paragraph []])).
Proof.
  set (s1 := (convert_pdf_to_docx sample_parse sample_recognised sample_now
                ["pdfs"; "a.pdf"] ["docs_word"; "a.docx"] true sample_state).2).
  set (s2 := (convert_pdf_to_docx sample_parse sample_recognised sample_later
                ["pdfs"; "a.pdf"] ["docs_word"; "a.docx"] true s1).2).
  assert (["pdfs"; "a.pdf"] ≠ ["docs_word"; "a.docx"]) as Hne by discriminate.
  assert (convert_pdf_to_docx sample_parse sample_recognised sample_now
            ["pdfs"; "a.pdf"] ["docs_word"; "a.docx"] true sample_state = (Ok tt, s1))
    as H1 by (vm_compute; reflexivity).
  assert (convert_pdf_to_docx sample_parse sample_recognised sample_later
            ["pdfs"; "a.pdf"] ["docs_word"; "a.docx"] true s1 = (Ok tt, s2))
    as H2 by (vm_compute; reflexivity).
  destruct (convert_twice_same_document sample_parse sample_recognised
              sample_now sample_later ["pdfs"; "a.pdf"] ["docs_word"; "a.docx"] true
              sample_state s1 (Ok tt) s2 Hne H1 H2)
    as (c & pdf & Hc & Hparse & Hd1 & Hd2).
  assert (fs sample_state !! ["pdfs"; "a.pdf"] = Some (File (Bytes [x41]))) as Hc'
    by (vm_compute; reflexivity).
  rewrite Hc' in Hc. injection Hc as <-.
  simpl in Hparse. injection Hparse as <-.
  assert (pdf_blocks sample_recognised true [hello_page] =
          [Paragraph (text_of "Hello"); TableB (grid_of hello_table);
           Picture [x01] Inches_2_5; Paragraph []]) as Hblocks
    by (vm_compute; reflexivity).
  rewrite Hblocks in Hd1, Hd2.
  exists s1, s2.
  split; [exact H1|]. split; [exact H2|]. split; [exact Hd1|exact Hd2].
Defined.


(** * Further properties of the code *)

(** ** Which exceptions come out *)

Lemma raises_only_ret (P : exc → Prop) {A} (a : A) : raises_only P (mret a : M A).
Proof. by intros s e s'. Qed.

Lemma raises_only_raise (P : exc → Prop) {A} (e : exc) :
  P e → raises_only P (raise e : M A).
Proof. intros He s e' s' [= <- _]. done. Qed.

Lemma raises_only_bind (P : exc → Prop) {A B} (m : M A) (k : A → M B) :
  raises_only P m → (∀ a, raises_only P (k a)) → raises_only P (m ≫= k).
Proof.
  intros Hm Hk s e s'. unfold mbind, M_bind.
  destruct (m s) as [[a|e0] s1] eqn:E.
  - apply Hk.
  - intros [= <- <-]. by eapply Hm.
Qed.

Lemma raises_only_for_each (P : exc → Prop) {A} (f : A → M unit) (l : list A) :
  (∀ x, raises_only P (f x)) → raises_only P (for_each f l).
Proof.
  intros Hf. induction l as [|x l IH]; simpl.
  - apply raises_only_ret.
  - apply raises_only_bind; [apply Hf|done].
Qed.

(** A [try] whose handler cannot raise lets through only what it does
    not catch. *)
Lemma raises_only_try_except (P : exc → Prop) {A} (catches : exc → bool)
    (m : M A) (h : exc → M A) :
  (∀ s e s', m s = (Raise e, s') → catches e = false → P e) →
  (∀ e, raises_only P (h e)) →
  raises_only P (try_except catches m h).
Proof.
  intros Hm Hh s e s'. unfold try_except.
  destruct (m s) as [[a|e0] s1] eqn:E; [done|].
  destruct (catches e0) eqn:Hc.
  - apply Hh.
  - intros [= <- <-]. by eapply Hm.
Qed.

Lemma raises_only_for_each_Forall (P : exc → Prop) {A} (Q : A → Prop)
    (f : A → M unit) (l : list A) :
  Forall Q l → (∀ x, Q x → raises_only P (f x)) → raises_only P (for_each f l).
Proof.
  intros Hl Hf. induction Hl as [|x l Hx _ IH]; simpl.
  - apply raises_only_ret.
  - apply raises_only_bind; [by apply Hf|done].
Qed.

Lemma Forall_enumerate_from {A} (Q : A → Prop) (l : list A) : ∀ start,
  Forall Q l →
  Forall (λ ix, start ≤ ix.1 < start + length l ∧ Q ix.2) (enumerate_from start l).
Proof.
  induction l as [|x l IH]; intros start Hl; simpl; [constructor|].
  apply Forall_cons in Hl as [Hx Hl]. constructor.
  - simpl. split; [lia|done].
  - eapply Forall_impl; [apply (IH (S start) Hl)|].
    intros [i y] [Hi Hy]. simpl in *. split; [lia|done].
Qed.

Lemma raises_only_set_cell_text (h r c : nat) (t : text) :
  raises_only (λ e, e = IndexError ∨ e = ValueError) (set_cell_text h r c t).
Proof.
  intros s e s'. unfold set_cell_text.
  destruct (doc s !! h) as [[?|tb|??]|]; try (intros [= <- _]; by left).
  destruct (decide _); [|intros [= <- _]; by left].
  destruct (run_text t) as [content []]; [done|]. intros [= <- _]. by right.
Qed.

(** A text lxml accepts leaves the index as the only thing that can go
    wrong. *)
Lemma raises_only_set_cell_xml (h r c : nat) (t : text) :
  xml_text t → raises_only (λ e, e = IndexError) (set_cell_text h r c t).
Proof.
  intros Ht s e s'. unfold set_cell_text.
  destruct (doc s !! h) as [[?|tb|??]|]; try by intros [= <- _].
  destruct (decide _); [|by intros [= <- _]].
  by rewrite run_text_ok.
Qed.

Lemma raises_only_extract_tables (page : Page) :
  raises_only (λ e, e = IndexError ∨ e = ValueError) (extract_tables page).
Proof.
  unfold extract_tables. apply raises_only_bind.
  - apply raises_only_try_except; [|intros; apply raises_only_ret].
    intros s e s'. unfold call_find_tables.
    destruct (find_tables page); [done|]. by intros [= <- _].
  - intros [[|data ts]|]; try apply raises_only_ret.
    apply raises_only_for_each. intros [|row0 rest]; [apply raises_only_ret|].
    unfold copy_table. apply raises_only_bind; [by intros s e s'|].
    intros h. apply raises_only_for_each. intros [r row].
    apply raises_only_for_each. intros [c cell]. apply raises_only_set_cell_text.
Qed.

Lemma raises_only_copy_table_xml (data : TableData) :
  cells_xml data → raises_only (λ e, e = IndexError) (copy_table data).
Proof.
  intros Hxml. destruct data as [|row0 rest]; [apply raises_only_ret|].
  unfold copy_table. apply raises_only_bind; [by intros s e s'|].
  intros h.
  apply (raises_only_for_each_Forall _ _ _ _
           (Forall_enumerate_from _ _ 0 Hxml)).
  intros [r row] [_ Hrow]. simpl in Hrow.
  apply (raises_only_for_each_Forall _ _ _ _
           (Forall_enumerate_from _ _ 0 Hrow)).
  intros [c cell] [_ Hcell]. by apply raises_only_set_cell_xml.
Qed.

(** Tables whose cell texts lxml accepts: only the index can go wrong. *)
Lemma extract_tables_raises_xml (page : Page) (ts : list TableData) :
  find_tables page = Some ts → Forall cells_xml ts →
  raises_only (λ e, e = IndexError) (extract_tables page).
Proof.
  intros Hfind Hxs s e s'.
  unfold extract_tables, try_except, call_find_tables, mbind, M_bind.
  rewrite Hfind. simpl. destruct ts as [|data ts']; [done|].
  exact (raises_only_for_each_Forall (λ e, e = IndexError) cells_xml copy_table
           (data :: ts') Hxs raises_only_copy_table_xml s e s').
Qed.

(** A cell inside the table: only the text can go wrong, and the table
    keeps its shape. *)
Lemma set_cell_text_in_range (h rows cols r c : nat) (t : text) s :
  table_at h rows cols s → r < rows → c < cols →
  table_at h rows cols (set_cell_text h r c t s).2 ∧
  ∀ e, (set_cell_text h r c t s).1 = Raise e → e = ValueError.
Proof.
  intros (tb & Hh & Hcols & Hlen) Hr Hc. unfold set_cell_text. rewrite Hh.
  cbn zeta. rewrite decide_True by (rewrite Hcols, Hlen; nia).
  destruct (run_text t) as [content ok]. cbn [fst snd]. split.
  - eexists. cbn [doc set_doc]. split_and!.
    + apply list_lookup_insert_eq. by eapply lookup_lt_Some.
    + done.
    + cbn [t_cells]. by rewrite length_insert.
  - intros e. destruct ok; [done|]. by intros [= <-].
Qed.

Lemma copy_row_in_range (h rows cols r : nat) (row : list (option text)) :
  r < rows → ∀ c0 s,
  c0 + length row ≤ cols → table_at h rows cols s →
  let run := for_each (λ '(c, cell),
                 set_cell_text h r c (strip (cell_or_empty cell)))
               (enumerate_from c0 row) s in
  table_at h rows cols run.2 ∧ ∀ e, run.1 = Raise e → e = ValueError.
Proof.
  intros Hr. induction row as [|cell row IH]; intros c0 s Hlen Hat; simpl.
  - done.
  - simpl in Hlen. unfold mbind, M_bind.
    destruct (set_cell_text_in_range h rows cols r c0
                (strip (cell_or_empty cell)) s Hat Hr) as [Hat1 He1]; [lia|].
    destruct (set_cell_text h r c0 (strip (cell_or_empty cell)) s)
      as [[[]|e0] s1]; cbn [fst snd] in *.
    + apply IH; [lia|done].
    + split; [done|]. intros e [= <-]. by apply He1.
Qed.

Lemma copy_rows_in_range (h rows cols : nat) (data : TableData) : ∀ r0 s,
  r0 + length data ≤ rows → Forall (λ row, length row ≤ cols) data →
  table_at h rows cols s →
  let run := for_each (λ '(r, row),
                 for_each (λ '(c, cell),
                     set_cell_text h r c (strip (cell_or_empty cell)))
                   (enumerate row))
               (enumerate_from r0 data) s in
  table_at h rows cols run.2 ∧ ∀ e, run.1 = Raise e → e = ValueError.
Proof.
  induction data as [|row data IH]; intros r0 s Hrows Hlen Hat; simpl.
  - done.
  - simpl in Hrows. apply Forall_cons in Hlen as [Hrow Hlen].
    unfold mbind, M_bind, enumerate.
    destruct (copy_row_in_range h rows cols r0 row ltac:(lia) 0 s
                ltac:(simpl; lia) Hat) as [Hat1 He1].
    destruct (for_each _ (enumerate_from 0 row) s) as [[[]|e0] s1];
      cbn [fst snd] in *.
    + apply IH; [lia|done|done].
    + split; [done|]. intros e [= <-]. by apply He1.
Qed.

(** A table with no row longer than its first: only a text can go
    wrong. *)
Lemma raises_only_copy_table_first_row (data : TableData) :
  first_row_longest data → raises_only (λ e, e = ValueError) (copy_table data).
Proof.
  intros Hfirst. destruct data as [|row0 rest]; [apply raises_only_ret|].
  intros s e s'. unfold copy_table, mbind, M_bind, add_table.
  set (rows := length (row0 :: rest)). set (cols := length row0).
  assert (table_at (length (doc s)) rows cols
            (set_doc (doc s ++ [TableB {| t_rows := rows; t_cols := cols;
                                          t_cells := replicate (rows * cols) [] |}]) s))
    as Hat.
  { eexists. cbn [doc set_doc]. split_and!.
    - rewrite lookup_app_r, Nat.sub_diag by lia. done.
    - done.
    - cbn [t_cells]. apply length_replicate. }
  destruct (copy_rows_in_range (length (doc s)) rows cols (row0 :: rest) 0 _
              ltac:(unfold rows; simpl; lia) Hfirst Hat) as [_ He].
  unfold enumerate in *. intros Hrun. apply He. by rewrite Hrun.
Qed.

Lemma extract_tables_raises_first_row (page : Page) (ts : list TableData) :
  find_tables page = Some ts → Forall first_row_longest ts →
  raises_only (λ e, e = ValueError) (extract_tables page).
Proof.
  intros Hfind Hts s e s'.
  unfold extract_tables, try_except, call_find_tables, mbind, M_bind.
  rewrite Hfind. simpl. destruct ts as [|data ts']; [done|].
  exact (raises_only_for_each_Forall (λ e, e = ValueError) first_row_longest
           copy_table (data :: ts') Hts raises_only_copy_table_first_row s e s').
Qed.

(** X1. Whatever the page holds, and whether it returns or raises,
    [extract_tables] only appends to the document: the blocks that were
    there keep their place and their content, the blocks that come after
    them are tables, and the file system, the count of closed documents
    and the GUI are as before. *)
Theorem extract_tables_only_appends (page : Page) s :
  ∃ added,
    doc (extract_tables page s).2 = doc s ++ added ∧
    Forall is_table added ∧
    fs (extract_tables page s).2 = fs s ∧
    closed (extract_tables page s).2 = closed s ∧
    ui (extract_tables page s).2 = ui s.
Proof.
  exists (tables_run page).2. rewrite extract_tables_frame.
  split_and!; [done|apply tables_run_tables|done..].
Qed.

(** X2. The exceptions [extract_tables] lets out are [IndexError] and
    [ValueError], each for its own reason: [IndexError] only for a page
    on which some detected table has a row longer than its first row,
    as the table is made with the columns of the first row; and
    [ValueError] only for a page on which the trimmed text of some cell
    holds a character lxml refuses.  The missing [find_tables] of an
    older PyMuPDF is never an error. *)
Theorem extract_tables_raises (page : Page) (e : exc) s s' :
  extract_tables page s = (Raise e, s') →
  ∃ ts, find_tables page = Some ts ∧
    (e = IndexError ∧ ¬ Forall first_row_longest ts ∨
     e = ValueError ∧ ¬ Forall cells_xml ts).
Proof.
  intros Hrun. destruct (find_tables page) as [ts|] eqn:Hfind.
  - exists ts. split; [done|].
    destruct (raises_only_extract_tables page s e s' Hrun) as [-> | ->].
    + left. split; [done|]. intros Hts.
      by pose proof (extract_tables_raises_first_row page ts Hfind Hts s _ s' Hrun).
    + right. split; [done|]. intros Hxs.
      by pose proof (extract_tables_raises_xml page ts Hfind Hxs s _ s' Hrun).
  - rewrite extract_tables_none in Hrun by (by left). done.
Qed.

(** ** The files of the image extractor *)

Lemma string_of_list_inj (a b : string) :
  String.list_ascii_of_string a = String.list_ascii_of_string b → a = b.
Proof.
  intros H. rewrite <- (String.string_of_list_ascii_of_string a),
    <- (String.string_of_list_ascii_of_string b). by rewrite H.
Qed.

Lemma string_app_inj_r (a b c : string) : a +:+ c = b +:+ c → a = b.
Proof.
  intros H. apply string_of_list_inj.
  apply (f_equal String.list_ascii_of_string) in H.
  rewrite !list_ascii_of_string_app in H. by apply app_inv_tail in H.
Qed.

(** Different xrefs give different file names. *)
Lemma img_name_inj (x y : Z) : img_name x = img_name y → x = y.
Proof.
  unfold img_name. intros H%string_app_inj_l%string_app_inj_r.
  by apply (inj pretty) in H.
Qed.

Lemma written_snoc (tmp : path) (imgs : list Image) (img : Image) (f : gmap path node) :
  written tmp (imgs ++ [img]) f =
  <[tmp ++ [img_name (xref img)] := File (Bytes (image img))]> (written tmp imgs f).
Proof. unfold written. by rewrite foldl_snoc. Qed.

Lemma written_lookup_outside (tmp q : path) (imgs : list Image) (f : gmap path node) :
  ¬ inside tmp q → written tmp imgs f !! q = f !! q.
Proof.
  intros Hq. induction imgs as [|img imgs IH] using rev_ind; [done|].
  rewrite written_snoc, lookup_insert_ne; [done|].
  intros <-. apply Hq. by eexists.
Qed.

Lemma written_lookup_image (tmp : path) (imgs : list Image) (img : Image)
    (f : gmap path node) :
  xref_functional imgs → img ∈ imgs →
  written tmp imgs f !! (tmp ++ [img_name (xref img)]) =
  Some (File (Bytes (image img))).
Proof.
  induction imgs as [|last imgs IH] using rev_ind; intros Hfun Hin.
  - by apply elem_of_nil in Hin.
  - rewrite written_snoc.
    destruct (decide (xref last = xref img)) as [E|Hne].
    + rewrite E, lookup_insert_eq. do 3 f_equal.
      apply Hfun; [set_solver|done|done].
    + rewrite lookup_insert_ne.
      * apply IH.
        -- intros i j Hi Hj. apply Hfun; set_solver.
        -- apply elem_of_app in Hin as [?|Hin]; [done|].
           apply list_elem_of_singleton in Hin. by subst.
      * intros H%app_inj_tail. destruct H as [_ H%img_name_inj]. done.
Qed.

Lemma for_each_cons {A} (f : A → M unit) (x : A) (l : list A) s :
  for_each f (x :: l) s =
  match f x s with
  | (Ok _, s1) => for_each f l s1
  | (Raise e, s1) => (Raise e, s1)
  end.
Proof. done. Qed.

Section image_files.
Context (recognised : list byte → bool).

(** A run of the image loop that returns has written every image. *)
Lemma images_loop_fs (tmp : path) (imgs : list Image) : ∀ s s',
  for_each (λ img,
    write_file (tmp ++ [img_name (xref img)]) (Bytes (image img));;
    try_except is_Exception
      (add_picture recognised (tmp ++ [img_name (xref img)])) (λ _, mret tt))
    imgs s = (Ok tt, s') →
  fs s' = written tmp imgs (fs s).
Proof.
  induction imgs as [|img imgs IH]; intros s s' Hrun; simpl in Hrun.
  - by injection Hrun as <-.
  - unfold mbind at 1, M_bind at 1 in Hrun. rewrite image_step in Hrun.
    destruct (parent_error _ _); [done|]. destruct (is_dir _ _); [done|].
    apply IH in Hrun. by rewrite Hrun.
Qed.

(** The outcome of the image loop and the files it leaves do not depend
    on the document, and the loop raises nothing but the errors of
    writing a file. *)
Lemma images_loop_any_doc (recognised' : list byte → bool) (tmp : path)
    (imgs : list Image) : ∀ s1 s2,
  fs s1 = fs s2 →
  let run1 := for_each (λ img,
      write_file (tmp ++ [img_name (xref img)]) (Bytes (image img));;
      try_except is_Exception
        (add_picture recognised (tmp ++ [img_name (xref img)])) (λ _, mret tt))
      imgs s1 in
  let run2 := for_each (λ img,
      write_file (tmp ++ [img_name (xref img)]) (Bytes (image img));;
      try_except is_Exception
        (add_picture recognised' (tmp ++ [img_name (xref img)])) (λ _, mret tt))
      imgs s2 in
  run1.1 = run2.1 ∧ fs run1.2 = fs run2.2 ∧ ∀ e, run1.1 = Raise e → write_error e.
Proof.
  induction imgs as [|img imgs IH]; intros s1 s2 Hfs; cbn zeta.
  - done.
  - rewrite !for_each_cons. cbv beta. rewrite !image_step. rewrite <- Hfs.
    unfold parent_error.
    destruct (is_dir (fs s1) (parent (tmp ++ [img_name (xref img)]))).
    + destruct (is_dir (fs s1) (tmp ++ [img_name (xref img)])).
      * split_and!; [done..|]. intros e [= <-]. right; by right.
      * apply IH. cbn [fs set_fs set_doc]. by rewrite Hfs.
    + split_and!; [done..|]. intros e [= <-].
      destruct (obstacle_cases (fs s1) (parent (tmp ++ [img_name (xref img)])) [])
        as [-> | ->]; [by left|right; by left].
Qed.
End image_files.

(** In a file system in which every entry sits in a directory, what
    lies above an entry is a directory. *)
Lemma fs_wf_above (f : gmap path node) (a b : path) (n : node) :
  fs_wf f = true → a ≠ [] → b ≠ [] → f !! (a ++ b) = Some n → f !! a = Some Dir.
Proof.
  intros Hwf Ha. revert n. induction b as [|x b IH] using rev_ind; [done|].
  intros n _ Hn. apply (proj1 (fs_wf_spec f) Hwf) in Hn.
  rewrite app_assoc, parent_snoc in Hn.
  apply is_dir_Some_Dir in Hn; [|by destruct a].
  destruct b as [|y b]; [by rewrite app_nil_r in Hn|].
  by apply (IH Dir).
Qed.

(** The walk stops with [ENOTDIR] only at a file. *)
Lemma obstacle_NotADirectoryError (f : gmap path node) (rest : path) : ∀ cur,
  obstacle f cur rest = NotADirectoryError →
  ∃ k c, k ≠ [] ∧ k `prefix_of` rest ∧ f !! (cur ++ k) = Some (File c).
Proof.
  induction rest as [|x rest IH]; intros cur; simpl; [done|].
  destruct (f !! (cur ++ [x])) as [[|c]|] eqn:E; [|intros _|done].
  - intros (k & c & Hk & [k' ->] & Hc)%IH. exists (x :: k), c.
    split_and!; [done|by exists k'|by rewrite <- app_assoc in Hc].
  - exists [x], c. split_and!; [done|by exists rest|done].
Qed.

(** And it does stop there, whatever comes after the file. *)
Lemma obstacle_file_above (f : gmap path node) :
  fs_wf f = true → ∀ rest cur k c,
  k ≠ [] → k `prefix_of` rest → f !! (cur ++ k) = Some (File c) →
  obstacle f cur rest = NotADirectoryError.
Proof.
  intros Hwf. induction rest as [|x rest IH]; intros cur k c Hk [k' Hk'] Hc.
  { by destruct k. }
  destruct k as [|y k]; [done|]. injection Hk' as Hx Hrest. subst y. simpl.
  destruct k as [|z k].
  - by rewrite Hc.
  - assert (f !! (cur ++ [x]) = Some Dir) as ->.
    { apply (fs_wf_above f (cur ++ [x]) (z :: k) (File c) Hwf);
        [apply snoc_ne_nil|done|by rewrite <- app_assoc]. }
    apply (IH (cur ++ [x]) (z :: k) c); [done|by exists k'|].
    by rewrite <- app_assoc.
Qed.

Section image_properties.
Context (recognised : list byte → bool).

(** X3. When [extract_images] returns, the bytes of every image of the
    page are in the file [img_<xref>.png] of the temporary directory,
    for the images python-docx rejected as for the others: the extractor
    deletes none of them.  Nothing outside the temporary directory has
    changed, nor have the count of closed documents and the GUI.
    Images with the same xref are taken to hold the same bytes. *)
Theorem extract_images_leaves_files (page : Page) (temp_dir : path) s s' :
  extract_images recognised page temp_dir s = (Ok tt, s') →
  xref_functional (get_images page) →
  (∀ img, img ∈ get_images page →
     fs s' !! (temp_dir ++ [img_name (xref img)]) = Some (File (Bytes (image img)))) ∧
  (∀ q, ¬ inside temp_dir q → fs s' !! q = fs s !! q) ∧
  closed s' = closed s ∧ ui s' = ui s.
Proof.
  intros Hrun Hfun.
  pose proof (images_loop_fs recognised temp_dir (get_images page) s s' Hrun) as Hfs.
  split_and!.
  - intros img Himg. rewrite Hfs. by apply written_lookup_image.
  - intros q Hq. rewrite Hfs. by apply written_lookup_outside.
  - pose proof (steps_extract_images same_closed_ui recognised page temp_dir) as H.
    specialize (H ltac:(by intros) ltac:(by intros) s). rewrite Hrun in H. apply H.
  - pose proof (steps_extract_images same_closed_ui recognised page temp_dir) as H.
    specialize (H ltac:(by intros) ltac:(by intros) s). rewrite Hrun in H. apply H.
Qed.

(** X4. A failure to write an image file is not swallowed: on a page
    with at least one image, when the temporary directory is not a
    directory, [extract_images] raises at the first image and leaves
    the state as it was.  The error is [NotADirectoryError] or
    [FileNotFoundError]; on a file system in which every entry sits in
    a directory it is [NotADirectoryError] exactly when a file sits at
    the place of the temporary directory or of a directory above it. *)
Theorem extract_images_needs_temp_dir (page : Page) (temp_dir : path) s :
  get_images page ≠ [] →
  is_dir (fs s) temp_dir = false →
  ∃ e, extract_images recognised page temp_dir s = (Raise e, s) ∧
    (e = FileNotFoundError ∨ e = NotADirectoryError) ∧
    (fs_wf (fs s) = true →
     (e = NotADirectoryError ↔
      ∃ q c, q ≠ [] ∧ q `prefix_of` temp_dir ∧ fs s !! q = Some (File c))).
Proof.
  intros Himgs Hdir. exists (obstacle (fs s) [] temp_dir). split_and!.
  - unfold extract_images.
    destruct (get_images page) as [|img imgs]; [done|].
    rewrite for_each_cons. cbv beta zeta. rewrite image_step.
    unfold parent_error. by rewrite parent_snoc, Hdir.
  - apply obstacle_cases.
  - intros Hwf. split.
    + intros (q & c & Hq & Hpre & Hc)%obstacle_NotADirectoryError.
      by exists q, c.
    + intros (q & c & Hne & Hpre & Hc).
      by apply (obstacle_file_above (fs s) Hwf temp_dir [] q c).
Qed.

(** X5. Whether python-docx accepts the images has no bearing on how
    [extract_images] ends nor on the files it leaves: with any two
    recognisers the outcome and the file system are the same.  What it
    raises, if it raises, is an error of writing a file, never the
    failure of [add_picture]; and when it returns the document has
    gained one block for every image, in order: the picture of an image
    python-docx accepts, and the empty paragraph [add_picture] had made
    for an image it rejects.  The pictures among them are those of the
    accepted images. *)
Theorem extract_images_any_recogniser
    (recognised' : list byte → bool) (page : Page) (temp_dir : path) s :
  (extract_images recognised page temp_dir s).1 =
    (extract_images recognised' page temp_dir s).1 ∧
  fs (extract_images recognised page temp_dir s).2 =
    fs (extract_images recognised' page temp_dir s).2 ∧
  (∀ e, (extract_images recognised page temp_dir s).1 = Raise e → write_error e) ∧
  ((extract_images recognised page temp_dir s).1 = Ok tt →
   doc (extract_images recognised page temp_dir s).2 =
     doc s ++ image_blocks recognised page) ∧
  image_blocks recognised page =
    (λ img, if recognised (image img) then Picture (image img) Inches_2_5
            else Paragraph []) <$> get_images page ∧
  filter (λ b, is_picture b = true) (image_blocks recognised page) =
    (λ img, Picture (image img) Inches_2_5) <$>
      filter (λ img, recognised (image img) = true) (get_images page).
Proof.
  destruct (images_loop_any_doc recognised recognised' temp_dir (get_images page)
              s s eq_refl) as (Hout & Hfs & Herr).
  split_and!; [exact Hout|exact Hfs|exact Herr| |done|apply image_blocks_pictures].
  intros Hok.
  destruct (extract_images recognised page temp_dir s) as [r s'] eqn:Hrun.
  simpl in Hok. subst r. by apply (extract_images_doc recognised page temp_dir).
Qed.
End image_properties.

(** ** The paragraph of a page *)

Lemma lstrip_spaces (t : text) : Forall (λ c, isspace c = true) t → lstrip t = [].
Proof. induction 1 as [|c t Hc _ IH]; simpl; [done|]. by rewrite Hc. Qed.

Lemma strip_nil_iff (t : text) : strip t = [] ↔ Forall (λ c, isspace c = true) t.
Proof.
  split.
  - intros H. destruct (strip_spec t) as (l & r & Ht & Hl & Hr & _).
    rewrite H in Ht. rewrite Ht. apply Forall_app. split; [done|]. done.
  - intros H. unfold strip, rstrip. by rewrite (lstrip_spaces t H).
Qed.

Global Instance doc_grows_by_preorder (P : block → Prop) : PreOrder (doc_grows_by P).
Proof.
  split.
  - intros s. exists []. by rewrite app_nil_r.
  - intros s1 s2 s3 (a1 & H1 & P1) (a2 & H2 & P2). exists (a1 ++ a2).
    rewrite H2, H1, <- app_assoc. split; [done|]. by apply Forall_app.
Qed.

Lemma extract_images_grows recognised (page : Page) (tmp : path) :
  steps (doc_grows_by (λ b, from_image b = true)) (extract_images recognised page tmp).
Proof.
  unfold extract_images. apply steps_for_each; [apply _|]. intros img.
  apply steps_bind; [apply _|..].
  - apply steps_write_file; [apply _|]. intros s. exists []. by rewrite app_nil_r.
  - intros _. apply steps_try_except; [apply _|..].
    + intros s. unfold add_picture.
      assert (doc_grows_by (λ b, from_image b = true) s
                (set_doc (doc s ++ [Paragraph []]) s)) as Hfail.
      { exists [Paragraph []]. split; [done|]. by repeat constructor. }
      destruct (fs s !! _) as [[|[b|d]]|]; try exact Hfail.
      * destruct (recognised b); [|exact Hfail].
        exists [Picture b Inches_2_5]. split; [done|]. by repeat constructor.
      * destruct (is_dir _ _); exact Hfail.
    + intros. apply steps_ret. apply _.
Qed.

(** X6. The paragraph of the page text comes first, and it is the only
    paragraph with text the page leaves: whatever happens in the page
    step, the document has grown by what the paragraph step leaves,
    followed by tables and by the blocks of the images only, which are
    pictures and empty paragraphs.  The paragraph step leaves nothing
    exactly when the text of the page is all whitespace, and otherwise
    one paragraph.  For a text lxml accepts it holds the trimmed text,
    which is not empty and neither starts nor ends with whitespace.
    For a text lxml refuses it holds a part of the trimmed text, from
    its start, and the page step ends there with [ValueError]: no table
    and no image of the page is looked at. *)
Theorem convert_page_paragraph_first
    (recognised : list byte → bool) (include_images : bool) (temp_dir : path)
    (page : Page) s :
  (∃ rest,
     doc (convert_page recognised include_images temp_dir page s).2 =
       doc s ++ (para_run page).2 ++ rest ∧
     Forall (λ b, is_table b ∨ from_image b = true) rest ∧
     (¬ xml_text (strip (get_text page)) →
      rest = [] ∧
      convert_page recognised include_images temp_dir page s =
        (Raise ValueError, set_doc (doc s ++ (para_run page).2) s))) ∧
  ((para_run page).2 = [] ↔ Forall (λ c, isspace c = true) (get_text page)) ∧
  (∀ b, b ∈ (para_run page).2 →
     (para_run page).2 = [b] ∧
     ∃ t, b = Paragraph t ∧ t `prefix_of` strip (get_text page)) ∧
  (xml_text (strip (get_text page)) → (para_run page).2 = para_of page) ∧
  (para_of page ≠ [] →
     para_of page = [Paragraph (strip (get_text page))] ∧
     strip (get_text page) ≠ [] ∧
     (∀ c, head (strip (get_text page)) = Some c → isspace c = false) ∧
     (∀ c, last (strip (get_text page)) = Some c → isspace c = false)).
Proof.
  split_and!.
  - rewrite convert_page_unfold.
    destruct (para_run_cases page) as [[Hxml E]|(Hxml & E & _)]; rewrite E.
    + cbn [fst snd]. cbn zeta.
      pose proof (tables_run_tables page) as Htab.
      assert (Forall (λ b, is_table b ∨ from_image b = true) (tables_run page).2)
        as Htab' by (eapply Forall_impl; eauto).
      destruct (tables_run page).1 as [[]|e].
      * destruct include_images.
        -- destruct (extract_images_grows recognised page temp_dir
                      (set_doc (doc s ++ para_of page ++ (tables_run page).2) s))
             as (added & Hdoc & Hpics).
           exists ((tables_run page).2 ++ added). rewrite Hdoc. cbn [doc set_doc].
           split_and!; [by rewrite <- !app_assoc| |done].
           apply Forall_app. split; [done|]. eapply Forall_impl; eauto.
        -- by exists (tables_run page).2.
      * by exists (tables_run page).2.
    + exists []. cbn [snd doc set_doc]. by rewrite app_nil_r.
  - rewrite <- strip_nil_iff. unfold para_run.
    destruct (strip (get_text page)); [done|].
    by destruct (run_text _) as [content ok].
  - intros b Hb. unfold para_run in *.
    destruct (strip (get_text page)) as [|c t] eqn:E.
    { by apply elem_of_nil in Hb. }
    pose proof (run_text_prefix (c :: t)) as Hpre.
    destruct (run_text (c :: t)) as [content ok]. cbn [snd] in *.
    apply list_elem_of_singleton in Hb as ->. split; [done|]. by exists content.
  - intros Hxml. by rewrite para_run_ok.
  - unfold para_of. intros Hne.
    destruct (strip_spec (get_text page)) as (_ & _ & _ & _ & _ & Hhead & Hlast).
    destruct (strip (get_text page)) as [|c t] eqn:E; [done|]. by split_and!.
Qed.

(** ** How a conversion can fail *)

Lemma raises_only_mono (P Q : exc → Prop) {A} (m : M A) :
  (∀ e, P e → Q e) → raises_only P m → raises_only Q m.
Proof. intros HPQ Hm s e s' Hrun. eapply HPQ, Hm, Hrun. Qed.

Lemma raises_only_write_file (p : path) (c : content) :
  raises_only write_error (write_file p c).
Proof.
  intros s e s'. unfold write_file, parent_error.
  destruct (is_dir (fs s) (parent p)).
  - destruct (is_dir (fs s) p); [|done]. intros [= <- _]. right; by right.
  - intros [= <- _].
    destruct (obstacle_cases (fs s) (parent p) []) as [-> | ->];
      [by left|right; by left].
Qed.

(** What [mkdir(exist_ok=True)] raises, and when. *)
Lemma mkdir_exist_ok_raises (p : path) (e : exc) s s' :
  mkdir_exist_ok p s = (Raise e, s') →
  s' = s ∧
  (e = FileNotFoundError ∧ is_dir (fs s) (parent p) = false ∨
   e = NotADirectoryError ∧ is_dir (fs s) (parent p) = false ∨
   e = FileExistsError ∧ is_dir (fs s) (parent p) = true ∧
     ∃ c, fs s !! p = Some (File c)).
Proof.
  unfold mkdir_exist_ok, try_except, os_mkdir, parent_error.
  destruct (is_dir (fs s) (parent p)) eqn:Hpar.
  - destruct (fs s !! p) as [[|c]|] eqn:E; cbn; unfold mbind, M_bind, gets; cbn.
    + destruct (is_dir (fs s) p) eqn:Hd; [done|]. exfalso.
      unfold is_dir in Hd. destruct p; [done|]. by rewrite E in Hd.
    + destruct (is_dir (fs s) p) eqn:E'; [done|]. intros [= <- <-].
      split; [done|]. right; right. eauto.
    + destruct (is_dir (fs s) p) eqn:E'; cbn; [|done]. by rewrite E'.
  - destruct (obstacle_cases (fs s) (parent p) []) as [-> | ->]; cbn;
      unfold mbind, M_bind, gets; cbn.
    + intros [= <- <-]. split; [done|]. by left.
    + destruct (is_dir (fs s) p); [done|]. intros [= <- <-].
      split; [done|]. right; by left.
Qed.

Section failures.
Context (fitz_parse : content → option PDF) (recognised : list byte → bool).

Lemma raises_only_add_paragraph (t : text) :
  raises_only (λ e, e = ValueError) (add_paragraph t).
Proof.
  intros s e s'. unfold add_paragraph.
  destruct (run_text t) as [content []]; [done|]. by intros [= <- _].
Qed.

Lemma raises_only_convert_body (pdf : PDF) (docx tmp : path) (inc : bool) :
  raises_only (λ e, e = IndexError ∨ e = ValueError ∨ write_error e)
              (convert_body recognised pdf docx inc tmp).
Proof.
  unfold convert_body. apply raises_only_bind.
  - apply raises_only_for_each. intros page. unfold convert_page.
    apply raises_only_bind.
    + destruct (strip (get_text page)); [apply raises_only_ret|].
      eapply raises_only_mono; [|apply raises_only_add_paragraph].
      intros e ->. right; by left.
    + intros _. apply raises_only_bind.
      * eapply raises_only_mono; [|apply raises_only_extract_tables].
        intros e [-> | ->]; [by left|right; by left].
      * intros _. destruct inc; [|apply raises_only_ret].
        unfold extract_images. apply raises_only_for_each. intros img.
        apply raises_only_bind.
        -- eapply raises_only_mono; [|apply raises_only_write_file].
           intros e He. right; by right.
        -- intros _. apply raises_only_try_except; [done|].
           intros; apply raises_only_ret.
  - intros _. unfold save. apply raises_only_bind; [by intros s e s'|].
    intros d. eapply raises_only_mono; [|apply raises_only_write_file].
    intros e He. right; by right.
Qed.

(** X7. A source that does not open makes [convert_pdf_to_docx] raise
    PyMuPDF's error and change nothing at all: no document is started,
    no temporary directory made, nothing closed.  The error is
    [FileNotFoundError] of PyMuPDF for a path at which nothing is, and
    its [FileDataError] for a directory, the empty path, which is the
    directory relative paths start from, included, and for a file it
    cannot parse.  And a call that ends with one of the two errors is
    such a call. *)
Theorem convert_open_failure
    (now : datetime) (pdf_path docx_path : path) (include_images : bool) s :
  (fs s !! pdf_path = None → pdf_path ≠ [] →
   convert_pdf_to_docx fitz_parse recognised now pdf_path docx_path
     include_images s = (Raise FitzFileNotFoundError, s)) ∧
  (fs s !! pdf_path = Some Dir ∨ fs s !! pdf_path = None ∧ pdf_path = [] →
   convert_pdf_to_docx fitz_parse recognised now pdf_path docx_path
     include_images s = (Raise FitzFileDataError, s)) ∧
  (∀ c, fs s !! pdf_path = Some (File c) → fitz_parse c = None →
   convert_pdf_to_docx fitz_parse recognised now pdf_path docx_path
     include_images s = (Raise FitzFileDataError, s)) ∧
  (∀ e s', convert_pdf_to_docx fitz_parse recognised now pdf_path docx_path
             include_images s = (Raise e, s') →
           e = FitzFileNotFoundError ∨ e = FitzFileDataError →
           s' = s ∧ ∀ c pdf, fs s !! pdf_path = Some (File c) → fitz_parse c ≠ Some pdf).
Proof.
  split_and!.
  - intros H Hne. rewrite convert_unfold. unfold fitz_open, is_dir.
    destruct pdf_path as [|x pdf_path']; [done|]. by rewrite H.
  - intros [H|[H ->]]; rewrite convert_unfold; unfold fitz_open; by rewrite H.
  - intros c H Hparse. rewrite convert_unfold. unfold fitz_open. by rewrite H, Hparse.
  - intros e s' Hrun He.
    destruct (convert_cases fitz_parse recognised now pdf_path docx_path include_images s)
      as [(e0 & Hopen & E)|[(c & pdf & e0 & Hc & Hparse & Hwhy & E)
                       |(c & pdf & s1 & r & s3 & Hc & Hparse & Hdocx & Hmk & Hbody & E)]];
      rewrite E in Hrun.
    + injection Hrun as <- <-. split; [done|]. intros c pdf Hc Hparse.
      unfold fitz_open in Hopen. by rewrite Hc, Hparse in Hopen.
    + injection Hrun as <- <-. destruct Hwhy as [->|Hmk].
      * rewrite convert_unfold in E. unfold fitz_open in E. rewrite Hc, Hparse in E.
        injection E as <-. by destruct He.
      * apply mkdir_exist_ok_raises in Hmk as [_ [[-> _]|[[-> _]|[-> _]]]];
          by destruct He.
    + injection Hrun as -> _.
      apply raises_only_convert_body in Hbody as [->|[->|[->|[->| ->]]]];
        by destruct He.
Qed.

(** X8. The failures the code absorbs never come out of
    [convert_pdf_to_docx]: not the [AttributeError] of a PyMuPDF without
    [find_tables], not the rejection of a picture by python-docx, not a
    failed removal while cleaning up. *)
Theorem convert_never_raises_absorbed
    (now : datetime) (pdf_path docx_path : path) (include_images : bool)
    (e : exc) s s' :
  convert_pdf_to_docx fitz_parse recognised now pdf_path docx_path
    include_images s = (Raise e, s') →
  e ≠ AttributeError ∧ e ≠ UnrecognizedImageError ∧ e ≠ DirectoryNotEmpty.
Proof.
  intros Hrun.
  destruct (convert_cases fitz_parse recognised now pdf_path docx_path include_images s)
    as [(e0 & Hopen & E)|[(c & pdf & e0 & Hc & Hparse & Hwhy & E)
                     |(c & pdf & s1 & r & s3 & Hc & Hparse & Hdocx & Hmk & Hbody & E)]];
    rewrite E in Hrun.
  - injection Hrun as <- <-. unfold fitz_open in Hopen.
    destruct (fs s !! pdf_path) as [[|c]|]; [by injection Hopen as <-| |].
    + destruct (fitz_parse c); [done|]. by injection Hopen as <-.
    + destruct (is_dir (fs s) pdf_path); by injection Hopen as <-.
  - injection Hrun as <- <-. destruct Hwhy as [->|Hmk].
    + rewrite convert_unfold in E. unfold fitz_open in E. rewrite Hc, Hparse in E.
      by injection E as <-.
    + by apply mkdir_exist_ok_raises in Hmk as [_ [[-> _]|[[-> _]|[-> _]]]].
  - injection Hrun as -> _.
    by apply raises_only_convert_body in Hbody as [->|[->|[->|[->| ->]]]].
Qed.
End failures.

(** ** What a conversion leaves alone *)

Global Instance dirs_kept_preorder : PreOrder dirs_kept.
Proof.
  split.
  - by intros s q.
  - intros s1 s2 s3 H12 H23 q Hq. by apply H23, H12.
Qed.

Lemma dirs_kept_write_file (p : path) (c : content) : steps dirs_kept (write_file p c).
Proof.
  intros s q Hq. unfold write_file.
  destruct (parent_error (fs s) p); [done|].
  destruct (is_dir (fs s) p) eqn:Hd; [done|]. cbn [snd fs set_fs].
  rewrite lookup_insert_ne; [done|]. intros <-.
  unfold is_dir in Hd. destruct p; [done|]. by rewrite Hq in Hd.
Qed.

Lemma dirs_kept_same_fs s s' : fs s' = fs s → dirs_kept s s'.
Proof. intros E q. by rewrite E. Qed.

Lemma dirs_kept_convert_body recognised (pdf : PDF) (docx tmp : path) (inc : bool) :
  steps dirs_kept (convert_body recognised pdf docx inc tmp).
Proof.
  unfold convert_body. apply steps_bind; [apply _|..].
  - apply steps_for_each; [apply _|]. intros page. unfold convert_page.
    apply steps_bind; [apply _|..].
    + destruct (strip (get_text page)); [apply steps_ret; apply _|].
      apply steps_add_paragraph. intros s b. by apply dirs_kept_same_fs.
    + intros _. apply steps_bind; [apply _|..].
      * apply steps_extract_tables; [apply _|]. intros s d. by apply dirs_kept_same_fs.
      * intros _. destruct inc; [|apply steps_ret; apply _].
        unfold extract_images. apply steps_for_each; [apply _|]. intros img.
        apply steps_bind; [apply _|apply dirs_kept_write_file|].
        intros _. apply steps_try_except; [apply _|..].
        -- apply steps_add_picture; [apply _|]. intros s b. by apply dirs_kept_same_fs.
        -- intros. apply steps_ret. apply _.
  - intros _. unfold save. apply steps_bind; [apply _|..].
    + apply steps_gets. apply _.
    + intros d. apply dirs_kept_write_file.
Qed.

Lemma cleaned_keeps_dir (tmp q : path) (f : gmap path node) :
  q ≠ tmp → f !! q = Some Dir → cleaned tmp f !! q = Some Dir.
Proof.
  intros Hne Hq. unfold cleaned.
  rewrite remove_empty_dir_lookup_ne by done.
  by rewrite remove_files_lookup, Hq.
Qed.

Lemma cleaned_keeps_nonempty (tmp : path) (x : string) (f : gmap path node) :
  f !! tmp = Some Dir → f !! (tmp ++ [x]) = Some Dir →
  cleaned tmp f !! tmp = Some Dir.
Proof.
  intros Htmp Hsub. unfold cleaned, remove_empty_dir.
  assert (remove_files (glob f tmp "*") f !! tmp = Some Dir) as Htmp'
    by (by rewrite remove_files_lookup, Htmp).
  assert (remove_files (glob f tmp "*") f !! (tmp ++ [x]) = Some Dir) as Hsub'
    by (by rewrite remove_files_lookup, Hsub).
  rewrite Htmp'.
  destruct (listdir (remove_files (glob f tmp "*") f) tmp) as [|p l] eqn:E; [|done].
  assert (tmp ++ [x] ∈ listdir (remove_files (glob f tmp "*") f) tmp) as Hin.
  { apply elem_of_listdir. split_and!; [|by eexists|by exists x].
    unfold is_dir. destruct tmp; [done|]. by rewrite Htmp'. }
  rewrite E in Hin. by apply elem_of_nil in Hin.
Qed.

Lemma mkdir_exist_ok_fresh (p : path) s :
  p ≠ [] → fs s !! p = None → is_dir (fs s) (parent p) = true →
  mkdir_exist_ok p s = (Ok tt, set_fs (<[p := Dir]> (fs s)) s).
Proof.
  intros Hne Hp Hpar. unfold mkdir_exist_ok, try_except, os_mkdir, parent_error.
  rewrite Hpar, Hp. unfold is_dir. destruct p; [done|]. by rewrite Hp.
Qed.

Section conversions.
Context (fitz_parse : content → option PDF) (recognised : list byte → bool).

(** X9. [pdf.close()] runs at most once in a call of
    [convert_pdf_to_docx], and exactly once whenever the call returns
    normally; it runs exactly when the source opened and the temporary
    directory was there to enter the [try] statement. *)
Theorem convert_closes_at_most_once
    (now : datetime) (pdf_path docx_path : path) (include_images : bool) s :
  let run := convert_pdf_to_docx fitz_parse recognised now pdf_path docx_path
               include_images s in
  (closed run.2 = closed s ∨ closed run.2 = S (closed s)) ∧
  (run.1 = Ok tt → closed run.2 = S (closed s)) ∧
  (closed run.2 = S (closed s) ↔
   ∃ c pdf s1, fs s !! pdf_path = Some (File c) ∧ fitz_parse c = Some pdf ∧
     docx_path ≠ [] ∧
     mkdir_exist_ok (tmp_path now docx_path) (set_doc [] s) = (Ok tt, s1)).
Proof.
  cbn zeta.
  destruct (convert_cases fitz_parse recognised now pdf_path docx_path include_images s)
    as [(e & Hopen & E)|[(c & pdf & e & Hc & Hparse & Hwhy & E)
                     |(c & pdf & s1 & r & s3 & Hc & Hparse & Hdocx & Hmk & Hbody & E)]];
    rewrite E; cbn [fst snd closed set_doc set_closed set_fs].
  - split_and!; [by left|done|]. split; [lia|].
    intros (c & pdf & s1 & Hc & Hparse & _). unfold fitz_open in Hopen.
    by rewrite Hc, Hparse in Hopen.
  - split_and!; [by left|done|]. split; [lia|].
    intros (c' & pdf' & s1 & _ & _ & Hdocx & Hmk). destruct Hwhy as [->|Hmk']; [done|].
    congruence.
  - destruct (convert_ran_facts recognised now pdf docx_path include_images
                s s1 r s3 Hdocx Hmk Hbody) as (_ & -> & _).
    split_and!; [by right|done|]. split; [|done]. intros _. by exists c, pdf, s1.
Qed.

(** Where a conversion writes. *)
Lemma convert_frame
    (now : datetime) (pdf_path docx_path : path) (include_images : bool) s :
  let s' := (convert_pdf_to_docx fitz_parse recognised now pdf_path docx_path
               include_images s).2 in
  (∀ q, q ≠ docx_path → q ≠ tmp_path now docx_path →
        ¬ inside (tmp_path now docx_path) q → fs s' !! q = fs s !! q) ∧
  (pdf_path ≠ docx_path → ¬ inside (tmp_path now docx_path) pdf_path →
   fs s' !! pdf_path = fs s !! pdf_path).
Proof.
  cbn zeta.
  destruct (convert_cases fitz_parse recognised now pdf_path docx_path include_images s)
    as [(e & Hopen & E)|[(c & pdf & e & Hc & Hparse & Hwhy & E)
                     |(c & pdf & s1 & r & s3 & Hc & Hparse & Hdocx & Hmk & Hbody & E)]];
    rewrite E; cbn [fst snd fs set_doc set_closed set_fs]; [done|done|].
  destruct (convert_ran_facts recognised now pdf docx_path include_images
              s s1 r s3 Hdocx Hmk Hbody) as (_ & _ & _ & Hbefore & Hframe & _).
  assert (∀ q, q ≠ docx_path → q ≠ tmp_path now docx_path →
               ¬ inside (tmp_path now docx_path) q →
               cleaned (tmp_path now docx_path) (fs s3) !! q = fs s !! q) as H.
  { intros q H1 H2 H3. rewrite cleaned_lookup_outside by done. by apply Hframe. }
  split; [exact H|]. intros H1 H3. apply H; [done| |done].
  intros ->. destruct Hbefore as [?|[? _]]; congruence.
Qed.

(** X10. A conversion changes nothing in the file system but the
    destination, the temporary directory and what lies directly inside
    it.  In particular the source file, when it is neither the
    destination nor inside the temporary directory, is after the call
    what it was before. *)
Theorem convert_touches_dest_and_temp_only
    (now : datetime) (pdf_path docx_path : path) (include_images : bool) s :
  let s' := (convert_pdf_to_docx fitz_parse recognised now pdf_path docx_path
               include_images s).2 in
  (∀ q, q ≠ docx_path → q ≠ tmp_path now docx_path →
        ¬ inside (tmp_path now docx_path) q → fs s' !! q = fs s !! q) ∧
  (pdf_path ≠ docx_path → ¬ inside (tmp_path now docx_path) pdf_path →
   fs s' !! pdf_path = fs s !! pdf_path).
Proof. apply convert_frame. Qed.

(** X11. A conversion removes no directory but its own temporary one:
    every other directory is still there afterwards.  And the temporary
    directory itself stays when it was there before the call with a
    directory inside it: the clean-up does not delete directories, and
    the [rmdir] that fails on the directory that is not empty is passed
    over in silence. *)
Theorem convert_keeps_directories
    (now : datetime) (pdf_path docx_path : path) (include_images : bool) s :
  let s' := (convert_pdf_to_docx fitz_parse recognised now pdf_path docx_path
               include_images s).2 in
  (∀ q, q ≠ tmp_path now docx_path → fs s !! q = Some Dir → fs s' !! q = Some Dir) ∧
  (∀ x, fs s !! tmp_path now docx_path = Some Dir →
        fs s !! (tmp_path now docx_path ++ [x]) = Some Dir →
        fs s' !! tmp_path now docx_path = Some Dir).
Proof.
  cbn zeta.
  destruct (convert_cases fitz_parse recognised now pdf_path docx_path include_images s)
    as [(e & Hopen & E)|[(c & pdf & e & Hc & Hparse & Hwhy & E)
                     |(c & pdf & s1 & r & s3 & Hc & Hparse & Hdocx & Hmk & Hbody & E)]];
    rewrite E; cbn [fst snd fs set_doc set_closed set_fs]; [done|done|].
  destruct (mkdir_ok_facts _ _ _ (snoc_ne_nil _ _) Hmk) as (Hdir1 & Hother & _).
  cbn [fs set_doc] in Hother.
  pose proof (dirs_kept_convert_body recognised pdf docx_path
                (tmp_path now docx_path) include_images s1) as Hkept.
  rewrite Hbody in Hkept. cbn [snd] in Hkept.
  split.
  - intros q Hq Hdir. apply cleaned_keeps_dir; [done|].
    apply Hkept. by rewrite Hother.
  - intros x Htmp Hsub. apply (cleaned_keeps_nonempty _ x).
    + by apply Hkept.
    + apply Hkept. rewrite Hother; [done|]. apply snoc_ne_self.
Qed.

(** X12. A conversion does not see the GUI: it leaves the log of the GUI
    as it found it, and with any other log in its place it ends the same
    way in the same state. *)
Theorem convert_ignores_gui
    (now : datetime) (pdf_path docx_path : path) (include_images : bool)
    (l : list event) s :
  let run := convert_pdf_to_docx fitz_parse recognised now pdf_path docx_path
               include_images s in
  ui run.2 = ui s ∧
  convert_pdf_to_docx fitz_parse recognised now pdf_path docx_path
    include_images (set_ui l s) = (run.1, set_ui l run.2).
Proof.
  cbn zeta. split; [|apply sim_ui_convert].
  pose proof (sim_ui_convert (ui s) fitz_parse recognised now pdf_path docx_path
                include_images s) as H.
  replace (set_ui (ui s) s) with s in H by (by destruct s).
  rewrite H at 1. done.
Qed.
End conversions.

(** ** When a conversion goes through *)

Section success.
Context (fitz_parse : content → option PDF) (recognised : list byte → bool).

(** The page loop returns when the text and the tables of every page go
    in without error, the temporary directory exists and holds no
    directory. *)
Lemma convert_pages_ok (inc : bool) (tmp : path) (pdf : PDF) : ∀ s,
  Forall page_ok pdf →
  is_dir (fs s) tmp = true →
  (∀ x, fs s !! (tmp ++ [x]) ≠ Some Dir) →
  ∃ s', for_each (convert_page recognised inc tmp) pdf s = (Ok tt, s').
Proof.
  induction pdf as [|page pdf IH]; intros s Htabs Hdir Hfiles; simpl.
  - by eexists.
  - apply Forall_cons in Htabs as [[Htext Htab] Htabs].
    assert (∃ s1, convert_page recognised inc tmp page s = (Ok tt, s1)) as [s1 Hpage].
    { rewrite convert_page_unfold_ok by done. cbn zeta. rewrite Htab.
      destruct inc; [|by eexists]. apply extract_images_ok; [done|].
      apply Forall_forall. intros img _. cbn [fs set_doc].
      unfold is_dir. destruct (tmp ++ [img_name (xref img)]) eqn:E.
      { by apply snoc_ne_nil in E. }
      rewrite <- E. specialize (Hfiles (img_name (xref img))).
      by destruct (fs s !! _) as [[|c]|]. }
    unfold mbind, M_bind. rewrite Hpage.
    assert (writes_files (inside tmp) s s1) as Hw.
    { pose proof (steps_convert_page (writes_files (inside tmp)) recognised inc tmp page)
        as H.
      unfold steps in H. specialize (H ltac:(by left)).
      specialize (H (λ s x c, writes_files_insert (inside tmp) (tmp ++ [x]) c s
                                 (ex_intro _ x eq_refl)) s).
      by rewrite Hpage in H. }
    apply IH; [done|..].
    + rewrite <- Hdir. apply is_dir_ext.
      destruct (Hw tmp) as [E|[Hin _]]; [done|]. by apply tmp_not_inside_tmp in Hin.
    + intros x Hx. destruct (Hw (tmp ++ [x])) as [E|[_ [c Hc]]]; [|congruence].
      apply (Hfiles x). congruence.
Qed.

(** X13. Conditions under which a conversion goes through, and the
    exact state it leaves.  The source is a file that PyMuPDF opens;
    on every page the trimmed text is one lxml accepts and the tables
    copy without error; the destination is not a directory and sits in
    an existing directory; and the temporary directory does not exist
    yet (nor is its name the name of the destination), in a file system
    in which every entry sits in a directory.  Then the call returns;
    the file system is the one it started from with the document of the
    pages stored at the destination and nothing else added, removed or
    changed, the temporary directory and the image files included; and
    the PDF was closed once.  The document holds, page after page, the
    paragraph of the text, the tables and, when images are included,
    one block for every image: its picture, or an empty paragraph when
    python-docx rejects it. *)
Theorem convert_succeeds
    (now : datetime) (pdf_path docx_path : path) (include_images : bool)
    (c : content) (pdf : PDF) s :
  fs s !! pdf_path = Some (File c) → fitz_parse c = Some pdf →
  Forall (λ page, xml_text (strip (get_text page)) ∧
                  (tables_run page).1 = Ok tt) pdf →
  docx_path ≠ [] →
  is_dir (fs s) (parent docx_path) = true → is_dir (fs s) docx_path = false →
  fs_wf (fs s) = true →
  fs s !! tmp_path now docx_path = None → docx_path ≠ tmp_path now docx_path →
  convert_pdf_to_docx fitz_parse recognised now pdf_path docx_path include_images s =
  (Ok tt,
   {| fs := <[docx_path := File (Docx (pdf_blocks recognised include_images pdf))]> (fs s);
      doc := pdf_blocks recognised include_images pdf;
      closed := S (closed s);
      ui := ui s |}) ∧
  pdf_blocks recognised include_images pdf =
    flat_map (λ page, para_of page ++ (tables_run page).2 ++
                      if include_images then image_blocks recognised page else [])
             pdf.
Proof.
  intros Hc Hparse Htabs Hdocx Hpar Hnd Hwf Hfresh Hne. split; [|done].
  set (tmp := tmp_path now docx_path) in *.
  assert (tmp ≠ []) as Htmp by apply snoc_ne_nil.
  set (s1 := set_fs (<[tmp := Dir]> (fs s)) (set_doc [] s)).
  assert (mkdir_exist_ok tmp (set_doc [] s) = (Ok tt, s1)) as Hmk.
  { apply mkdir_exist_ok_fresh; [done|done|]. unfold tmp. by rewrite parent_tmp_path. }
  assert (∀ x, fs s !! (tmp ++ [x]) = None) as Hbelow.
  { intros x. by apply fs_wf_nothing_below. }
  assert (parent docx_path ≠ tmp) as Hpne.
  { intros E%(f_equal length). unfold tmp in E. rewrite tmp_path_length in E by done.
    rewrite (path_split docx_path Hdocx) in E at 2. rewrite length_app in E.
    simpl in E. lia. }
  destruct (convert_pages_ok include_images tmp pdf s1 Htabs) as [s2 Hpages].
  { apply is_dir_Some_Dir; [done|]. apply lookup_insert_eq. }
  { intros x. cbn [fs s1 set_fs]. rewrite lookup_insert_ne by (symmetry; apply snoc_ne_self).
    by rewrite Hbelow. }
  destruct (convert_pages_facts recognised include_images tmp pdf s1 _ s2 Hpages)
    as (Hc2 & Hu2 & Hout & Hin).
  apply convert_pages_doc in Hpages as Hdoc2. destruct Hdoc2 as [_ Hdoc2].
  cbn [s1 fs doc closed ui set_fs set_doc] in Hc2, Hu2, Hdoc2.
  rewrite app_nil_l in Hdoc2.
  pose proof (docx_not_inside_tmp now docx_path Hdocx) as Hnin. fold tmp in Hnin.
  assert (convert_body recognised pdf docx_path include_images tmp s1 =
          (Ok tt, set_fs (<[docx_path := File (Docx (doc s2))]> (fs s2)) s2)) as Hbody.
  { unfold convert_body, mbind, M_bind. rewrite Hpages, save_spec.
    assert (parent_error (fs s2) docx_path = None) as ->.
    { unfold parent_error. rewrite (is_dir_ext _ (fs s) (parent docx_path)), Hpar; [done|].
      rewrite Hout by (by apply parent_not_inside_tmp).
      cbn [s1 fs set_fs]. by apply lookup_insert_ne. }
    rewrite (is_dir_ext _ (fs s) docx_path), Hnd; [done|].
    rewrite Hout by done. cbn [s1 fs set_fs]. by apply lookup_insert_ne. }
  assert (convert_pdf_to_docx fitz_parse recognised now pdf_path docx_path
            include_images s =
          let '(r, s3) := convert_body recognised pdf docx_path include_images tmp s1 in
          (r, set_closed (S (closed s3)) (set_fs (cleaned tmp (fs s3)) s3))) as ->.
  { clear -Hc Hparse Hmk Hdocx. subst s1 tmp.
    rewrite convert_unfold. unfold fitz_open. rewrite Hc, Hparse.
    destruct docx_path; [done|]. by rewrite Hmk. }
  rewrite Hbody.
  cbn [fs doc closed ui set_fs set_closed]. f_equal.
  unfold set_closed, set_fs. cbn [fs doc closed ui].
  rewrite Hc2, Hu2, Hdoc2. f_equal.
  set (D := File (Docx (pdf_blocks recognised include_images pdf))).
  assert (<[docx_path := D]> (fs s2) !! tmp = Some Dir) as Htmp3.
  { rewrite lookup_insert_ne by done. rewrite Hout by apply tmp_not_inside_tmp.
    cbn [s1 fs set_fs]. apply lookup_insert_eq. }
  assert (∀ x, <[docx_path := D]> (fs s2) !! (tmp ++ [x]) ≠ Some Dir) as Hfiles3.
  { intros x. rewrite lookup_insert_ne by (intros E; apply Hnin; by exists x).
    intros Hx. destruct (Hin _ _ Hx) as [E|(c' & E & _)]; [|done].
    cbn [s1 fs set_fs] in E. rewrite lookup_insert_ne in E by (symmetry; apply snoc_ne_self).
    by rewrite Hbelow in E. }
  destruct (cleaned_files_only tmp _ Htmp3 Hfiles3) as [Hgone Hgone'].
  apply map_eq. intros q.
  destruct (decide (q = tmp)) as [->|Hq].
  { rewrite Hgone, lookup_insert_ne by done. done. }
  destruct (is_child tmp q) eqn:Hch.
  { apply is_child_spec in Hch as [x ->].
    rewrite Hgone', lookup_insert_ne by (intros E; apply Hnin; by exists x).
    by rewrite Hbelow. }
  assert (¬ inside tmp q) as Hqn.
  { intros H%is_child_spec. congruence. }
  rewrite cleaned_lookup_outside by done.
  destruct (decide (q = docx_path)) as [->|Hqd].
  { by rewrite !lookup_insert_eq. }
  rewrite !lookup_insert_ne by done. rewrite Hout by done.
  cbn [s1 fs set_fs]. by apply lookup_insert_ne.
Qed.
End success.

(** ** The names of the destinations *)

Lemma rfind_dot_from_app (l1 l2 : list ascii) : ∀ (i : nat) (hit : option nat),
  rfind_dot_from i hit (l1 ++ l2) =
  rfind_dot_from (i + length l1) (rfind_dot_from i hit l1) l2.
Proof.
  induction l1 as [|c l1 IH]; intros i hit; simpl.
  - by rewrite Nat.add_0_r.
  - rewrite IH. by replace (S i + length l1) with (i + S (length l1)) by lia.
Qed.

Lemma length_list_ascii_of_string (a : string) :
  length (String.list_ascii_of_string a) = String.length a.
Proof. induction a as [|c a IH]; simpl; [done|]. by rewrite IH. Qed.

Lemma string_length_app (a b : string) :
  String.length (a +:+ b) = String.length a + String.length b.
Proof. induction a as [|c a IH]; simpl; [done|]. by rewrite IH. Qed.

Lemma substring_app_l (a b : string) : String.substring 0 (String.length a) (a +:+ b) = a.
Proof.
  induction a as [|c a IH]; simpl.
  - by destruct b.
  - by rewrite IH.
Qed.

(** The stem of a name in [.pdf] is what comes before the suffix,
    unless nothing does. *)
Lemma stem_pdf (pre : string) :
  stem (pre +:+ ".pdf") = if decide (pre = EmptyString) then ".pdf" else pre.
Proof.
  destruct (decide (pre = EmptyString)) as [->|Hne]; [done|].
  unfold stem, rfind_dot.
  rewrite list_ascii_of_string_app, rfind_dot_from_app, length_list_ascii_of_string.
  cbn [String.list_ascii_of_string rfind_dot_from Ascii.eqb Bool.eqb plus].
  rewrite string_length_app. cbn [String.length].
  assert (0 < String.length pre) as Hlen by (destruct pre; [done|simpl; lia]).
  replace (Nat.ltb 0 (String.length pre)) with true
    by (symmetry; by apply Nat.ltb_lt).
  replace (Nat.ltb (String.length pre) (String.length pre + 4 - 1)) with true
    by (symmetry; apply Nat.ltb_lt; lia).
  apply substring_app_l.
Qed.

Lemma name_snoc (d : path) (x : string) : name (d ++ [x]) = x.
Proof. unfold name. by rewrite last_snoc. Qed.

Lemma dst_file_of_pdf (self : GUI) (d : path) (pre : string) :
  dst_file_of self (d ++ [pre +:+ ".pdf"]) =
  dst_dir self ++ [(if decide (pre = EmptyString) then ".pdf" else pre) +:+ ".docx"].
Proof. unfold dst_file_of. by rewrite name_snoc, stem_pdf. Qed.

(** X14. The destination of a file of a batch.  A discovered file is
    an entry of the source folder whose name ends in [.pdf]; its
    destination is the entry of the destination folder named after
    what comes before that suffix, with [.docx] in its place; for the
    file named just [.pdf], which has no suffix for pathlib, [.docx] is
    put after the whole name.  Two discovered files, neither of them
    named [.pdf], never share a destination. *)
Theorem destinations_of_a_batch (self : GUI) (f : gmap path node) (p : path) :
  p ∈ discover_pdfs f (src_dir self) →
  (∃ pre : string,
     p = src_dir self ++ [pre +:+ ".pdf"] ∧
     dst_file_of self p =
       dst_dir self ++
         [(if decide (pre = EmptyString) then ".pdf" else pre) +:+ ".docx"]) ∧
  parent (dst_file_of self p) = dst_dir self ∧
  (∀ q, q ∈ discover_pdfs f (src_dir self) →
        name p ≠ ".pdf" → name q ≠ ".pdf" →
        dst_file_of self p = dst_file_of self q → p = q).
Proof.
  intros (_ & _ & pre & ->)%elem_of_discover_pdfs. split_and!.
  - exists pre. split; [done|]. apply dst_file_of_pdf.
  - unfold dst_file_of. apply parent_snoc.
  - intros q (_ & _ & pre' & ->)%elem_of_discover_pdfs Hp Hq.
    rewrite !name_snoc in Hp, Hq. rewrite !dst_file_of_pdf.
    intros E%app_inv_head. injection E as E. apply string_app_inj_r in E.
    destruct (decide (pre = EmptyString)) as [->|_]; [done|].
    destruct (decide (pre' = EmptyString)) as [->|_]; [done|].
    by subst.
Qed.

(** ** The batch as a whole *)

Global Instance path_le_total : Total path_le.
Proof.
  intros p. unfold path_le. induction p as [|x p IH]; intros q; [by left|].
  destruct q as [|y q]; [by right|]. simpl.
  rewrite (String.compare_antisym x y).
  destruct (String.compare y x); simpl; auto.
Qed.

Lemma announced_batch_events (total : nat) (pdf_paths : list path) :
  ∀ (idx : nat) (rs : list (outcome unit)),
  length rs = length pdf_paths →
  announced (batch_events total idx pdf_paths rs) = name <$> pdf_paths ∧
  progress (batch_events total idx pdf_paths rs) = seq idx (length pdf_paths).
Proof.
  unfold announced, progress.
  induction pdf_paths as [|p ps IH]; intros idx [|r rs] Hlen; try done.
  cbn [batch_events file_events]. rewrite !omap_app.
  injection Hlen as Hlen. destruct (IH (S idx) rs Hlen) as [-> ->].
  by destruct r.
Qed.

Section batches.
Context (fitz_parse : content → option PDF) (recognised : list byte → bool).

(** X15. A batch finds nothing to convert exactly when the source
    folder is not a directory, or does not exist, or holds no entry
    whose name ends in [.pdf].  The driver then shows the warning and
    does nothing else: it does not raise, and it leaves the file system
    and the progress bar alone. *)
Theorem batch_without_files (self : GUI) (clock : nat → datetime) s :
  (is_dir (fs s) (src_dir self) = false ∨
   ∀ pre : string, fs s !! (src_dir self ++ [pre +:+ ".pdf"]) = None) ↔
  _convert_all_pdfs fitz_parse recognised self clock s =
    (Ok tt, set_ui (ui s ++ [ShowWarning_NoPdf]) s).
Proof.
  split.
  - intros Hnone. apply batch_run_empty.
    destruct (discover_pdfs (fs s) (src_dir self)) as [|p ps] eqn:E; [done|].
    assert (p ∈ discover_pdfs (fs s) (src_dir self)) as Hp by (rewrite E; left).
    apply elem_of_discover_pdfs in Hp as (Hd & [n Hn] & pre & ->).
    destruct Hnone as [H|H]; [congruence|]. by rewrite H in Hn.
  - intros Hrun.
    destruct (discover_pdfs (fs s) (src_dir self)) as [|p ps] eqn:E.
    + destruct (is_dir (fs s) (src_dir self)) eqn:Hd; [right|by left].
      intros pre. destruct (fs s !! _) as [n|] eqn:Hn; [|done].
      assert (src_dir self ++ [pre +:+ ".pdf"] ∈ discover_pdfs (fs s) (src_dir self))
        as Hin.
      { apply elem_of_discover_pdfs. split_and!; [done|by eexists|by exists pre]. }
      rewrite E in Hin. by apply elem_of_nil in Hin.
    + destruct (batch_run fitz_parse recognised self clock s) as (s' & Hrun' & Hui).
      { rewrite E. simpl. lia. }
      rewrite Hrun in Hrun'. injection Hrun' as <-. cbn [ui set_ui] in Hui.
      by apply app_inv_head in Hui.
Qed.

(** X16. The files of a batch are taken in sorted order, each of them
    once: the discovered paths are sorted and without repetition, the
    driver returns, and the names it puts on the status line are the
    names of the discovered paths in that order, while the progress bar
    is set to 1, 2, ... up to their number. *)
Theorem batch_goes_in_sorted_order (self : GUI) (clock : nat → datetime) s :
  let pdf_paths := discover_pdfs (fs s) (src_dir self) in
  Sorted path_le pdf_paths ∧ NoDup pdf_paths ∧
  ∃ s' evs,
    _convert_all_pdfs fitz_parse recognised self clock s = (Ok tt, s') ∧
    ui s' = ui s ++ evs ∧
    announced evs = name <$> pdf_paths ∧
    progress evs = seq 1 (length pdf_paths).
Proof.
  intros pdf_paths. split_and!.
  - apply Sorted_merge_sort, _.
  - apply NoDup_discover_pdfs.
  - destruct pdf_paths as [|p ps] eqn:E.
    + eexists _, _. split; [by apply batch_run_empty|]. cbn [ui set_ui]. done.
    + destruct (batch_run fitz_parse recognised self clock s) as (s' & Hrun & Hui).
      { fold pdf_paths. rewrite E. simpl. lia. }
      fold pdf_paths in Hui. rewrite E in Hui.
      eexists _, _. split; [exact Hrun|]. split; [exact Hui|].
      unfold announced, progress. rewrite !omap_app. cbn [omap app].
      rewrite !app_nil_r.
      apply announced_batch_events. apply length_batch_outcomes.
Qed.
End batches.

(** ** What a batch writes, and where *)

Lemma last_char_app (a b : string) (c : ascii) :
  last (String.list_ascii_of_string b) = Some c →
  last (String.list_ascii_of_string (a +:+ b)) = Some c.
Proof. intros H. by rewrite list_ascii_of_string_app, last_app, H. Qed.

Lemma digit_not_letter (k : N) :
  (k < 10)%N → digit k ≠ "x"%char ∧ digit k ≠ "f"%char.
Proof.
  intros Hk.
  assert (k ∈ [0; 1; 2; 3; 4; 5; 6; 7; 8; 9]%N) as Hin.
  { rewrite !elem_of_cons. lia. }
  rewrite !elem_of_cons, elem_of_nil in Hin.
  destruct Hin as [->|[->|[->|[->|[->|[->|[->|[->|[->|[->|[]]]]]]]]]]]; by vm_compute.
Qed.

Lemma tmp_path_dst (self : GUI) (now : datetime) (p : path) :
  tmp_path now (dst_file_of self p) =
  dst_dir self ++ ["_tmp_imgs_" +:+ strftime_YmdHMS now].
Proof. unfold tmp_path, dst_file_of. by rewrite parent_snoc. Qed.

Lemma tmp_name_last (now : datetime) :
  last (String.list_ascii_of_string ("_tmp_imgs_" +:+ strftime_YmdHMS now)) =
  Some (digit (second now mod 10)).
Proof. apply last_char_app. reflexivity. Qed.

(** The name of a temporary directory ends in a digit. *)
Lemma tmp_name_ne (now : datetime) (pre suf : string) (c : ascii) :
  last (String.list_ascii_of_string suf) = Some c →
  c = "x"%char ∨ c = "f"%char →
  "_tmp_imgs_" +:+ strftime_YmdHMS now ≠ pre +:+ suf.
Proof.
  intros Hsuf Hc E. pose proof (tmp_name_last now) as H.
  rewrite E, (last_char_app pre suf c Hsuf) in H. injection H as H.
  destruct (digit_not_letter (second now mod 10)) as [Hx Hf].
  { apply N.mod_lt. lia. }
  destruct Hc; congruence.
Qed.

Lemma pdf_name_ne_docx (pre pre' : string) : pre +:+ ".pdf" ≠ pre' +:+ ".docx".
Proof.
  intros E%(f_equal (λ a, last (String.list_ascii_of_string a))).
  by rewrite (last_char_app pre ".pdf" "f"), (last_char_app pre' ".docx" "x") in E.
Qed.

Lemma snoc_inj (d d' : path) (x y : string) : d ++ [x] = d' ++ [y] → d = d' ∧ x = y.
Proof. intros H. by apply app_inj_tail in H. Qed.

Lemma clear_of_outside (self : GUI) (q p : path) :
  (∀ x, q ≠ dst_dir self ++ [x]) → (∀ x y, q ≠ dst_dir self ++ [x; y]) →
  clear_of self q p.
Proof.
  intros H1 H2 now. rewrite tmp_path_dst. split_and!.
  - apply H1.
  - apply H1.
  - intros [x ->]. apply (H2 ("_tmp_imgs_" +:+ strftime_YmdHMS now) x).
    by rewrite <- app_assoc.
Qed.

Lemma clear_of_pdf (self : GUI) (d p : path) (pre : string) :
  ¬ inside (dst_dir self) d → clear_of self (d ++ [pre +:+ ".pdf"]) p.
Proof.
  intros Hd now. rewrite tmp_path_dst. split_and!.
  - unfold dst_file_of. intros [_ E]%snoc_inj. by apply pdf_name_ne_docx in E.
  - intros [_ E]%snoc_inj. symmetry in E.
    by apply (tmp_name_ne now pre ".pdf" "f") in E; [|done|right].
  - intros [x [E _]%snoc_inj]. apply Hd. eexists. exact E.
Qed.

Lemma clear_of_docx (self : GUI) (p : path) (a : string) :
  dst_dir self ++ [a +:+ ".docx"] ≠ dst_file_of self p →
  clear_of self (dst_dir self ++ [a +:+ ".docx"]) p.
Proof.
  intros Hne now. rewrite tmp_path_dst. split_and!.
  - done.
  - intros [_ E]%snoc_inj. symmetry in E.
    by apply (tmp_name_ne now a ".docx" "x") in E; [|done|left].
  - intros Hin%inside_length. rewrite !length_app in Hin. simpl in Hin. lia.
Qed.

Section batch_files.
Context (fitz_parse : content → option PDF) (recognised : list byte → bool).

Lemma convert_clear (self : GUI) (now : datetime) (p q : path) s :
  clear_of self q p →
  fs (convert_pdf_to_docx fitz_parse recognised now p (dst_file_of self p)
        (include_imgs self) s).2 !! q = fs s !! q.
Proof.
  intros H. destruct (H now) as (H1 & H2 & H3).
  by apply convert_frame.
Qed.

Lemma convert_closed_bounds
    (now : datetime) (pdf_path docx : path) (inc : bool) s :
  closed s ≤ closed (convert_pdf_to_docx fitz_parse recognised now pdf_path docx
                       inc s).2 ≤ S (closed s).
Proof.
  destruct (convert_cases fitz_parse recognised now pdf_path docx inc s)
    as [(e & Hopen & E)|[(c & pdf & e & Hc & Hparse & Hwhy & E)
                     |(c & pdf & s1 & r & s3 & Hc & Hparse & Hdocx & Hmk & Hbody & E)]];
    rewrite E; cbn [fst snd closed set_doc set_closed set_fs]; [lia|lia|].
  destruct (convert_ran_facts recognised now pdf docx inc
              s s1 r s3 Hdocx Hmk Hbody) as (_ & -> & _). lia.
Qed.

Lemma batch_state_ui (self : GUI) (clock : nat → datetime)
    (pdf_paths : list path) : ∀ (idx : nat) (l : list event) s,
  batch_state fitz_parse recognised self clock idx pdf_paths (set_ui l s) =
  set_ui l (batch_state fitz_parse recognised self clock idx pdf_paths s).
Proof.
  induction pdf_paths as [|p ps IH]; intros idx l s; simpl; [done|].
  rewrite convert_ui.
  destruct (convert_pdf_to_docx _ _ _ _ _ _ s) as [r s1]. cbn [snd]. by rewrite IH.
Qed.

Lemma set_ui_set_ui l l' s : set_ui l (set_ui l' s) = set_ui l s.
Proof. done. Qed.

(** The loop of the driver ends in the state the conversions leave,
    with the events of the files added to the GUI log. *)
Lemma batch_loop_state (self : GUI) (clock : nat → datetime) (total : nat)
    (pdf_paths : list path) : ∀ (idx : nat) s,
  for_each (λ '(idx, pdf_path),
      emit (StatusFile (name pdf_path) idx total);;
      _convert_single fitz_parse recognised self (clock idx) pdf_path;;
      emit (ProgValue idx))
    (enumerate_from idx pdf_paths) s =
  (Ok tt,
   set_ui (ui s ++ batch_events total idx pdf_paths
                     (batch_outcomes fitz_parse recognised self clock idx pdf_paths s))
     (batch_state fitz_parse recognised self clock idx pdf_paths s)).
Proof.
  induction pdf_paths as [|p ps IH]; intros idx s; simpl.
  - rewrite app_nil_r. by destruct s.
  - unfold mbind at 1, M_bind at 1. rewrite batch_turn.
    destruct (convert_pdf_to_docx _ _ _ _ _ _ s) as [r s1].
    rewrite IH, batch_outcomes_ui, batch_state_ui. cbn [ui set_ui snd].
    by rewrite set_ui_set_ui, <- app_assoc.
Qed.

(** The driver as a whole. *)
Lemma batch_final (self : GUI) (clock : nat → datetime) s :
  ∃ evs, _convert_all_pdfs fitz_parse recognised self clock s =
    (Ok tt, set_ui (ui s ++ evs)
              (batch_state fitz_parse recognised self clock 1
                 (discover_pdfs (fs s) (src_dir self)) s)).
Proof.
  unfold _convert_all_pdfs, mbind at 1, M_bind at 1, gets.
  destruct (discover_pdfs (fs s) (src_dir self)) as [|p ps] eqn:E.
  - by exists [ShowWarning_NoPdf].
  - rewrite decide_False by done.
    unfold mbind at 1 2, M_bind at 1 2, emit at 1 2, modify.
    unfold mbind at 1, M_bind at 1. rewrite batch_loop_state.
    rewrite !batch_state_ui, !batch_outcomes_ui.
    unfold mbind, M_bind, emit, modify. cbn [ui set_ui].
    rewrite !set_ui_set_ui. eexists. rewrite <- !app_assoc. reflexivity.
Qed.

Lemma batch_state_clear (self : GUI) (clock : nat → datetime) (q : path)
    (pdf_paths : list path) : ∀ (idx : nat) s,
  (∀ p, p ∈ pdf_paths → clear_of self q p) →
  fs (batch_state fitz_parse recognised self clock idx pdf_paths s) !! q = fs s !! q.
Proof.
  induction pdf_paths as [|p ps IH]; intros idx s Hq; simpl; [done|].
  rewrite IH by (intros p' Hp'; apply Hq; by right).
  apply convert_clear, Hq. left.
Qed.

Lemma batch_state_closed (self : GUI) (clock : nat → datetime)
    (pdf_paths : list path) : ∀ (idx : nat) s,
  closed s ≤ closed (batch_state fitz_parse recognised self clock idx pdf_paths s)
  ≤ closed s + length pdf_paths.
Proof.
  induction pdf_paths as [|p ps IH]; intros idx s; simpl; [lia|].
  pose proof (convert_closed_bounds (clock idx) p (dst_file_of self p)
                (include_imgs self) s) as H1.
  pose proof (IH (S idx) (convert_pdf_to_docx fitz_parse recognised (clock idx) p
                            (dst_file_of self p) (include_imgs self) s).2) as H2.
  lia.
Qed.

(** X17. A batch writes in the destination folder and nowhere else:
    whatever is not an entry of the destination folder, or an entry of
    a directory directly inside it, is after the batch what it was
    before.  The discovered source files themselves are left as they
    were, also when source and destination are the same folder, as a
    name ending in [.pdf] is neither a destination nor a temporary
    directory; only a source folder that sits directly inside the
    destination folder is not covered.  And [pdf.close()] has run at
    most once per discovered file. *)
Theorem batch_stays_in_destination_folder
    (self : GUI) (clock : nat → datetime) s :
  let pdf_paths := discover_pdfs (fs s) (src_dir self) in
  let s' := (_convert_all_pdfs fitz_parse recognised self clock s).2 in
  (∀ q, (∀ x, q ≠ dst_dir self ++ [x]) → (∀ x y, q ≠ dst_dir self ++ [x; y]) →
        fs s' !! q = fs s !! q) ∧
  (¬ inside (dst_dir self) (src_dir self) →
   ∀ p, p ∈ pdf_paths → fs s' !! p = fs s !! p) ∧
  closed s ≤ closed s' ≤ closed s + length pdf_paths.
Proof.
  cbn zeta. destruct (batch_final self clock s) as [evs ->].
  cbn [snd fs closed set_ui]. split_and!.
  - intros q H1 H2. apply batch_state_clear. intros p _. by apply clear_of_outside.
  - intros Hsrc p (_ & _ & pre & ->)%elem_of_discover_pdfs.
    apply batch_state_clear. intros p _. by apply clear_of_pdf.
  - apply batch_state_closed.
  - apply batch_state_closed.
Qed.

(** What every conversion of a batch leaves at its destination, the
    conversions after it included. *)
Lemma batch_outputs (self : GUI) (clock : nat → datetime) (pdf_paths : list path) :
  ¬ inside (dst_dir self) (src_dir self) →
  Forall (λ p, ∃ pre : string, p = src_dir self ++ [pre +:+ ".pdf"]) pdf_paths →
  NoDup (dst_file_of self <$> pdf_paths) →
  ∀ (idx : nat) s (i : nat) (p : path) (r : outcome unit),
  pdf_paths !! i = Some p →
  batch_outcomes fitz_parse recognised self clock idx pdf_paths s !! i = Some r →
  let s' := batch_state fitz_parse recognised self clock idx pdf_paths s in
  match r with
  | Ok _ =>
      ∃ c pdf, fs s !! p = Some (File c) ∧ fitz_parse c = Some pdf ∧
        fs s' !! dst_file_of self p =
          Some (File (Docx (pdf_blocks recognised (include_imgs self) pdf)))
  | Raise _ => fs s' !! dst_file_of self p = fs s !! dst_file_of self p
  end.
Proof.
  intros Hsrc. induction pdf_paths as [|p0 ps IH]; intros Hpdf Hnd idx s i p r Hp Hr;
    [done|].
  apply Forall_cons in Hpdf as [[pre0 Hp0] Hpdf].
  rewrite fmap_cons in Hnd. apply NoDup_cons in Hnd as [Hfirst Hnd].
  cbn [batch_outcomes batch_state] in *.
  pose proof (convert_dest_facts fitz_parse recognised (clock idx) p0
                (dst_file_of self p0) (include_imgs self) s) as Hdest.
  destruct (convert_pdf_to_docx fitz_parse recognised (clock idx) p0
              (dst_file_of self p0) (include_imgs self) s) as [r0 s1] eqn:Hrun.
  cbn [snd]. destruct i as [|i]; simpl in Hp, Hr.
  - injection Hp as <-. injection Hr as <-.
    assert (fs (batch_state fitz_parse recognised self clock (S idx) ps s1)
              !! dst_file_of self p0 = fs s1 !! dst_file_of self p0) as Hlater.
    { apply batch_state_clear. intros p Hin. apply clear_of_docx.
      intros E. apply Hfirst. change (dst_file_of self p0 = dst_file_of self p) in E.
      rewrite E. apply list_elem_of_fmap. by exists p. }
    cbn zeta. rewrite Hlater. destruct r0 as [[]|e]; [done|].
    apply Hdest. rewrite tmp_path_dst. unfold dst_file_of.
    intros [_ E]%snoc_inj. symmetry in E.
    by apply (tmp_name_ne _ _ ".docx" "x") in E; [|done|left].
  - specialize (IH Hpdf Hnd (S idx) s1 i p r Hp Hr). cbn zeta in IH.
    assert (∀ q, clear_of self q p0 → fs s1 !! q = fs s !! q) as Hstep.
    { intros q Hq.
      pose proof (convert_clear self (clock idx) p0 q s Hq) as H.
      by rewrite Hrun in H. }
    apply list_elem_of_lookup_2 in Hp as Hin.
    destruct r as [[]|e]; cbn zeta.
    + destruct IH as (c & pdf & Hc & Hparse & Hsaved).
      exists c, pdf. split_and!; [|done..].
      rewrite <- Hc. symmetry. apply Hstep.
      apply (proj1 (Forall_forall _ _) Hpdf) in Hin as [pre ->].
      by apply clear_of_pdf.
    + rewrite IH. apply Hstep. apply clear_of_docx.
      intros E. apply Hfirst. rewrite <- E. apply list_elem_of_fmap. by exists p.
Qed.

(** X18. What a batch leaves in the destination folder.  The source
    folder does not sit directly inside the destination folder, and
    holds no file named just [.pdf].  Then every discovered file whose
    conversion returned has, when the batch is over, the document of
    its pages at its destination: the pages are those of the file as it
    was before the batch, and no later conversion has written over
    them.  And a file whose conversion raised has at its destination
    what was there before the batch. *)
Theorem batch_leaves_one_document_per_file
    (self : GUI) (clock : nat → datetime) s :
  let pdf_paths := discover_pdfs (fs s) (src_dir self) in
  let rs := batch_outcomes fitz_parse recognised self clock 1 pdf_paths s in
  let s' := (_convert_all_pdfs fitz_parse recognised self clock s).2 in
  ¬ inside (dst_dir self) (src_dir self) →
  fs s !! (src_dir self ++ [".pdf"]) = None →
  ∀ i p, pdf_paths !! i = Some p →
    ∃ r, rs !! i = Some r ∧
      match r with
      | Ok _ =>
          ∃ c pdf, fs s !! p = Some (File c) ∧ fitz_parse c = Some pdf ∧
            fs s' !! dst_file_of self p =
              Some (File (Docx (pdf_blocks recognised (include_imgs self) pdf)))
      | Raise _ => fs s' !! dst_file_of self p = fs s !! dst_file_of self p
      end.
Proof.
  intros pdf_paths rs s' Hsrc Hdot i p Hp.
  destruct (rs !! i) as [r|] eqn:Hr.
  2: { apply lookup_ge_None in Hr. apply lookup_lt_Some in Hp.
       unfold rs in Hr. rewrite length_batch_outcomes in Hr. lia. }
  exists r. split; [done|].
  assert (fs s' = fs (batch_state fitz_parse recognised self clock 1 pdf_paths s))
    as ->.
  { unfold s'. by destruct (batch_final self clock s) as [evs ->]. }
  assert (∀ p, p ∈ pdf_paths → name p ≠ ".pdf") as Hnames.
  { intros p' (_ & [n Hn] & pre & ->)%elem_of_discover_pdfs. rewrite name_snoc.
    intros E. change ".pdf" with (EmptyString +:+ ".pdf") in E at 2.
    apply string_app_inj_r in E. subst pre.
    change (fs s !! (src_dir self ++ [".pdf"]) = Some n) in Hn. congruence. }
  refine (batch_outputs self clock pdf_paths Hsrc _ _ 1 s i p r Hp Hr).
  - apply Forall_forall. by intros p' (_ & _ & Hpre)%elem_of_discover_pdfs.
  - apply NoDup_fmap_2_strong; [|apply NoDup_discover_pdfs].
    intros p1 p2 H1 H2 E.
    assert (∀ p', p' ∈ pdf_paths → ∃ pre, pre ≠ EmptyString ∧
              p' = src_dir self ++ [pre +:+ ".pdf"]) as Hform.
    { intros p' Hp'. pose proof (Hnames p' Hp') as Hn.
      apply elem_of_discover_pdfs in Hp' as (_ & _ & pre & ->).
      exists pre. split; [|done]. intros ->. by rewrite name_snoc in Hn. }
    destruct (Hform p1 H1) as (pre1 & Hne1 & ->).
    destruct (Hform p2 H2) as (pre2 & Hne2 & ->).
    rewrite !dst_file_of_pdf in E. rewrite !decide_False in E by done.
    apply snoc_inj in E as [_ E]. apply string_app_inj_r in E. by subst.
Qed.
End batch_files.

(** * The further properties on the sample inputs *)

Lemma extract_tables_raises_witness :
  extract_tables ctrl_page s_empty =
    (Raise ValueError,
     set_doc [TableB {| t_rows := 1; t_cols := 1; t_cells := [[]] |}] s_empty) ∧
  ∃ ts, find_tables ctrl_page = Some ts ∧ ¬ Forall cells_xml ts.
Proof.
  assert (extract_tables ctrl_page s_empty =
          (Raise ValueError,
           set_doc [TableB {| t_rows := 1; t_cols := 1; t_cells := [[]] |}] s_empty))
    as H by (vm_compute; reflexivity).
  split; [exact H|].
  destruct (extract_tables_raises ctrl_page ValueError s_empty _ H)
    as (ts & Hfind & [[E _]|[_ Hxml]]).
  - discriminate E.
  - exists ts. split; [exact Hfind|exact Hxml].
Defined.

Lemma extract_images_leaves_files_witness :
  xref_functional (get_images hello_page) ∧
  fs (extract_images sample_recognised hello_page ["docs_word"] sample_state).2
    !! (["docs_word"] ++ [img_name 8]) = Some (File (Bytes [x00])).
Proof.
  assert (xref_functional (get_images hello_page)) as Hfun.
  { intros i j Hi Hj. simpl in Hi, Hj.
    rewrite !elem_of_cons, elem_of_nil in Hi, Hj.
    destruct Hi as [->|[->|[]]], Hj as [->|[->|[]]]; simpl; intros E;
      (reflexivity || discriminate E). }
  assert (extract_images sample_recognised hello_page ["docs_word"] sample_state =
          (Ok tt, (extract_images sample_recognised hello_page ["docs_word"]
                     sample_state).2)) as Hrun
    by (vm_compute; reflexivity).
  split; [exact Hfun|].
  apply (proj1 (extract_images_leaves_files sample_recognised hello_page
                  ["docs_word"] sample_state _ Hrun Hfun)
           {| xref := 8; image := [x00] |}).
  simpl. right. left.
Defined.

Lemma extract_images_needs_temp_dir_witness :
  get_images hello_page ≠ [] ∧
  is_dir (fs sample_state) ["pdfs"; "a.pdf"; "imgs"] = false ∧
  fs_wf (fs sample_state) = true ∧
  extract_images sample_recognised hello_page ["pdfs"; "a.pdf"; "imgs"] sample_state =
    (Raise NotADirectoryError, sample_state).
Proof.
  assert (get_images hello_page ≠ []) as H1 by discriminate.
  assert (is_dir (fs sample_state) ["pdfs"; "a.pdf"; "imgs"] = false) as H2
    by (vm_compute; reflexivity).
  assert (fs_wf (fs sample_state) = true) as H3 by (vm_compute; reflexivity).
  split; [exact H1|]. split; [exact H2|]. split; [exact H3|].
  destruct (extract_images_needs_temp_dir sample_recognised hello_page
              ["pdfs"; "a.pdf"; "imgs"] sample_state H1 H2) as (e & Hrun & _ & Hiff).
  assert (e = NotADirectoryError) as ->.
  { apply (Hiff H3). exists ["pdfs"; "a.pdf"], (Bytes [x41]).
    split; [discriminate|]. split; [by exists ["imgs"]|]. vm_compute. reflexivity. }
  exact Hrun.
Defined.

Lemma extract_images_any_recogniser_witness :
  (extract_images sample_recognised hello_page ["docs_word"] sample_state).1 = Ok tt ∧
  (extract_images (λ _, true) hello_page ["docs_word"] sample_state).1 = Ok tt ∧
  doc (extract_images sample_recognised hello_page ["docs_word"] sample_state).2 =
    [Picture [x01] Inches_2_5; Paragraph []].
Proof.
  assert ((extract_images sample_recognised hello_page ["docs_word"] sample_state).1
          = Ok tt) as Hok by (vm_compute; reflexivity).
  destruct (extract_images_any_recogniser sample_recognised (λ _, true) hello_page
              ["docs_word"] sample_state) as (Hsame & _ & _ & Hdoc & _).
  split; [exact Hok|]. split; [by rewrite <- Hsame|].
  rewrite (Hdoc Hok). vm_compute. reflexivity.
Defined.

Lemma convert_page_paragraph_first_witness :
  ¬ xml_text (strip (get_text ctrl_page)) ∧
  convert_page sample_recognised true ["docs_word"] ctrl_page sample_state =
    (Raise ValueError, set_doc [Paragraph [97; 10]%N] sample_state).
Proof.
  assert (¬ xml_text (strip (get_text ctrl_page))) as Hno.
  { intros H%xml_text_forallb. vm_compute in H. discriminate H. }
  split; [exact Hno|].
  destruct (convert_page_paragraph_first sample_recognised true ["docs_word"]
              ctrl_page sample_state) as ((rest & _ & _ & Hraise) & _).
  destruct (Hraise Hno) as [_ Hrun]. rewrite Hrun. vm_compute. reflexivity.
Defined.

Lemma convert_open_failure_witness :
  fs sample_state !! ["pdfs"; "z.pdf"] = None ∧
  convert_pdf_to_docx sample_parse sample_recognised sample_now
    ["pdfs"; "z.pdf"] ["docs_word"; "z.docx"] true sample_state =
  (Raise FitzFileNotFoundError, sample_state).
Proof.
  assert (fs sample_state !! ["pdfs"; "z.pdf"] = None) as H
    by (vm_compute; reflexivity).
  split; [exact H|].
  apply (proj1 (convert_open_failure sample_parse sample_recognised sample_now
                  ["pdfs"; "z.pdf"] ["docs_word"; "z.docx"] true sample_state) H).
  discriminate.
Defined.

Lemma convert_never_raises_absorbed_witness :
  convert_pdf_to_docx sample_parse sample_recognised sample_now
    ["pdfs"; "a.pdf"] ["missing"; "a.docx"] true sample_state =
    (Raise FileNotFoundError, sample_state) ∧
  FileNotFoundError ≠ AttributeError ∧
  FileNotFoundError ≠ UnrecognizedImageError ∧
  FileNotFoundError ≠ DirectoryNotEmpty.
Proof.
  assert (convert_pdf_to_docx sample_parse sample_recognised sample_now
            ["pdfs"; "a.pdf"] ["missing"; "a.docx"] true sample_state =
          (Raise FileNotFoundError, sample_state)) as H
    by (vm_compute; reflexivity).
  split; [exact H|].
  exact (convert_never_raises_absorbed sample_parse sample_recognised sample_now
           ["pdfs"; "a.pdf"] ["missing"; "a.docx"] true FileNotFoundError
           sample_state sample_state H).
Defined.

Lemma convert_closes_at_most_once_witness :
  (convert_pdf_to_docx sample_parse sample_recognised sample_now
     ["pdfs"; "a.pdf"] ["docs_word"; "a.docx"] true sample_state).1 = Ok tt ∧
  closed (convert_pdf_to_docx sample_parse sample_recognised sample_now
            ["pdfs"; "a.pdf"] ["docs_word"; "a.docx"] true sample_state).2 =
    S (closed sample_state).
Proof.
  assert ((convert_pdf_to_docx sample_parse sample_recognised sample_now
             ["pdfs"; "a.pdf"] ["docs_word"; "a.docx"] true sample_state).1 = Ok tt)
    as Hok by (vm_compute; reflexivity).
  split; [exact Hok|].
  exact (proj1 (proj2 (convert_closes_at_most_once sample_parse sample_recognised
                         sample_now ["pdfs"; "a.pdf"] ["docs_word"; "a.docx"] true
                         sample_state)) Hok).
Defined.

Lemma convert_touches_dest_and_temp_only_witness :
  ["pdfs"; "a.pdf"] ≠ ["docs_word"; "a.docx"] ∧
  ¬ inside (tmp_path sample_now ["docs_word"; "a.docx"]) ["pdfs"; "a.pdf"] ∧
  fs (convert_pdf_to_docx sample_parse sample_recognised sample_now
        ["pdfs"; "a.pdf"] ["docs_word"; "a.docx"] true sample_state).2
    !! ["pdfs"; "a.pdf"] = fs sample_state !! ["pdfs"; "a.pdf"].
Proof.
  assert (["pdfs"; "a.pdf"] ≠ ["docs_word"; "a.docx"]) as H1 by discriminate.
  assert (¬ inside (tmp_path sample_now ["docs_word"; "a.docx"]) ["pdfs"; "a.pdf"])
    as H2.
  { intros [x E]. vm_compute in E. discriminate E. }
  split; [exact H1|]. split; [exact H2|].
  exact (proj2 (convert_touches_dest_and_temp_only sample_parse sample_recognised
                  sample_now ["pdfs"; "a.pdf"] ["docs_word"; "a.docx"] true
                  sample_state) H1 H2).
Defined.

Lemma convert_keeps_directories_witness :
  ["pdfs"] ≠ tmp_path sample_now ["docs_word"; "a.docx"] ∧
  fs sample_state !! ["pdfs"] = Some Dir ∧
  fs (convert_pdf_to_docx sample_parse sample_recognised sample_now
        ["pdfs"; "a.pdf"] ["docs_word"; "a.docx"] true sample_state).2
    !! ["pdfs"] = Some Dir.
Proof.
  assert (["pdfs"] ≠ tmp_path sample_now ["docs_word"; "a.docx"]) as H1.
  { intros E. vm_compute in E. discriminate E. }
  assert (fs sample_state !! ["pdfs"] = Some Dir) as H2 by (vm_compute; reflexivity).
  split; [exact H1|]. split; [exact H2|].
  exact (proj1 (convert_keeps_directories sample_parse sample_recognised
                  sample_now ["pdfs"; "a.pdf"] ["docs_word"; "a.docx"] true
                  sample_state) ["pdfs"] H1 H2).
Defined.

Lemma convert_succeeds_witness :
  fs sample_state !! ["pdfs"; "a.pdf"] = Some (File (Bytes [x41])) ∧
  sample_parse (Bytes [x41]) = Some [hello_page] ∧
  Forall (λ page, xml_text (strip (get_text page)) ∧
                  (tables_run page).1 = Ok tt) [hello_page] ∧
  is_dir (fs sample_state) (parent ["docs_word"; "a.docx"]) = true ∧
  is_dir (fs sample_state) ["docs_word"; "a.docx"] = false ∧
  fs_wf (fs sample_state) = true ∧
  fs sample_state !! tmp_path sample_now ["docs_word"; "a.docx"] = None ∧
  convert_pdf_to_docx sample_parse sample_recognised sample_now
    ["pdfs"; "a.pdf"] ["docs_word"; "a.docx"] true sample_state =
  (Ok tt,
   {| fs := <[["docs_word"; "a.docx"] :=
               File (Docx [Paragraph (text_of "Hello");
                           TableB (grid_of hello_table);
                           Picture [x01] Inches_2_5;
                           Paragraph []])]>
            (fs sample_state);
      doc := [Paragraph (text_of "Hello");
              TableB (grid_of hello_table);
              Picture [x01] Inches_2_5;
              Paragraph []];
      closed := S (closed sample_state);
      ui := ui sample_state |}).
Proof.
  assert (fs sample_state !! ["pdfs"; "a.pdf"] = Some (File (Bytes [x41]))) as H1
    by (vm_compute; reflexivity).
  assert (sample_parse (Bytes [x41]) = Some [hello_page]) as H2 by reflexivity.
  assert (Forall (λ page, xml_text (strip (get_text page)) ∧
                          (tables_run page).1 = Ok tt) [hello_page]) as H3.
  { repeat constructor. }
  assert (["docs_word"; "a.docx"] ≠ []) as H4 by discriminate.
  assert (is_dir (fs sample_state) (parent ["docs_word"; "a.docx"]) = true) as H5
    by (vm_compute; reflexivity).
  assert (is_dir (fs sample_state) ["docs_word"; "a.docx"] = false) as H6
    by (vm_compute; reflexivity).
  assert (fs_wf (fs sample_state) = true) as H7 by (vm_compute; reflexivity).
  assert (fs sample_state !! tmp_path sample_now ["docs_word"; "a.docx"] = None) as H8
    by (vm_compute; reflexivity).
  assert (["docs_word"; "a.docx"] ≠ tmp_path sample_now ["docs_word"; "a.docx"]) as H9.
  { intros E. vm_compute in E. discriminate E. }
  split_and!; [exact H1|exact H2|exact H3|exact H5|exact H6|exact H7|exact H8|].
  assert (pdf_blocks sample_recognised true [hello_page] =
          [Paragraph (text_of "Hello"); TableB (grid_of hello_table);
           Picture [x01] Inches_2_5; Paragraph []]) as Hblocks
    by (vm_compute; reflexivity).
  rewrite <- Hblocks.
  exact (proj1 (convert_succeeds sample_parse sample_recognised sample_now
                  ["pdfs"; "a.pdf"] ["docs_word"; "a.docx"] true (Bytes [x41])
                  [hello_page] sample_state H1 H2 H3 H4 H5 H6 H7 H8 H9)).
Defined.

Lemma destinations_of_a_batch_witness :
  ["pdfs"; "a.pdf"] ∈ discover_pdfs sample_fs (src_dir sample_gui) ∧
  parent (dst_file_of sample_gui ["pdfs"; "a.pdf"]) = dst_dir sample_gui.
Proof.
  assert (["pdfs"; "a.pdf"] ∈ discover_pdfs sample_fs (src_dir sample_gui)) as H.
  { apply elem_of_discover_pdfs. split; [vm_compute; reflexivity|].
    split; [vm_compute; eexists; reflexivity|]. exists "a". reflexivity. }
  split; [exact H|].
  exact (proj1 (proj2 (destinations_of_a_batch sample_gui sample_fs
                         ["pdfs"; "a.pdf"] H))).
Defined.

Lemma batch_without_files_witness :
  is_dir (fs sample_state) ["nowhere"] = false ∧
  _convert_all_pdfs sample_parse sample_recognised
    {| src_dir := ["nowhere"]; dst_dir := ["docs_word"]; include_imgs := true |}
    (λ _, sample_now) sample_state =
  (Ok tt, set_ui (ui sample_state ++ [ShowWarning_NoPdf]) sample_state).
Proof.
  assert (is_dir (fs sample_state) ["nowhere"] = false) as H
    by (vm_compute; reflexivity).
  split; [exact H|].
  exact (proj1 (batch_without_files sample_parse sample_recognised
                  {| src_dir := ["nowhere"]; dst_dir := ["docs_word"];
                     include_imgs := true |}
                  (λ _, sample_now) sample_state) (or_introl H)).
Defined.

Lemma batch_stays_in_destination_folder_witness :
  ¬ inside (dst_dir sample_gui) (src_dir sample_gui) ∧
  ["pdfs"; "a.pdf"] ∈ discover_pdfs (fs sample_state) (src_dir sample_gui) ∧
  fs (_convert_all_pdfs sample_parse sample_recognised sample_gui
        (λ _, sample_now) sample_state).2 !! ["pdfs"; "a.pdf"] =
    fs sample_state !! ["pdfs"; "a.pdf"].
Proof.
  assert (¬ inside (dst_dir sample_gui) (src_dir sample_gui)) as H1.
  { intros [x E]. discriminate E. }
  assert (["pdfs"; "a.pdf"] ∈ discover_pdfs (fs sample_state) (src_dir sample_gui))
    as H2.
  { apply elem_of_discover_pdfs. split; [vm_compute; reflexivity|].
    split; [vm_compute; eexists; reflexivity|]. exists "a". reflexivity. }
  split; [exact H1|]. split; [exact H2|].
  exact (proj1 (proj2 (batch_stays_in_destination_folder sample_parse
                         sample_recognised sample_gui (λ _, sample_now)
                         sample_state)) H1 ["pdfs"; "a.pdf"] H2).
Defined.

Lemma batch_leaves_one_document_per_file_witness :
  ¬ inside (dst_dir sample_gui) (src_dir sample_gui) ∧
  fs sample_state !! (src_dir sample_gui ++ [".pdf"]) = None ∧
  discover_pdfs (fs sample_state) (src_dir sample_gui) !! 0 = Some ["pdfs"; "a.pdf"] ∧
  fs (_convert_all_pdfs sample_parse sample_recognised sample_gui
        (λ _, sample_now) sample_state).2 !! ["docs_word"; "a.docx"] =
    Some (File (Docx [Paragraph (text_of "Hello"); TableB (grid_of hello_table);
                      Picture [x01] Inches_2_5; Paragraph []])).
Proof.
  assert (¬ inside (dst_dir sample_gui) (src_dir sample_gui)) as H1.
  { intros [x E]. discriminate E. }
  assert (fs sample_state !! (src_dir sample_gui ++ [".pdf"]) = None) as H2
    by (vm_compute; reflexivity).
  assert (discover_pdfs (fs sample_state) (src_dir sample_gui) !! 0 =
          Some ["pdfs"; "a.pdf"]) as H3 by (vm_compute; reflexivity).
  split; [exact H1|]. split; [exact H2|]. split; [exact H3|].
  destruct (batch_leaves_one_document_per_file sample_parse sample_recognised
              sample_gui (λ _, sample_now) sample_state H1 H2 0 ["pdfs"; "a.pdf"] H3)
    as (r & Hr & Hdoc).
  assert (batch_outcomes sample_parse sample_recognised sample_gui (λ _, sample_now) 1
            (discover_pdfs (fs sample_state) (src_dir sample_gui)) sample_state !! 0 =
          Some (Ok tt)) as Hok by (vm_compute; reflexivity).
  rewrite Hok in Hr. injection Hr as <-.
  destruct Hdoc as (c & pdf & Hc & Hparse & Hsaved).
  assert (fs sample_state !! ["pdfs"; "a.pdf"] = Some (File (Bytes [x41]))) as Hc'
    by (vm_compute; reflexivity).
  rewrite Hc' in Hc. injection Hc as <-.
  simpl in Hparse. injection Hparse as <-.
  assert (pdf_blocks sample_recognised (include_imgs sample_gui) [hello_page] =
          [Paragraph (text_of "Hello"); TableB (grid_of hello_table);
           Picture [x01] Inches_2_5; Paragraph []]) as Hblocks
    by (vm_compute; reflexivity).
  rewrite Hblocks in Hsaved. exact Hsaved.
Defined.
